(** * TCAN4550 CAN controller driver (tcan4550.c): model and properties

    The driver talks to the chip through short SPI exchanges, keeps a small
    software ring of frames waiting for transmission, converts frames to and
    from the chip's four-word message records and reacts to the interrupt
    register.  The definitions below follow tcan4550.c function by function.

    Conventions of the model:
    - a [uint32_t] is a [Z] reduced with [u32], an [unsigned char] a [Z]
      reduced with [u8]; shifts and masks are [Z.shiftl], [Z.shiftr], [Z.land];
      an [int] expression that is stored into a [uint32_t] is computed in
      [Z] and reduced once (signed overflow wraps, as the kernel is built);
    - a C array is a [list], read with [load] and written with [store];
    - the SPI bus is an oracle ([spi_reply]) together with the list of the
      requests put on the wire ([spi_sent]);
    - every function takes the state it touches and returns the new one;
      the spin lock and the mutex of the source are not modelled (each
      function runs to completion on its own). *)

From Stdlib Require Import ZArith List Lia Bool.
From stdpp Require Import base list.
Import ListNotations.
Local Open Scope Z_scope.

(** ** Machine integers and arrays *)

Definition u8 (x : Z) : Z := x mod 2 ^ 8.
Definition u32 (x : Z) : Z := x mod 2 ^ 32.

(** [buf[i]]: an index outside the array reads memory the model does not
    describe; [load] answers 0 there.  The source reads outside an array in
    one place only, the decoding loop of [spi_read_msgs] (bytes 132 and up of
    [rx_rxBuf]); what is proved of that function speaks of bytes inside the
    array. *)
Definition load (buf : list Z) (i : Z) : Z := default 0 (buf !! Z.to_nat i).

(** [buf[i] = v]: an index outside the array writes memory the model does not
    describe; [store] leaves the array as it is there.  The source writes
    outside an array in one place only, the decoding loop of [spi_read_msgs]
    (words 32 and up of [rxBuffer], which in C land in the members declared
    after it); what is proved of that function speaks of the words inside
    the array and of nothing that loop may have overwritten. *)
Definition store (buf : list Z) (i : Z) (v : Z) : list Z := <[Z.to_nat i := v]> buf.

(** A local array declared without initialiser.  Its content is
    indeterminate in C; the model starts it at 0.  This shows in two places:
    the last four bytes of the request of [spi_read32], which the chip
    ignores, and the word [spi_read32] returns when the exchange clocks in
    fewer than eight bytes. *)
Definition uninit (n : nat) : list Z := replicate n 0.

(** ** Constants of the source *)

Definition EINVAL : Z := 22.
Definition ENXIO : Z := 6.
Definition ENODEV : Z := 19.
Definition EOPNOTSUPP : Z := 95.

Definition DEVICE_ID1 : Z := 0x0.
Definition DEVICE_ID2 : Z := 0x4.
Definition STATUS : Z := 0x0C.
Definition SPI_MASK : Z := 0x10.
Definition MODES_OF_OPERATION : Z := 0x0800.
Definition INTERRUPT_FLAGS : Z := 0x0820.
Definition INTERRUPT_ENABLE : Z := 0x0830.
Definition TEST : Z := 0x1010.
Definition CCCR : Z := 0x1018.
Definition NBTP : Z := 0x101C.
Definition IR : Z := 0x1050.
Definition IE : Z := 0x1054.
Definition ILE : Z := 0x105C.
Definition RXF0C : Z := 0x10A0.
Definition RXF0S : Z := 0x10A4.
Definition RXF0A : Z := 0x10A8.
Definition TXBC : Z := 0x10C0.
Definition TXESC : Z := 0x10C8.
Definition RXESC : Z := 0x10BC.
Definition TXQFS : Z := 0x10C4.
Definition TXBAR : Z := 0x10D0.

Definition RF0N : Z := Z.shiftl 1 0.
Definition TC : Z := Z.shiftl 1 9.
Definition TFE : Z := Z.shiftl 1 11.
Definition EP : Z := Z.shiftl 1 23.
Definition EW : Z := Z.shiftl 1 24.
Definition BO : Z := Z.shiftl 1 25.

Definition INIT : Z := 0x1.
Definition CCE : Z := 0x2.
Definition CSR : Z := 0x10.
Definition MODESEL_1 : Z := 0x40.
Definition MODESEL_2 : Z := 0x80.

Definition RX_SLOT_SIZE : Z := 16.
Definition TX_SLOT_SIZE : Z := 16.
Definition TX_MSG_BOXES : Z := 32.
Definition TX_FIFO_START_ADDRESS : Z := 0x0.
Definition RX_MSG_BOXES : Z := 32.
Definition RX_FIFO_START_ADDRESS : Z := 0x200.
Definition MRAM_BASE : Z := 0x8000.
Definition MRAM_SIZE_WORDS : Z := 512.

Definition MAX_BURST_TX_MESSAGES : Z := 8.
Definition MAX_BURST_RX_MESSAGES : Z := 8.
Definition TX_BUFFER_SIZE : Z := 16 + 1.

Definition TCAN_ID : Z := 0x4E414354.
Definition TCAN_ID2 : Z := 0x30353534.

(** Flags and masks of [can_id] (linux/can.h) and of error frames
    (linux/can/error.h), which the source uses by name. *)
Definition CAN_EFF_FLAG : Z := 0x80000000.
Definition CAN_RTR_FLAG : Z := 0x40000000.
Definition CAN_ERR_FLAG : Z := 0x20000000.
Definition CAN_SFF_MASK : Z := 0x000007FF.
Definition CAN_EFF_MASK : Z := 0x1FFFFFFF.
Definition CAN_ERR_BUSOFF : Z := 0x00000040.
Definition CAN_ERR_DLC : Z := 8.

Definition CAN_CTRLMODE_LOOPBACK : Z := 0x01.
Definition CAN_CTRLMODE_LISTENONLY : Z := 0x02.
Definition CAN_CTRLMODE_ONE_SHOT : Z := 0x08.

(** ** Data model *)

Record can_frame := {
  can_id : Z;          (* identifier and EFF/RTR/ERR flags *)
  len : Z;             (* payload length in bytes *)
  data : list Z        (* data[8] *)
}.

(** A socket buffer: the frame it carries and the verdict of the kernel's
    [can_dropped_invalid_skb] on it. *)
Record sk_buff := {
  skb_data : can_frame;
  skb_invalid : bool
}.

Inductive can_state :=
| CAN_STATE_ERROR_ACTIVE
| CAN_STATE_ERROR_WARNING
| CAN_STATE_ERROR_PASSIVE
| CAN_STATE_BUS_OFF
| CAN_STATE_STOPPED.

Record can_bittiming := {
  prop_seg : Z;
  phase_seg1 : Z;
  phase_seg2 : Z;
  sjw : Z;
  brp : Z
}.

Record can_bittiming_const := {
  tseg1_min : Z;
  tseg1_max : Z;
  tseg2_min : Z;
  tseg2_max : Z;
  sjw_max : Z;
  brp_min : Z;
  brp_max : Z;
  brp_inc : Z
}.

Definition tcan4550_bittiming_const : can_bittiming_const := {|
  tseg1_min := 1;
  tseg1_max := 255;
  tseg2_min := 1;
  tseg2_max := 127;
  sjw_max := 127;
  brp_min := 1;
  brp_max := 511;
  brp_inc := 1
|}.

Record can_device_stats := {
  bus_off : Z;
  error_warning : Z;
  error_passive : Z
}.

Record can_priv := {
  state : can_state;
  bittiming : can_bittiming;
  ctrlmode : Z;
  can_stats : can_device_stats
}.

Record net_device_stats := {
  rx_packets : Z;
  rx_bytes : Z;
  tx_packets : Z;
  tx_bytes : Z;
  rx_dropped : Z
}.

(** The part of the network device the driver acts on.  [netif_rx] lists the
    frames handed to the stack, oldest first; [echoed] the buffers looped
    back through the echo stack; [skb_alloc n] tells whether the [n]-th
    buffer allocation succeeds. *)
Record net_device := {
  stats : net_device_stats;
  queue_stopped : bool;
  bus_off_notified : nat;
  netif_rx : list can_frame;
  echoed : list sk_buff;
  skb_alloc : nat -> bool;
  skb_allocs : nat
}.

(** The SPI device and the bus behind it: [spi_reply n req] is the status of
    the [n]-th exchange and the bytes it clocks in, [spi_sent] the requests
    sent so far, oldest first.  With a failing status the returned bytes
    stand for whatever the receive buffer holds afterwards. *)
Record spi_device := {
  spi_reply : nat -> list Z -> Z * list Z;
  spi_sent : list (list Z)
}.

Record tcan4550_priv := {
  can : can_priv;
  ndev : net_device;
  spi : option spi_device;       (* None: the null pointer *)
  tx_work : bool;                (* the transmit work is queued *)
  tx_skb_buf : list (option sk_buff);
  tx_head : Z;
  tx_tail : Z;
  rxBuffer : list Z;
  txBuffer : list Z;
  rx_txBuf : list Z;
  rx_rxBuf : list Z;
  tx_txBuf : list Z;
  tx_rxBuf : list Z
}.

(** ** SPI helper functions *)

(** Bytes clocked into the first [n] places of the receive buffer. *)
Fixpoint clock_in (n : nat) (rx buf : list Z) : list Z :=
  match n, buf with
  | O, _ => buf
  | S _, [] => []
  | S n', b :: buf' =>
      match rx with
      | [] => b :: clock_in n' [] buf'
      | r :: rx' => u8 r :: clock_in n' rx' buf'
      end
  end.

Definition spi_sync (d : spi_device) (tx : list Z) : Z * list Z * spi_device :=
  let '(ret, rx) := spi_reply d (length (spi_sent d)) tx in
  (ret, rx, {| spi_reply := spi_reply d; spi_sent := spi_sent d ++ [tx] |}).

(** [rxBuf] and [txBuf] are arrays at every call site, so of the three null
    tests only the one on [spi] can fire. *)
Definition spi_transfer (s : option spi_device) (lenBytes : Z) (rxBuf txBuf : list Z)
  : Z * option spi_device * list Z :=
  match s with
  | None => (- EINVAL, None, rxBuf)
  | Some d =>
      let n := Z.to_nat lenBytes in
      let '(ret, rx, d') := spi_sync d (take n txBuf) in
      (ret, Some d', clock_in n rx rxBuf)
  end.

Definition spi_read32 (s : option spi_device) (address : Z) : Z * option spi_device :=
  let txBuf := uninit 8 in
  let rxBuf := uninit 8 in
  let txBuf := store txBuf 0 0x41 in
  let txBuf := store txBuf 1 (u8 (Z.shiftr address 8)) in
  let txBuf := store txBuf 2 (u8 (Z.land address 0xFF)) in
  let txBuf := store txBuf 3 1 in
  let '(_, s', rxBuf) := spi_transfer s 8 rxBuf txBuf in
  (u32 (Z.shiftl (load rxBuf 4) 24 + Z.shiftl (load rxBuf 5) 16
        + Z.shiftl (load rxBuf 6) 8 + load rxBuf 7), s').

Definition spi_write32 (s : option spi_device) (address word : Z) : Z * option spi_device :=
  let txBuf := uninit 8 in
  let rxBuf := uninit 8 in
  let txBuf := store txBuf 0 0x61 in
  let txBuf := store txBuf 1 (u8 (Z.shiftr address 8)) in
  let txBuf := store txBuf 2 (u8 (Z.land address 0xFF)) in
  let txBuf := store txBuf 3 1 in
  let txBuf := store txBuf 4 (u8 (Z.land (Z.shiftr word 24) 0xFF)) in
  let txBuf := store txBuf 5 (u8 (Z.land (Z.shiftr word 16) 0xFF)) in
  let txBuf := store txBuf 6 (u8 (Z.land (Z.shiftr word 8) 0xFF)) in
  let txBuf := store txBuf 7 (u8 (Z.land word 0xFF)) in
  let '(ret, s', _) := spi_transfer s 8 rxBuf txBuf in
  (ret, s').

(** One assignment of the decoding loop of [spi_read_msgs]:
    [data[dst] = buf[b0] + (buf[b1] << 8) + (buf[b2] << 16) + (buf[b3] << 24)]. *)
Record assemble := { dst : Z; b0 : Z; b1 : Z; b2 : Z; b3 : Z }.

(** The four assignments of iteration [i], in source order. *)
Definition read_msgs_body (i : Z) : list assemble :=
  [ {| dst := 0 + i * 4; b0 := 7 + i * 16; b1 := 6 + i * 16; b2 := 5 + i * 16; b3 := 4 + i * 16 |};
    {| dst := 1 + i * 4; b0 := 11 + i * 16; b1 := 10 + i * 16; b2 := 9 + i * 16; b3 := 8 + i * 16 |};
    {| dst := 2 + i * 4; b0 := 15 + i * 16; b1 := 14 + i * 16; b2 := 13 + i * 16; b3 := 12 + i * 16 |};
    {| dst := 3 + i * 4; b0 := 19 + i * 16; b1 := 18 + i * 16; b2 := 17 + i * 16; b3 := 16 + i * 16 |} ].

Definition run_assemble (buf : list Z) (out : list Z) (a : assemble) : list Z :=
  store out (dst a)
    (u32 (load buf (b0 a) + Z.shiftl (load buf (b1 a)) 8
          + Z.shiftl (load buf (b2 a)) 16 + Z.shiftl (load buf (b3 a)) 24)).

(** The iterations [i = 0 .. n-1] of a [for] loop, as the list of [i]. *)
Definition iterations (n : Z) : list Z := map Z.of_nat (seq 0 (Z.to_nat n)).

Definition read_msgs_loop (bound : Z) (buf out : list Z) : list Z :=
  fold_left (fun out i => fold_left (run_assemble buf) (read_msgs_body i) out)
    (iterations bound) out.

(** The byte indices of [rx_rxBuf] the loop reads and the word indices of
    [data] it writes, in execution order. *)
Definition read_msgs_loads (bound : Z) : list Z :=
  flat_map (fun i => flat_map (fun a => [b0 a; b1 a; b2 a; b3 a]) (read_msgs_body i))
    (iterations bound).

Definition read_msgs_stores (bound : Z) : list Z :=
  flat_map (fun i => map dst (read_msgs_body i)) (iterations bound).

Definition set_rx_bufs (p : tcan4550_priv) (s : option spi_device) (txb rxb : list Z)
  : tcan4550_priv :=
  {| can := can p; ndev := ndev p; spi := s; tx_work := tx_work p;
     tx_skb_buf := tx_skb_buf p; tx_head := tx_head p; tx_tail := tx_tail p;
     rxBuffer := rxBuffer p; txBuffer := txBuffer p;
     rx_txBuf := txb; rx_rxBuf := rxb;
     tx_txBuf := tx_txBuf p; tx_rxBuf := tx_rxBuf p |}.

Definition set_tx_bufs (p : tcan4550_priv) (s : option spi_device) (txb rxb : list Z)
  : tcan4550_priv :=
  {| can := can p; ndev := ndev p; spi := s; tx_work := tx_work p;
     tx_skb_buf := tx_skb_buf p; tx_head := tx_head p; tx_tail := tx_tail p;
     rxBuffer := rxBuffer p; txBuffer := txBuffer p;
     rx_txBuf := rx_txBuf p; rx_rxBuf := rx_rxBuf p;
     tx_txBuf := txb; tx_rxBuf := rxb |}.

(** [spi_read_msgs priv address msgs data]: the result is the status, the
    new driver state and the new content of the array [data] points to.
    The loop bound [msgs*4] is compared with the [uint32_t] counter. *)
Definition spi_read_msgs (p : tcan4550_priv) (address msgs : Z) (out : list Z)
  : Z * tcan4550_priv * list Z :=
  if MAX_BURST_RX_MESSAGES <? msgs then (- EINVAL, p, out)
  else
    let txb := store (rx_txBuf p) 0 0x41 in
    let txb := store txb 1 (u8 (Z.shiftr address 8)) in
    let txb := store txb 2 (u8 (Z.land address 0xFF)) in
    let txb := store txb 3 (u8 (msgs * 4)) in
    let '(ret, s', rxb) := spi_transfer (spi p) (4 + msgs * 16) (rx_rxBuf p) txb in
    (ret, set_rx_bufs p s' txb rxb, read_msgs_loop (u32 (msgs * 4)) rxb out).

(** The body of the packing loop of [spi_write_msgs] for iteration [i]. *)
Definition write_msgs_step (words : list Z) (txb : list Z) (i : Z) : list Z :=
  let txb := store txb (4 + i * 4) (u8 (Z.land (Z.shiftr (load words i) 24) 0xFF)) in
  let txb := store txb (5 + i * 4) (u8 (Z.land (Z.shiftr (load words i) 16) 0xFF)) in
  let txb := store txb (6 + i * 4) (u8 (Z.land (Z.shiftr (load words i) 8) 0xFF)) in
  store txb (7 + i * 4) (u8 (Z.land (load words i) 0xFF)).

Definition spi_write_msgs (p : tcan4550_priv) (address msgs : Z) (words : list Z)
  : Z * tcan4550_priv :=
  if MAX_BURST_TX_MESSAGES <? msgs then (- EINVAL, p)
  else
    let txb := store (tx_txBuf p) 0 0x61 in
    let txb := store txb 1 (u8 (Z.shiftr address 8)) in
    let txb := store txb 2 (u8 (Z.land address 0xFF)) in
    let txb := store txb 3 (u8 (msgs * 4)) in
    let txb := fold_left (write_msgs_step words) (iterations (u32 (msgs * 4))) txb in
    let '(ret, s', rxb) := spi_transfer (spi p) (4 + msgs * 16) (tx_rxBuf p) txb in
    (ret, set_tx_bufs p s' txb rxb).

(** ** Message codec *)

(** [x & flag] used as a condition. *)
Definition bit_set (x flag : Z) : bool := negb (Z.land x flag =? 0).

(** [tcan4550_composeMessage skb buffer], where [buffer] points at word
    [off] of the array [buf]. *)
Definition tcan4550_composeMessage (skb : sk_buff) (buf : list Z) (off : Z) : list Z :=
  let frame := skb_data skb in
  let extended := bit_set (can_id frame) CAN_EFF_FLAG in
  let rtr := bit_set (can_id frame) CAN_RTR_FLAG in
  let len := if 8 <? len frame then 8 else len frame in
  let buf :=
    if extended
    then store buf (off + 0) (Z.land (can_id frame) CAN_EFF_MASK)
    else store buf (off + 0) (u32 (Z.shiftl (Z.land (can_id frame) CAN_SFF_MASK) 18)) in
  let buf :=
    store buf (off + 0)
      (u32 (load buf (off + 0) + (Z.shiftl (Z.b2z rtr) 29 + Z.shiftl (Z.b2z extended) 30))) in
  let buf := store buf (off + 1) (u32 (Z.shiftl len 16)) in
  let buf :=
    store buf (off + 2)
      (u32 (load (data frame) 0 + Z.shiftl (load (data frame) 1) 8
            + Z.shiftl (load (data frame) 2) 16 + Z.shiftl (load (data frame) 3) 24)) in
  store buf (off + 3)
    (u32 (load (data frame) 4 + Z.shiftl (load (data frame) 5) 8
          + Z.shiftl (load (data frame) 6) 16 + Z.shiftl (load (data frame) 7) 24)).

(** The frame [alloc_can_skb] hands out: all zero. *)
Definition zero_frame : can_frame := {| can_id := 0; len := 0; data := replicate 8 0 |}.

(** The decoding statements of [tcan4550_recMsgs] for the record at word
    [off] of [rxBuffer], applied to a freshly allocated frame. *)
Definition recMsgs_decode (buf : list Z) (off : Z) : can_frame :=
  let w0 := load buf (off + 0) in
  let w1 := load buf (off + 1) in
  let w2 := load buf (off + 2) in
  let w3 := load buf (off + 3) in
  {| len := Z.land (Z.shiftr w1 16) 0x7F;
     can_id :=
       if bit_set w0 (Z.shiftl 1 30)
       then Z.lor (Z.land w0 CAN_EFF_MASK) CAN_EFF_FLAG
       else Z.land (Z.shiftr w0 18) CAN_SFF_MASK;
     data :=
       store (store (store (store (store (store (store (store (data zero_frame)
         0 (Z.land w2 0xFF))
         1 (Z.land (Z.shiftr w2 8) 0xFF))
         2 (Z.land (Z.shiftr w2 16) 0xFF))
         3 (Z.land (Z.shiftr w2 24) 0xFF))
         4 (Z.land w3 0xFF))
         5 (Z.land (Z.shiftr w3 8) 0xFF))
         6 (Z.land (Z.shiftr w3 16) 0xFF))
         7 (Z.land (Z.shiftr w3 24) 0xFF) |}.

(** ** Hardware FIFO windows *)

(** Transmit side: fields of TXQFS and the clamps of
    [tcan4550_tx_work_handler]. *)
Definition tx_freeBuffers (txqfs : Z) : Z := Z.land txqfs 0x3F.
Definition tx_writeIndex (txqfs : Z) : Z := Z.land (Z.shiftr txqfs 16) 0x1F.

Definition tx_msgsToTransmit (txqfs : Z) : Z :=
  let msgsToTransmit := tx_freeBuffers txqfs in
  let msgsToTransmit :=
    if MAX_BURST_TX_MESSAGES <? msgsToTransmit then MAX_BURST_TX_MESSAGES else msgsToTransmit in
  if TX_MSG_BOXES <? u32 (tx_writeIndex txqfs + msgsToTransmit)
  then u32 (TX_MSG_BOXES - tx_writeIndex txqfs)
  else msgsToTransmit.

(** Receive side: fields of RXF0S and the clamps of [tcan4550_recMsgs]
    (applied when the fill level is not 0). *)
Definition rx_fillLevel (rxf0s : Z) : Z := Z.land rxf0s 0x7F.
Definition rx_getIndex (rxf0s : Z) : Z := Z.land (Z.shiftr rxf0s 8) 0x3F.

Definition rx_msgsToGet (rxf0s : Z) : Z :=
  let msgsToGet := rx_fillLevel rxf0s in
  let msgsToGet :=
    if u32 (RX_MSG_BOXES - rx_getIndex rxf0s) <? msgsToGet
    then u32 (RX_MSG_BOXES - rx_getIndex rxf0s)
    else msgsToGet in
  if MAX_BURST_RX_MESSAGES <? msgsToGet then MAX_BURST_RX_MESSAGES else msgsToGet.

(** ** State updates *)

Definition set_spi (p : tcan4550_priv) (s : option spi_device) : tcan4550_priv :=
  {| can := can p; ndev := ndev p; spi := s; tx_work := tx_work p;
     tx_skb_buf := tx_skb_buf p; tx_head := tx_head p; tx_tail := tx_tail p;
     rxBuffer := rxBuffer p; txBuffer := txBuffer p;
     rx_txBuf := rx_txBuf p; rx_rxBuf := rx_rxBuf p;
     tx_txBuf := tx_txBuf p; tx_rxBuf := tx_rxBuf p |}.

Definition set_can (p : tcan4550_priv) (c : can_priv) : tcan4550_priv :=
  {| can := c; ndev := ndev p; spi := spi p; tx_work := tx_work p;
     tx_skb_buf := tx_skb_buf p; tx_head := tx_head p; tx_tail := tx_tail p;
     rxBuffer := rxBuffer p; txBuffer := txBuffer p;
     rx_txBuf := rx_txBuf p; rx_rxBuf := rx_rxBuf p;
     tx_txBuf := tx_txBuf p; tx_rxBuf := tx_rxBuf p |}.

Definition set_ndev (p : tcan4550_priv) (d : net_device) : tcan4550_priv :=
  {| can := can p; ndev := d; spi := spi p; tx_work := tx_work p;
     tx_skb_buf := tx_skb_buf p; tx_head := tx_head p; tx_tail := tx_tail p;
     rxBuffer := rxBuffer p; txBuffer := txBuffer p;
     rx_txBuf := rx_txBuf p; rx_rxBuf := rx_rxBuf p;
     tx_txBuf := tx_txBuf p; tx_rxBuf := tx_rxBuf p |}.

Definition set_rxBuffer (p : tcan4550_priv) (b : list Z) : tcan4550_priv :=
  {| can := can p; ndev := ndev p; spi := spi p; tx_work := tx_work p;
     tx_skb_buf := tx_skb_buf p; tx_head := tx_head p; tx_tail := tx_tail p;
     rxBuffer := b; txBuffer := txBuffer p;
     rx_txBuf := rx_txBuf p; rx_rxBuf := rx_rxBuf p;
     tx_txBuf := tx_txBuf p; tx_rxBuf := tx_rxBuf p |}.

Definition set_txBuffer (p : tcan4550_priv) (b : list Z) : tcan4550_priv :=
  {| can := can p; ndev := ndev p; spi := spi p; tx_work := tx_work p;
     tx_skb_buf := tx_skb_buf p; tx_head := tx_head p; tx_tail := tx_tail p;
     rxBuffer := rxBuffer p; txBuffer := b;
     rx_txBuf := rx_txBuf p; rx_rxBuf := rx_rxBuf p;
     tx_txBuf := tx_txBuf p; tx_rxBuf := tx_rxBuf p |}.

(** The software ring: slots, head, tail and the queued flag of the work. *)
Definition set_ring (p : tcan4550_priv) (slots : list (option sk_buff)) (h t : Z) (w : bool)
  : tcan4550_priv :=
  {| can := can p; ndev := ndev p; spi := spi p; tx_work := w;
     tx_skb_buf := slots; tx_head := h; tx_tail := t;
     rxBuffer := rxBuffer p; txBuffer := txBuffer p;
     rx_txBuf := rx_txBuf p; rx_rxBuf := rx_rxBuf p;
     tx_txBuf := tx_txBuf p; tx_rxBuf := tx_rxBuf p |}.

Definition set_state (c : can_priv) (st : can_state) (cs : can_device_stats) : can_priv :=
  {| state := st; bittiming := bittiming c; ctrlmode := ctrlmode c; can_stats := cs |}.

Definition set_stats (d : net_device) (s : net_device_stats) : net_device :=
  {| stats := s; queue_stopped := queue_stopped d; bus_off_notified := bus_off_notified d;
     netif_rx := netif_rx d; echoed := echoed d;
     skb_alloc := skb_alloc d; skb_allocs := skb_allocs d |}.

(** [netif_stop_queue], [netif_wake_queue] and [netif_start_queue] act on
    the stopped flag of the device queue. *)
Definition set_queue_stopped (d : net_device) (b : bool) : net_device :=
  {| stats := stats d; queue_stopped := b; bus_off_notified := bus_off_notified d;
     netif_rx := netif_rx d; echoed := echoed d;
     skb_alloc := skb_alloc d; skb_allocs := skb_allocs d |}.

Definition netif_stop_queue (d : net_device) : net_device := set_queue_stopped d true.
Definition netif_wake_queue (d : net_device) : net_device := set_queue_stopped d false.
Definition netif_start_queue (d : net_device) : net_device := set_queue_stopped d false.

(** [can_bus_off]: the stack is told that the device went bus-off. *)
Definition can_bus_off (d : net_device) : net_device :=
  {| stats := stats d; queue_stopped := queue_stopped d;
     bus_off_notified := S (bus_off_notified d);
     netif_rx := netif_rx d; echoed := echoed d;
     skb_alloc := skb_alloc d; skb_allocs := skb_allocs d |}.

(** [can_put_echo_skb] followed by [can_get_echo_skb]: the buffer goes
    through the echo stack and back up. *)
Definition echo_skb (d : net_device) (skb : sk_buff) : net_device :=
  {| stats := stats d; queue_stopped := queue_stopped d; bus_off_notified := bus_off_notified d;
     netif_rx := netif_rx d; echoed := echoed d ++ [skb];
     skb_alloc := skb_alloc d; skb_allocs := skb_allocs d |}.

(** A buffer allocation ([alloc_can_skb], [alloc_can_err_skb]): whether it
    succeeds, and the device with the allocation counted. *)
Definition alloc_skb (d : net_device) : bool * net_device :=
  (skb_alloc d (skb_allocs d),
   {| stats := stats d; queue_stopped := queue_stopped d; bus_off_notified := bus_off_notified d;
      netif_rx := netif_rx d; echoed := echoed d;
      skb_alloc := skb_alloc d; skb_allocs := S (skb_allocs d) |}).

(** [netif_rx(skb)]: the frame is handed to the stack. *)
Definition deliver (d : net_device) (cf : can_frame) : net_device :=
  {| stats := stats d; queue_stopped := queue_stopped d; bus_off_notified := bus_off_notified d;
     netif_rx := netif_rx d ++ [cf]; echoed := echoed d;
     skb_alloc := skb_alloc d; skb_allocs := skb_allocs d |}.

(** ** Transmit worker *)

(** The running variables of the [while] loop of
    [tcan4550_tx_work_handler]. *)
Record tx_loop_state := {
  tl_priv : tcan4550_priv;
  tl_msgs : Z;
  tl_writeIndex : Z;
  tl_requestMask : Z
}.

(** One pass through the loop body.  [None] is the dereference of an empty
    (null) slot of [tx_skb_buf]. *)
Definition tx_loop_body (st : tx_loop_state) : option tx_loop_state :=
  let p := tl_priv st in
  match tx_skb_buf p !! Z.to_nat (tx_tail p) with
  | Some (Some skb) =>
      let frame := skb_data skb in
      let p := set_txBuffer p (tcan4550_composeMessage skb (txBuffer p) (tl_msgs st * 4)) in
      let d := echo_skb (ndev p) skb in
      let s := stats d in
      let s := {| rx_packets := rx_packets s + 1; rx_bytes := rx_bytes s + len frame;
                  tx_packets := tx_packets s; tx_bytes := tx_bytes s;
                  rx_dropped := rx_dropped s |} in
      let requestMask := u32 (tl_requestMask st + Z.shiftl 1 (tl_writeIndex st)) in
      let tail := tx_tail p + 1 in
      let tail := if TX_BUFFER_SIZE <=? tail then 0 else tail in
      let s := {| rx_packets := rx_packets s; rx_bytes := rx_bytes s;
                  tx_packets := tx_packets s + 1; tx_bytes := tx_bytes s + len frame;
                  rx_dropped := rx_dropped s |} in
      let p := set_ndev p (set_stats d s) in
      let p := set_ring p (tx_skb_buf p) (tx_head p) tail (tx_work p) in
      Some {| tl_priv := p; tl_msgs := tl_msgs st + 1;
              tl_writeIndex := u32 (tl_writeIndex st + 1);
              tl_requestMask := requestMask |}
  | _ => None
  end.

(** [while ((tx_head != tx_tail) && (msgs < msgsToTransmit))]: [budget]
    is [msgsToTransmit - msgs], which the body decreases by one. *)
Fixpoint tx_loop (budget : nat) (st : tx_loop_state) : option tx_loop_state :=
  match budget with
  | O => Some st
  | S budget' =>
      if tx_head (tl_priv st) =? tx_tail (tl_priv st) then Some st
      else
        match tx_loop_body st with
        | Some st' => tx_loop budget' st'
        | None => None
        end
  end.

Definition tcan4550_tx_work_handler (p : tcan4550_priv) : option tcan4550_priv :=
  let '(txqfs, s1) := spi_read32 (spi p) TXQFS in
  let p := set_spi p s1 in
  let writeIndex := tx_writeIndex txqfs in
  let baseAddress := u32 (MRAM_BASE + TX_FIFO_START_ADDRESS + writeIndex * TX_SLOT_SIZE) in
  let msgsToTransmit := tx_msgsToTransmit txqfs in
  match tx_loop (Z.to_nat msgsToTransmit)
          {| tl_priv := p; tl_msgs := 0; tl_writeIndex := writeIndex; tl_requestMask := 0 |} with
  | None => None
  | Some st =>
      let p := tl_priv st in
      if 0 <? tl_msgs st then
        let '(_, p) := spi_write_msgs p baseAddress (tl_msgs st) (txBuffer p) in
        let '(_, s2) := spi_write32 (spi p) TXBAR (tl_requestMask st) in
        Some (set_spi p s2)
      else Some p
  end.

(** ** Receive path *)

(** One pass through the delivery loop of [tcan4550_recMsgs]. *)
Definition rx_deliver (p : tcan4550_priv) (i : Z) : tcan4550_priv :=
  let '(ok, d) := alloc_skb (ndev p) in
  let s := stats d in
  if ok then
    let cf := recMsgs_decode (rxBuffer p) (0 + i * 4) in
    let d := deliver d cf in
    set_ndev p (set_stats d
      {| rx_packets := rx_packets s + 1; rx_bytes := rx_bytes s + len cf;
         tx_packets := tx_packets s; tx_bytes := tx_bytes s;
         rx_dropped := rx_dropped s |})
  else
    set_ndev p (set_stats d
      {| rx_packets := rx_packets s; rx_bytes := rx_bytes s;
         tx_packets := tx_packets s; tx_bytes := tx_bytes s;
         rx_dropped := rx_dropped s + 1 |}).

Definition tcan4550_recMsgs (p : tcan4550_priv) : bool * tcan4550_priv :=
  let '(rxf0s, s1) := spi_read32 (spi p) RXF0S in
  let p := set_spi p s1 in
  let getIndex := rx_getIndex rxf0s in
  let baseAddress := u32 (MRAM_BASE + RX_FIFO_START_ADDRESS + getIndex * RX_SLOT_SIZE) in
  if rx_fillLevel rxf0s =? 0 then (false, p)
  else
    let msgsToGet := rx_msgsToGet rxf0s in
    let '(_, p, rxb) := spi_read_msgs p baseAddress msgsToGet (rxBuffer p) in
    let p := set_rxBuffer p rxb in
    let '(_, s2) := spi_write32 (spi p) RXF0A (u32 (getIndex + msgsToGet - 1)) in
    let p := set_spi p s2 in
    (true, fold_left rx_deliver (iterations msgsToGet) p).

(** ** Interrupt handler *)

Inductive irqreturn := IRQ_NONE | IRQ_HANDLED.

(** The frame [alloc_can_err_skb] prepares: an error frame of full length. *)
Definition err_frame : can_frame :=
  {| can_id := CAN_ERR_FLAG; len := CAN_ERR_DLC; data := replicate 8 0 |}.

(** The bus-off branch of the handler. *)
Definition handle_bus_off (p : tcan4550_priv) : tcan4550_priv :=
  let p := set_ndev p (can_bus_off (ndev p)) in
  let cs := can_stats (can p) in
  let p := set_can p (set_state (can p) CAN_STATE_BUS_OFF
             {| bus_off := bus_off cs + 1; error_warning := error_warning cs;
                error_passive := error_passive cs |}) in
  let '(_, s) := spi_write32 (spi p) IE 0 in
  let p := set_spi p s in
  let '(ok, d) := alloc_skb (ndev p) in
  let d :=
    if ok
    then deliver d {| can_id := Z.lor (can_id err_frame) CAN_ERR_BUSOFF;
                      len := len err_frame; data := data err_frame |}
    else d in
  set_ndev p (netif_stop_queue d).

Definition tcan4450_handleInterrupts (p : tcan4550_priv) : irqreturn * tcan4550_priv :=
  let '(ir, s1) := spi_read32 (spi p) IR in
  let '(_, s2) := spi_write32 s1 IR ir in
  let p := set_spi p s2 in
  if ir =? 0 then (IRQ_NONE, p)
  else
    let p := if bit_set ir RF0N then snd (tcan4550_recMsgs p) else p in
    let p := if bit_set ir TFE then set_ndev p (netif_wake_queue (ndev p)) else p in
    let p := if bit_set ir BO then handle_bus_off p else p in
    let p :=
      if bit_set ir EW then
        let cs := can_stats (can p) in
        set_can p (set_state (can p) CAN_STATE_ERROR_WARNING
          {| bus_off := bus_off cs; error_warning := error_warning cs + 1;
             error_passive := error_passive cs |})
      else p in
    let p :=
      if bit_set ir EP then
        let cs := can_stats (can p) in
        set_can p (set_state (can p) CAN_STATE_ERROR_PASSIVE
          {| bus_off := bus_off cs; error_warning := error_warning cs;
             error_passive := error_passive cs + 1 |})
      else p in
    (IRQ_HANDLED, p).

(** ** Submission path *)

Inductive netdev_tx := NETDEV_TX_OK | NETDEV_TX_BUSY.

Definition tcan_start_xmit (skb : sk_buff) (p : tcan4550_priv) : netdev_tx * tcan4550_priv :=
  if skb_invalid skb then (NETDEV_TX_OK, p)
  else
    let tmpHead := u32 (tx_head p) in
    let tmpHead := u32 (tmpHead + 1) in
    let tmpHead := if TX_BUFFER_SIZE <=? tmpHead then 0 else tmpHead in
    if tmpHead =? u32 (tx_tail p) then
      let p := set_ndev p (netif_stop_queue (ndev p)) in
      (NETDEV_TX_BUSY, set_ring p (tx_skb_buf p) (tx_head p) (tx_tail p) true)
    else
      let slots := <[Z.to_nat (tx_head p) := Some skb]> (tx_skb_buf p) in
      (NETDEV_TX_OK, set_ring p slots tmpHead (tx_tail p) true).

(** ** Chip set-up and restart *)

Definition tcan4550_set_standby_mode (s : option spi_device) : option spi_device :=
  let '(val, s) := spi_read32 s MODES_OF_OPERATION in
  let val := Z.lor val MODESEL_1 in
  let val := Z.land val (u32 (Z.lnot MODESEL_2)) in
  snd (spi_write32 s MODES_OF_OPERATION val).

Definition tcan4550_set_normal_mode (s : option spi_device) : option spi_device :=
  let '(val, s) := spi_read32 s MODES_OF_OPERATION in
  let val := Z.lor val MODESEL_2 in
  let val := Z.land val (u32 (Z.lnot MODESEL_1)) in
  snd (spi_write32 s MODES_OF_OPERATION val).

Definition tcan4550_unlock (s : option spi_device) : option spi_device :=
  let '(val, s) := spi_read32 s CCCR in
  let val := Z.lor val (CCE + INIT) in
  let val := Z.land val (u32 (Z.lnot CSR)) in
  snd (spi_write32 s CCCR val).

Definition tcan4550_setBitRate (s : option spi_device) (bitRateReg : Z) : option spi_device :=
  snd (spi_write32 s NBTP bitRateReg).

Definition tcan4550_configure_mram (s : option spi_device) : option spi_device :=
  let s :=
    fold_left (fun s i => snd (spi_write32 s (u32 (MRAM_BASE + i * 4)) 0))
      (iterations MRAM_SIZE_WORDS) s in
  let s := snd (spi_write32 s TXBC (u32 (TX_FIFO_START_ADDRESS + Z.shiftl TX_MSG_BOXES 24))) in
  let s := snd (spi_write32 s RXF0C (u32 (RX_FIFO_START_ADDRESS + Z.shiftl RX_MSG_BOXES 16))) in
  let s := snd (spi_write32 s TXESC 0) in
  snd (spi_write32 s RXESC 0).

Definition tcan4550_configureControlModes (p : tcan4550_priv) : tcan4550_priv :=
  let '(cccr, s) := spi_read32 (spi p) CCCR in
  let '(test, s) := spi_read32 s TEST in
  let mode := ctrlmode (can p) in
  let '(cccr, test) :=
    if bit_set mode CAN_CTRLMODE_LOOPBACK
    then (Z.lor cccr (Z.lor (Z.shiftl 1 7) (Z.shiftl 1 5)), Z.lor test (Z.shiftl 1 4))
    else (cccr, test) in
  let cccr := if bit_set mode CAN_CTRLMODE_LISTENONLY then Z.lor cccr (Z.shiftl 1 5) else cccr in
  let cccr := if bit_set mode CAN_CTRLMODE_ONE_SHOT then Z.lor cccr (Z.shiftl 1 6) else cccr in
  let cccr := Z.land cccr (u32 (Z.lnot (Z.shiftl 1 4))) in
  let s := snd (spi_write32 s CCCR cccr) in
  set_spi p (snd (spi_write32 s TEST test)).

Definition tcan4550_setupInterrupts (s : option spi_device) : option spi_device :=
  let s := snd (spi_write32 s IE (u32 (RF0N + TFE + BO + EW + EP))) in
  let s := snd (spi_write32 s ILE 0x1) in
  let s := snd (spi_write32 s SPI_MASK 0xFFFFFFFF) in
  let s := snd (spi_write32 s STATUS 0xFFFFFFFF) in
  let s := snd (spi_write32 s INTERRUPT_FLAGS 0xFFFFFFFF) in
  snd (spi_write32 s INTERRUPT_ENABLE 0).

Definition tcan4550_init (p : tcan4550_priv) (bitRateReg : Z) : bool * tcan4550_priv :=
  let s := tcan4550_set_standby_mode (spi p) in
  let s := tcan4550_unlock s in
  let s := tcan4550_setBitRate s bitRateReg in
  let s := tcan4550_configure_mram s in
  let p := tcan4550_configureControlModes (set_spi p s) in
  let s := tcan4550_setupInterrupts (spi p) in
  let s := tcan4550_set_normal_mode s in
  (true, set_spi p s).

(** The register word [tcan_open] and [tcan4550_set_mode] compute from the
    bit timing; every field of [can_bittiming] is a 32-bit unsigned. *)
Definition bitRateReg (bt : can_bittiming) : Z :=
  u32 (u32 (phase_seg2 bt - 1)
       + Z.shiftl (u32 (prop_seg bt + phase_seg1 bt - 1)) 8
       + Z.shiftl (u32 (brp bt - 1)) 16
       + Z.shiftl (u32 (sjw bt - 1)) 25).

Inductive can_mode := CAN_MODE_STOP | CAN_MODE_START | CAN_MODE_SLEEP.

Definition tcan4550_set_mode (p : tcan4550_priv) (mode : can_mode) : Z * tcan4550_priv :=
  match mode with
  | CAN_MODE_START =>
      let reg := bitRateReg (bittiming (can p)) in
      let p := set_ring p (tx_skb_buf p) 0 0 (tx_work p) in
      let p := set_can p (set_state (can p) CAN_STATE_ERROR_ACTIVE (can_stats (can p))) in
      let '(ok, p) := tcan4550_init p reg in
      if ok then (0, set_ndev p (netif_start_queue (ndev p))) else (- ENXIO, p)
  | _ => (- EOPNOTSUPP, p)
  end.

(** ** Observations and sample states *)

(** The requests sent over a (possibly null) device so far. *)
Definition sent (s : option spi_device) : list (list Z) :=
  match s with
  | Some d => spi_sent d
  | None => []
  end.

(** The values of the single-register writes to [address] among [reqs]. *)
Definition writes_to (address : Z) (reqs : list (list Z)) : list Z :=
  flat_map (fun req =>
    match req with
    | [op; hi; lo; n; v3; v2; v1; v0] =>
        if (op =? 0x61) && (hi * 256 + lo =? address) && (n =? 1)
        then [v3 * 2 ^ 24 + v2 * 2 ^ 16 + v1 * 2 ^ 8 + v0]
        else []
    | _ => []
    end) reqs.

(** The state [alloc_candev] hands out (all zero), bound to a device. *)
Definition fresh_ndev (alloc : nat -> bool) : net_device :=
  {| stats := {| rx_packets := 0; rx_bytes := 0; tx_packets := 0; tx_bytes := 0;
                 rx_dropped := 0 |};
     queue_stopped := false; bus_off_notified := 0; netif_rx := []; echoed := [];
     skb_alloc := alloc; skb_allocs := 0 |}.

Definition fresh_priv (d : spi_device) (alloc : nat -> bool) : tcan4550_priv :=
  {| can := {| state := CAN_STATE_STOPPED;
               bittiming := {| prop_seg := 0; phase_seg1 := 0; phase_seg2 := 0;
                               sjw := 0; brp := 0 |};
               ctrlmode := 0;
               can_stats := {| bus_off := 0; error_warning := 0; error_passive := 0 |} |};
     ndev := fresh_ndev alloc;
     spi := Some d;
     tx_work := false;
     tx_skb_buf := replicate (Z.to_nat TX_BUFFER_SIZE) None;
     tx_head := 0; tx_tail := 0;
     rxBuffer := replicate (Z.to_nat (MAX_BURST_RX_MESSAGES * 4)) 0;
     txBuffer := replicate (Z.to_nat (MAX_BURST_TX_MESSAGES * 4)) 0;
     rx_txBuf := replicate (Z.to_nat (4 + MAX_BURST_RX_MESSAGES * 16)) 0;
     rx_rxBuf := replicate (Z.to_nat (4 + MAX_BURST_RX_MESSAGES * 16)) 0;
     tx_txBuf := replicate (Z.to_nat (4 + MAX_BURST_TX_MESSAGES * 16)) 0;
     tx_rxBuf := replicate (Z.to_nat (4 + MAX_BURST_TX_MESSAGES * 16)) 0 |}.

(** A bus on which every exchange succeeds and reads [word] as payload. *)
Definition steady_bus (word : Z) : spi_device :=
  {| spi_reply := fun _ _ =>
       (0, [0; 0; 0; 0; Z.shiftr word 24; Z.shiftr word 16; Z.shiftr word 8; word]);
     spi_sent := [] |}.

(** A bus on which every exchange fails with [-ENODEV] and clocks in
    nothing. *)
Definition dead_bus : spi_device :=
  {| spi_reply := fun _ _ => (- ENODEV, []); spi_sent := [] |}.

(** The requests put on the wire between two states of the device. *)
Definition issued (before after : option spi_device) : list (list Z) :=
  drop (length (sent before)) (sent after).

(** The buffers of [struct tcan4550_priv] have their declared sizes. *)
Definition buffers_ok (p : tcan4550_priv) : Prop :=
  length (tx_skb_buf p) = Z.to_nat TX_BUFFER_SIZE
  /\ length (rxBuffer p) = Z.to_nat (MAX_BURST_RX_MESSAGES * 4)
  /\ length (txBuffer p) = Z.to_nat (MAX_BURST_TX_MESSAGES * 4)
  /\ length (rx_txBuf p) = Z.to_nat (4 + MAX_BURST_RX_MESSAGES * 16)
  /\ length (rx_rxBuf p) = Z.to_nat (4 + MAX_BURST_RX_MESSAGES * 16)
  /\ length (tx_txBuf p) = Z.to_nat (4 + MAX_BURST_TX_MESSAGES * 16)
  /\ length (tx_rxBuf p) = Z.to_nat (4 + MAX_BURST_TX_MESSAGES * 16).

(** The [can_frame] of a generic frame: identifier, extended flag,
    remote-request flag, length and payload. *)
Definition generic_frame (id : Z) (extended rtr : bool) (n : Z) (payload : list Z) : can_frame :=
  {| can_id := Z.lor id (Z.lor (if extended then CAN_EFF_FLAG else 0)
                               (if rtr then CAN_RTR_FLAG else 0));
     len := n; data := payload |}.

(** Identifiers that fit: 29 bits when extended, 11 bits otherwise. *)
Definition id_in_range (extended : bool) (id : Z) : Prop :=
  0 <= id < (if extended then 2 ^ 29 else 2 ^ 11).

Definition is_byte (b : Z) : Prop := 0 <= b < 256.

(** A buffer the kernel's validity test lets through. *)
Definition skb_ok (skb : sk_buff) : Prop := skb_invalid skb = false.

(** Submitting a list of buffers one after the other. *)
Fixpoint xmit_all (skbs : list sk_buff) (p : tcan4550_priv)
  : list netdev_tx * tcan4550_priv :=
  match skbs with
  | [] => ([], p)
  | skb :: rest =>
      let '(r, p1) := tcan_start_xmit skb p in
      let '(rs, p2) := xmit_all rest p1 in
      (r :: rs, p2)
  end.

(** The software ring: advancing an index, and the two index tests. *)
Definition next_index (i : Z) : Z := (i + 1) mod TX_BUFFER_SIZE.
Definition queue_empty (p : tcan4550_priv) : Prop := tx_head p = tx_tail p.
Definition queue_full (p : tcan4550_priv) : Prop := next_index (tx_head p) = tx_tail p.

Definition ring_ok (p : tcan4550_priv) : Prop :=
  0 <= tx_head p < TX_BUFFER_SIZE /\ 0 <= tx_tail p < TX_BUFFER_SIZE
  /\ length (tx_skb_buf p) = Z.to_nat TX_BUFFER_SIZE.

(** Slots [0 .. head-1] hold a buffer (the ring with its tail at 0). *)
Definition filled_below_head (p : tcan4550_priv) : Prop :=
  forall j, 0 <= j < tx_head p -> exists skb, tx_skb_buf p !! Z.to_nat j = Some (Some skb).

Definition sample_skb : sk_buff :=
  {| skb_data := {| can_id := 0x123; len := 2; data := [0xAB; 0xCD; 0; 0; 0; 0; 0; 0] |};
     skb_invalid := false |}.

(** A remote-request frame with the standard identifier 0x123. *)
Definition rtr_skb : sk_buff :=
  {| skb_data := generic_frame 0x123 false true 0 (replicate 8 0); skb_invalid := false |}.

(** The requests of [spi_read32] and [spi_write32], and the head of the
    request of [spi_read_msgs] written over the transmit buffer. *)
Definition read32_request (address : Z) : list Z :=
  [0x41; u8 (Z.shiftr address 8); u8 (Z.land address 0xFF); 1; 0; 0; 0; 0].

Definition write32_request (address word : Z) : list Z :=
  [0x61; u8 (Z.shiftr address 8); u8 (Z.land address 0xFF); 1;
   u8 (Z.land (Z.shiftr word 24) 0xFF); u8 (Z.land (Z.shiftr word 16) 0xFF);
   u8 (Z.land (Z.shiftr word 8) 0xFF); u8 (Z.land word 0xFF)].

Definition read_msgs_header (buf : list Z) (address msgs : Z) : list Z :=
  store (store (store (store buf 0 0x41) 1 (u8 (Z.shiftr address 8)))
           2 (u8 (Z.land address 0xFF))) 3 (u8 (msgs * 4)).

(** The error frame delivered on bus-off. *)
Definition bus_off_frame : can_frame :=
  {| can_id := Z.lor CAN_ERR_FLAG CAN_ERR_BUSOFF; len := CAN_ERR_DLC; data := replicate 8 0 |}.

(** [bt] with its prescaler replaced. *)
Definition with_brp (bt : can_bittiming) (b : Z) : can_bittiming :=
  {| prop_seg := prop_seg bt; phase_seg1 := phase_seg1 bt; phase_seg2 := phase_seg2 bt;
     sjw := sjw bt; brp := b |}.

(** A timing for 500 kbit/s at 40 MHz: 80 quanta of which 16 after the
    sample point. *)
Definition sample_bittiming : can_bittiming :=
  {| prop_seg := 31; phase_seg1 := 32; phase_seg2 := 16; sjw := 1; brp := 1 |}.

(** The four bytes of a word, most significant first, as the write paths
    put them into a transmit buffer. *)
Definition be_bytes (w : Z) : list Z :=
  [u8 (Z.land (Z.shiftr w 24) 0xFF); u8 (Z.land (Z.shiftr w 16) 0xFF);
   u8 (Z.land (Z.shiftr w 8) 0xFF); u8 (Z.land w 0xFF)].

(** The word the read paths assemble from the four bytes at [off]. *)
Definition be_word (buf : list Z) (off : Z) : Z :=
  u32 (load buf (off + 3) + Z.shiftl (load buf (off + 2)) 8
       + Z.shiftl (load buf (off + 1)) 16 + Z.shiftl (load buf off) 24).

(** Values of a [uint32_t]. *)
Definition is_word (w : Z) : Prop := 0 <= w < 2 ^ 32.

(** The transmit buffer [spi_write_msgs] hands to the exchange: header over
    the first four bytes, then the packing loop. *)
Definition write_msgs_buffer (buf : list Z) (address msgs : Z) (words : list Z) : list Z :=
  fold_left (write_msgs_step words) (iterations (u32 (msgs * 4)))
    (store (store (store (store buf 0 0x61) 1 (u8 (Z.shiftr address 8)))
              2 (u8 (Z.land address 0xFF))) 3 (u8 (msgs * 4))).

(** The request of a burst write of [msgs] records. *)
Definition write_msgs_request (address msgs : Z) (words : list Z) : list Z :=
  [0x61; u8 (Z.shiftr address 8); u8 (Z.land address 0xFF); u8 (msgs * 4)]
  ++ flat_map (fun i => be_bytes (load words i)) (iterations (msgs * 4)).

(** A bus on which every exchange succeeds and clocks in [rx]. *)
Definition fixed_bus (rx : list Z) : spi_device :=
  {| spi_reply := fun _ _ => (0, rx); spi_sent := [] |}.

(** The frames a delivery loop over [l] hands upward: pass number [j] keeps
    its record when allocation number [n + j] succeeds. *)
Fixpoint rx_kept (alloc : nat -> bool) (n : nat) (l : list Z) : list Z :=
  match l with
  | [] => []
  | i :: l' => (if alloc n then [i] else []) ++ rx_kept alloc (S n) l'
  end.

(** The number of entries in the software ring. *)
Definition queue_count (p : tcan4550_priv) : Z := (tx_head p - tx_tail p) mod TX_BUFFER_SIZE.

(** Every slot from the tail up to the head holds a buffer. *)
Definition ring_filled (p : tcan4550_priv) : Prop :=
  forall j, 0 <= j < queue_count p ->
    exists skb, tx_skb_buf p !! Z.to_nat ((tx_tail p + j) mod TX_BUFFER_SIZE) = Some (Some skb).

(** The buffer in the slot [j] places after the tail ([sample_skb] stands in
    for an empty slot). *)
Definition queued (p : tcan4550_priv) (j : Z) : sk_buff :=
  match tx_skb_buf p !! Z.to_nat ((tx_tail p + j) mod TX_BUFFER_SIZE) with
  | Some (Some skb) => skb
  | _ => sample_skb
  end.

(** Two buffers submitted to a fresh driver; the chip reports five free
    slots and the put index 3. *)
Definition two_queued : tcan4550_priv :=
  snd (xmit_all [sample_skb; rtr_skb]
         (fresh_priv (fixed_bus [0; 0; 0; 0; 0; 3; 0; 5]) (fun _ => true))).

(** ** Probe, open and close *)

Definition ENOMEM : Z := 12.

Definition tcan4550_readIdentification (s : option spi_device) : bool * option spi_device :=
  let '(id1, s) := spi_read32 s DEVICE_ID1 in
  let '(id2, s) := spi_read32 s DEVICE_ID2 in
  ((id1 =? TCAN_ID) && (id2 =? TCAN_ID2), s).

(** What the kernel hands to [tcan_probe]: the device memory of
    [alloc_candev] (or none), the results of [spi_setup] and
    [register_candev], and whether [alloc_workqueue] succeeds. *)
Record probe_env := {
  candev : option tcan4550_priv;
  spi_setup_err : Z;
  register_candev_err : Z;
  workqueue_ok : bool
}.

(** [tcan_probe]: the error number, the device after the identification
    reads, and the driver state that stays registered ([None] after
    [free_candev]). *)
Definition tcan_probe (d : spi_device) (env : probe_env)
  : Z * option spi_device * option tcan4550_priv :=
  match candev env with
  | None => (- ENOMEM, Some d, None)
  | Some p =>
      let p := set_spi p (Some d) in
      if negb (spi_setup_err env =? 0) then (spi_setup_err env, Some d, None)
      else if negb (register_candev_err env =? 0) then (register_candev_err env, Some d, None)
      else
        let '(ok, s) := tcan4550_readIdentification (Some d) in
        let '(ok, s) :=
          if negb ok then tcan4550_readIdentification s else (ok, s) in
        if negb ok then (- ENODEV, s, None)
        else if negb (workqueue_ok env) then (- ENOMEM, s, None)
        else (0, s, Some (set_ring (set_spi p s) (tx_skb_buf p) (tx_head p) (tx_tail p) false))
  end.

(** [tcan_open]: [open_err] is the result of [open_candev], [irq_err] that
    of [request_threaded_irq]; [None] is the dereference of a null
    [priv->spi] for its [irq]. *)
Definition tcan_open (p : tcan4550_priv) (open_err irq_err : Z)
  : option (Z * tcan4550_priv) :=
  let reg := bitRateReg (bittiming (can p)) in
  if negb (open_err =? 0) then Some (open_err, p)
  else
    let '(ok, p) := tcan4550_init p reg in
    if negb ok then Some (- ENXIO, p)
    else
      match spi p with
      | None => None
      | Some _ =>
          if negb (irq_err =? 0) then Some (irq_err, p)
          else
            let p := set_ring p (tx_skb_buf p) 0 0 (tx_work p) in
            let p := set_can p (set_state (can p) CAN_STATE_ERROR_ACTIVE (can_stats (can p))) in
            Some (0, set_ndev p (netif_start_queue (ndev p)))
      end.

(** [tcan_close]; [None] is the dereference of a null [priv->spi] for its
    [irq]. *)
Definition tcan_close (p : tcan4550_priv) : option (Z * tcan4550_priv) :=
  let p := set_ndev p (netif_stop_queue (ndev p)) in
  let p := set_can p (set_state (can p) CAN_STATE_STOPPED (can_stats (can p))) in
  match spi p with
  | None => None
  | Some _ => Some (0, set_spi p (tcan4550_set_standby_mode (spi p)))
  end.

(** The entry points of the driver, each run to completion: a submission,
    a pass of the worker, an interrupt, a mode change, open and close. *)
Inductive driver_step : tcan4550_priv -> tcan4550_priv -> Prop :=
| step_xmit (skb : sk_buff) (p : tcan4550_priv) :
    driver_step p (snd (tcan_start_xmit skb p))
| step_work (p p' : tcan4550_priv) :
    tcan4550_tx_work_handler p = Some p' -> driver_step p p'
| step_irq (p : tcan4550_priv) :
    driver_step p (snd (tcan4450_handleInterrupts p))
| step_mode (p : tcan4550_priv) (mode : can_mode) :
    driver_step p (snd (tcan4550_set_mode p mode))
| step_open (p p' : tcan4550_priv) (open_err irq_err r : Z) :
    tcan_open p open_err irq_err = Some (r, p') -> driver_step p p'
| step_close (p p' : tcan4550_priv) (r : Z) :
    tcan_close p = Some (r, p') -> driver_step p p'.

(** The states the driver gets to from [p0]. *)
Inductive reachable (p0 : tcan4550_priv) : tcan4550_priv -> Prop :=
| reach_init : reachable p0 p0
| reach_step (p p' : tcan4550_priv) :
    reachable p0 p -> driver_step p p' -> reachable p0 p'.

(** The software ring is well formed, every queued slot holds a buffer and
    the staging array has its declared size. *)
Definition ring_inv (p : tcan4550_priv) : Prop :=
  ring_ok p /\ ring_filled p /\ length (txBuffer p) = Z.to_nat (MAX_BURST_TX_MESSAGES * 4).

(** The value [tcan4550_set_standby_mode] writes back for [val] read. *)
Definition standby_word (val : Z) : Z := Z.land (Z.lor val MODESEL_1) (u32 (Z.lnot MODESEL_2)).

(** The value [tcan4550_set_normal_mode] writes back for [val] read. *)
Definition normal_word (val : Z) : Z := Z.land (Z.lor val MODESEL_2) (u32 (Z.lnot MODESEL_1)).

(** The value [tcan4550_unlock] writes back for [val] read. *)
Definition unlock_word (val : Z) : Z := Z.land (Z.lor val (CCE + INIT)) (u32 (Z.lnot CSR)).

(** The requests of [tcan4550_configure_mram]. *)
Definition mram_requests : list (list Z) :=
  map (fun i => write32_request (u32 (MRAM_BASE + i * 4)) 0) (iterations MRAM_SIZE_WORDS)
  ++ [write32_request TXBC (u32 (TX_FIFO_START_ADDRESS + Z.shiftl TX_MSG_BOXES 24));
      write32_request RXF0C (u32 (RX_FIFO_START_ADDRESS + Z.shiftl RX_MSG_BOXES 16));
      write32_request TXESC 0;
      write32_request RXESC 0].

(** The requests of [tcan4550_setupInterrupts]. *)
Definition interrupt_requests : list (list Z) :=
  [write32_request IE (u32 (RF0N + TFE + BO + EW + EP));
   write32_request ILE 0x1;
   write32_request SPI_MASK 0xFFFFFFFF;
   write32_request STATUS 0xFFFFFFFF;
   write32_request INTERRUPT_FLAGS 0xFFFFFFFF;
   write32_request INTERRUPT_ENABLE 0].

(** The values [tcan4550_configureControlModes] writes to CCCR and TEST for
    the control mode [mode] and the values [cccr] and [test] read. *)
Definition control_cccr (mode cccr : Z) : Z :=
  let cccr :=
    if bit_set mode CAN_CTRLMODE_LOOPBACK
    then Z.lor cccr (Z.lor (Z.shiftl 1 7) (Z.shiftl 1 5)) else cccr in
  let cccr := if bit_set mode CAN_CTRLMODE_LISTENONLY then Z.lor cccr (Z.shiftl 1 5) else cccr in
  let cccr := if bit_set mode CAN_CTRLMODE_ONE_SHOT then Z.lor cccr (Z.shiftl 1 6) else cccr in
  Z.land cccr (u32 (Z.lnot (Z.shiftl 1 4))).

Definition control_test (mode test : Z) : Z :=
  if bit_set mode CAN_CTRLMODE_LOOPBACK then Z.lor test (Z.shiftl 1 4) else test.

(** The requests of [tcan4550_init] for the bit-timing word [reg] and the
    control mode [mode], when the chip answers the reads with [m1] and [m2]
    (mode register), [c1] and [c2] (CCCR) and [t] (TEST). *)
Definition init_requests (reg mode m1 c1 c2 t m2 : Z) : list (list Z) :=
  [read32_request MODES_OF_OPERATION;
   write32_request MODES_OF_OPERATION (standby_word m1);
   read32_request CCCR;
   write32_request CCCR (unlock_word c1);
   write32_request NBTP reg]
  ++ mram_requests
  ++ [read32_request CCCR;
      read32_request TEST;
      write32_request CCCR (control_cccr mode c2);
      write32_request TEST (control_test mode t)]
  ++ interrupt_requests
  ++ [read32_request MODES_OF_OPERATION;
      write32_request MODES_OF_OPERATION (normal_word m2)].

(** A stopped device in loop-back mode with [sample_bittiming], on a bus
    that answers every read with 0x10. *)
Definition loopback_priv : tcan4550_priv :=
  set_can (fresh_priv (steady_bus 0x10) (fun _ => true))
    {| state := CAN_STATE_STOPPED; bittiming := sample_bittiming;
       ctrlmode := CAN_CTRLMODE_LOOPBACK;
       can_stats := {| bus_off := 0; error_warning := 0; error_passive := 0 |} |}.

(** A chip that answers the two identification reads with the bytes of
    TCAN_ID and TCAN_ID2, most significant byte first. *)
Definition tcan_chip : spi_device :=
  {| spi_reply := fun _ tx =>
       if load tx 2 =? DEVICE_ID1 then (0, [0; 0; 0; 0; 0x4E; 0x41; 0x43; 0x54])
       else (0, [0; 0; 0; 0; 0x30; 0x35; 0x35; 0x34]);
     spi_sent := [] |}.

(** The memory [alloc_candev] hands out, before [tcan_probe] fills it in. *)
Definition blank_priv : tcan4550_priv :=
  set_spi (fresh_priv dead_bus (fun _ => true)) None.

(** The requests of one pass of [tcan4550_recMsgs] when the status read
    returns [rxf0s]; [txb] is [rx_txBuf] before the pass. *)
Definition rx_pass_requests (txb : list Z) (rxf0s : Z) : list (list Z) :=
  if rx_fillLevel rxf0s =? 0 then [read32_request RXF0S]
  else
    [read32_request RXF0S;
     take (Z.to_nat (4 + rx_msgsToGet rxf0s * 16))
       (read_msgs_header txb
          (u32 (MRAM_BASE + RX_FIFO_START_ADDRESS + rx_getIndex rxf0s * RX_SLOT_SIZE))
          (rx_msgsToGet rxf0s));
     write32_request RXF0A (u32 (rx_getIndex rxf0s + rx_msgsToGet rxf0s - 1))].

(** The entry points that leave a stopped queue stopped: a submission, a
    pass of the worker, a close, a mode change other than a start, and an
    interrupt unless its status reports transmit-FIFO-empty without
    bus-off. *)
Inductive quiet_step : tcan4550_priv -> tcan4550_priv -> Prop :=
| quiet_xmit (skb : sk_buff) (p : tcan4550_priv) :
    quiet_step p (snd (tcan_start_xmit skb p))
| quiet_work (p p' : tcan4550_priv) :
    tcan4550_tx_work_handler p = Some p' -> quiet_step p p'
| quiet_irq (p : tcan4550_priv) :
    bit_set (fst (spi_read32 (spi p) IR)) TFE = false
    \/ bit_set (fst (spi_read32 (spi p) IR)) BO = true ->
    quiet_step p (snd (tcan4450_handleInterrupts p))
| quiet_mode (p : tcan4550_priv) (mode : can_mode) :
    mode <> CAN_MODE_START -> quiet_step p (snd (tcan4550_set_mode p mode))
| quiet_close (p p' : tcan4550_priv) (r : Z) :
    tcan_close p = Some (r, p') -> quiet_step p p'.

Inductive quiet_run (p0 : tcan4550_priv) : tcan4550_priv -> Prop :=
| quiet_here : quiet_run p0 p0
| quiet_then (p p' : tcan4550_priv) :
    quiet_run p0 p -> quiet_step p p' -> quiet_run p0 p'.

(** A bus whose first three exchanges (the bus-off interrupt) read as the
    bus-off bit and whose later ones as transmit-FIFO-empty. *)
Definition bus_off_then_tfe : spi_device :=
  {| spi_reply := fun n _ =>
       if (n <? 3)%nat then (0, [0; 0; 0; 0; 0x02; 0; 0; 0])
       else (0, [0; 0; 0; 0; 0; 0; 0x08; 0]);
     spi_sent := [] |}.


(** ** Transport framing *)

Lemma spi_write32_sent (d : spi_device) (address word : Z) :
  sent (snd (spi_write32 (Some d) address word))
  = spi_sent d ++ [[0x61; u8 (Z.shiftr address 8); u8 (Z.land address 0xFF); 1;
                    u8 (Z.land (Z.shiftr word 24) 0xFF); u8 (Z.land (Z.shiftr word 16) 0xFF);
                    u8 (Z.land (Z.shiftr word 8) 0xFF); u8 (Z.land word 0xFF)]].
Proof.
  unfold spi_write32, spi_transfer, spi_sync.
  destruct (spi_reply d _ _) as [ret rx]. reflexivity.
Qed.

Lemma spi_read32_sent (d : spi_device) (address : Z) :
  sent (snd (spi_read32 (Some d) address))
  = spi_sent d ++ [[0x41; u8 (Z.shiftr address 8); u8 (Z.land address 0xFF); 1; 0; 0; 0; 0]].
Proof.
  unfold spi_read32, spi_transfer, spi_sync.
  destruct (spi_reply d _ _) as [ret rx]. reflexivity.
Qed.

(** C7: writing 0x12345678 to register 0x101C puts exactly the request
    61 10 1C 01 12 34 56 78 on the wire: write opcode, address high byte,
    address low byte, word count 1, then the word most significant byte
    first. *)
Theorem spi_write32_framing_literal (d : spi_device) :
  sent (snd (spi_write32 (Some d) 0x101C 0x12345678))
  = spi_sent d ++ [[0x61; 0x10; 0x1C; 0x01; 0x12; 0x34; 0x56; 0x78]].
Proof. rewrite spi_write32_sent. reflexivity. Qed.

(** ** Burst size limit *)

(** C8: a burst read or a burst write of more than 8 messages returns
    -EINVAL at once: no exchange takes place, and the driver state (with its
    transfer buffers and the device behind it) and the caller's array are
    returned as they were. *)
Theorem burst_over_limit_rejected (p : tcan4550_priv) (address msgs : Z) (out words : list Z) :
  8 < msgs ->
  spi_read_msgs p address msgs out = (- EINVAL, p, out)
  /\ spi_write_msgs p address msgs words = (- EINVAL, p)
  /\ issued (spi p) (spi (snd (fst (spi_read_msgs p address msgs out)))) = []
  /\ issued (spi p) (spi (snd (spi_write_msgs p address msgs words))) = [].
Proof.
  intros Hm. unfold spi_read_msgs, spi_write_msgs, MAX_BURST_RX_MESSAGES, MAX_BURST_TX_MESSAGES.
  destruct (Z.ltb_spec 8 msgs) as [_ | Hle]; [| lia].
  cbn [fst snd]. unfold issued. rewrite drop_all. repeat split; reflexivity.
Qed.

Lemma burst_over_limit_rejected_witness :
  8 < 9
  /\ spi_read_msgs (fresh_priv dead_bus (fun _ => true)) 0x8200 9 [] =
       (- EINVAL, fresh_priv dead_bus (fun _ => true), [])
  /\ spi_write_msgs (fresh_priv dead_bus (fun _ => true)) 0x8200 9 [] =
       (- EINVAL, fresh_priv dead_bus (fun _ => true)).
Proof.
  split; [lia |].
  destruct (burst_over_limit_rejected (fresh_priv dead_bus (fun _ => true)) 0x8200 9 [] [])
    as (Hr & Hw & _); [lia |].
  split; [exact Hr | exact Hw].
Defined.

(** ** Transport failure in the single-register read *)

(** [spi_read32] makes one exchange and no second attempt. *)
Lemma spi_read32_one_exchange (d : spi_device) (address : Z) :
  length (sent (snd (spi_read32 (Some d) address))) = S (length (spi_sent d)).
Proof. rewrite spi_read32_sent, length_app. simpl. lia. Qed.

(** The word [spi_read32] returns depends on the bytes left in the receive
    buffer only: the status of the exchange does not reach the caller. *)
Lemma spi_read32_status_dropped (reply1 reply2 : nat -> list Z -> Z * list Z)
    (log : list (list Z)) (address : Z) :
  (forall n req, snd (reply1 n req) = snd (reply2 n req)) ->
  fst (spi_read32 (Some {| spi_reply := reply1; spi_sent := log |}) address)
  = fst (spi_read32 (Some {| spi_reply := reply2; spi_sent := log |}) address).
Proof.
  intros Hsame. unfold spi_read32, spi_transfer, spi_sync. simpl.
  match goal with
  | |- context [reply1 ?n ?req] =>
      specialize (Hsame n req);
      destruct (reply1 n req) as [r1 rx1]; destruct (reply2 n req) as [r2 rx2]
  end.
  simpl in Hsame. subst rx2. reflexivity.
Qed.

Lemma spi_read32_status_dropped_witness :
  fst (spi_read32 (Some dead_bus) IR)
  = fst (spi_read32 (Some {| spi_reply := fun _ _ => (0, []); spi_sent := [] |}) IR).
Proof.
  apply (spi_read32_status_dropped (fun _ _ => (- ENODEV, [])) (fun _ _ => (0, [])) [] IR).
  intros n req. reflexivity.
Defined.

(** C9, at a failing input: on a bus where the exchange fails with -ENODEV
    the underlying transfer reports the failure, yet [spi_read32] returns
    the plain word 0, the very result it gives on a working bus whose
    register holds 0; it does so after a single exchange. *)
Theorem spi_read32_failure_not_surfaced :
  fst (fst (spi_transfer (Some dead_bus) 8 (uninit 8) [0x41; 0x10; 0x50; 1; 0; 0; 0; 0]))
    = - ENODEV
  /\ fst (spi_read32 (Some dead_bus) IR) = 0
  /\ fst (spi_read32 (Some (steady_bus 0)) IR) = 0
  /\ sent (snd (spi_read32 (Some dead_bus) IR)) = [[0x41; 0x10; 0x50; 1; 0; 0; 0; 0]].
Proof. repeat split; reflexivity. Qed.

(** ** Index ranges of the burst-read decoding loop *)

Lemma In_by_search (x : Z) (l : list Z) : existsb (Z.eqb x) l = true -> In x l.
Proof.
  intros H. apply existsb_exists in H as (y & Hin & Heq).
  apply Z.eqb_eq in Heq. subst y. exact Hin.
Qed.

(** For an accepted count the loop runs [msgs*4] times over records of 16
    bytes and 4 words: its highest byte index is [64*msgs + 3] and its
    highest word index [16*msgs - 1]. *)
Lemma read_msgs_reach (msgs : Z) :
  1 <= msgs <= 8 ->
  In (64 * msgs + 3) (read_msgs_loads (u32 (msgs * 4)))
  /\ In (16 * msgs - 1) (read_msgs_stores (u32 (msgs * 4))).
Proof.
  intros H.
  assert (Hc : msgs = 1 \/ msgs = 2 \/ msgs = 3 \/ msgs = 4 \/ msgs = 5 \/ msgs = 6
               \/ msgs = 7 \/ msgs = 8) by lia.
  repeat (destruct Hc as [-> | Hc]); try subst msgs;
    (split; apply In_by_search; vm_compute; reflexivity).
Qed.

Lemma read_msgs_reach_witness :
  In (64 * 3 + 3) (read_msgs_loads (u32 (3 * 4)))
  /\ In (16 * 3 - 1) (read_msgs_stores (u32 (3 * 4))).
Proof. apply (read_msgs_reach 3). lia. Defined.

(** Had the loop run [msgs] times, one pass per record, every index would
    be in range: the bytes below [4 + msgs*16], the words below [msgs*4]. *)
Lemma read_msgs_one_pass_per_record (msgs : Z) :
  0 <= msgs <= 8 ->
  Forall (fun k => 0 <= k < 4 + msgs * 16) (read_msgs_loads msgs)
  /\ Forall (fun k => 0 <= k < msgs * 4) (read_msgs_stores msgs).
Proof.
  intros H.
  assert (Hb : forall bound l,
             forallb (fun k => (0 <=? k) && (k <? bound)) l = true ->
             Forall (fun k => 0 <= k < bound) l).
  { intros bound l Hall. apply Forall_forall. intros k Hk.
    rewrite forallb_forall in Hall. apply list_elem_of_In in Hk.
    specialize (Hall k Hk). apply andb_prop in Hall as [H1 H2].
    apply Z.leb_le in H1. apply Z.ltb_lt in H2. lia. }
  assert (Hc : msgs = 0 \/ msgs = 1 \/ msgs = 2 \/ msgs = 3 \/ msgs = 4 \/ msgs = 5
               \/ msgs = 6 \/ msgs = 7 \/ msgs = 8) by lia.
  repeat (destruct Hc as [-> | Hc]); try subst msgs;
    (split; apply Hb; vm_compute; reflexivity).
Qed.

Lemma read_msgs_one_pass_per_record_witness :
  Forall (fun k => 0 <= k < 4 + 8 * 16) (read_msgs_loads 8)
  /\ Forall (fun k => 0 <= k < 8 * 4) (read_msgs_stores 8).
Proof. apply (read_msgs_one_pass_per_record 8). lia. Defined.

(** C10, at a failing input: for the accepted count 8 the loop reads byte
    515 of [rx_rxBuf], whose size is 4 + 8*16 = 132, and writes word 127 of
    the caller's array, beyond both [msgs*4 = 32] and the 32 words of
    [rxBuffer]; already for the count 1 it writes word 15, beyond
    [msgs*4 = 4]. *)
Theorem read_msgs_indices_out_of_range :
  In 515 (read_msgs_loads (u32 (8 * 4)))
  /\ ~ 515 < 4 + MAX_BURST_RX_MESSAGES * 16
  /\ In 127 (read_msgs_stores (u32 (8 * 4)))
  /\ ~ 127 < 8 * 4
  /\ In 15 (read_msgs_stores (u32 (1 * 4)))
  /\ ~ 15 < 1 * 4.
Proof.
  repeat split; try (apply In_by_search; vm_compute; reflexivity);
    unfold MAX_BURST_RX_MESSAGES; lia.
Qed.

(** ** Message codec: encoding followed by decoding *)

Lemma load_store_same (buf : list Z) (i v : Z) :
  0 <= i < Z.of_nat (length buf) -> load (store buf i v) i = v.
Proof.
  intros Hi. unfold load, store. rewrite list_lookup_insert_eq by lia. reflexivity.
Qed.

Lemma load_store_other (buf : list Z) (i j v : Z) :
  0 <= i -> 0 <= j -> i <> j -> load (store buf i v) j = load buf j.
Proof.
  intros Hi Hj Hne. unfold load, store. rewrite list_lookup_insert_ne by lia. reflexivity.
Qed.

Lemma length_store (buf : list Z) (i v : Z) : length (store buf i v) = length buf.
Proof. apply length_insert. Qed.

(** Masking with a single bit. *)
Lemma land_bit (x k : Z) : 0 <= k -> Z.land x (2 ^ k) = if Z.testbit x k then 2 ^ k else 0.
Proof.
  intros Hk. apply Z.bits_inj'. intros n Hn.
  rewrite Z.land_spec, Z.pow2_bits_eqb by lia.
  destruct (Z.eqb_spec k n) as [-> | Hne].
  - rewrite andb_true_r. destruct (Z.testbit x n) eqn:E.
    + rewrite Z.pow2_bits_true; lia.
    + rewrite Z.testbit_0_l. reflexivity.
  - rewrite andb_false_r. destruct (Z.testbit x k).
    + rewrite Z.pow2_bits_false; lia.
    + rewrite Z.testbit_0_l. reflexivity.
Qed.

Lemma testbit_div (x k : Z) : 0 <= k -> Z.testbit x k = ((x / 2 ^ k) mod 2 =? 1).
Proof.
  intros Hk. pose proof (Z.testbit_spec' x k Hk) as H.
  destruct (Z.testbit x k); simpl in H; rewrite <- H; reflexivity.
Qed.

Lemma bit_set_div (x k : Z) : 0 <= k -> bit_set x (2 ^ k) = ((x / 2 ^ k) mod 2 =? 1).
Proof.
  intros Hk. unfold bit_set. rewrite land_bit, <- testbit_div by lia.
  destruct (Z.testbit x k); [| reflexivity].
  destruct (Z.eqb_spec (2 ^ k) 0) as [E | _]; [| reflexivity].
  pose proof (Z.pow_pos_nonneg 2 k). lia.
Qed.

Lemma lor_disjoint_bit (x k : Z) : 0 <= k -> 0 <= x < 2 ^ k -> Z.lor x (2 ^ k) = x + 2 ^ k.
Proof.
  intros Hk Hx.
  assert (Hd : Z.land x (2 ^ k) = 0).
  { rewrite land_bit, testbit_div by lia. rewrite Z.div_small by lia. reflexivity. }
  rewrite <- Z.lxor_lor by exact Hd. symmetry. apply Z.add_nocarry_lxor. exact Hd.
Qed.

(** The flags sit above the 29 identifier bits, so or-ing them in adds
    them. *)
Lemma generic_frame_can_id (id : Z) (extended rtr : bool) (n : Z) (payload : list Z) :
  0 <= id < 2 ^ 29 ->
  can_id (generic_frame id extended rtr n payload)
  = id + (if extended then 2 ^ 31 else 0) + (if rtr then 2 ^ 30 else 0).
Proof.
  intros Hid. unfold generic_frame, can_id, CAN_EFF_FLAG, CAN_RTR_FLAG.
  change (2 ^ 29) with 536870912 in Hid.
  destruct extended, rtr.
  - change (Z.lor 0x80000000 0x40000000) with (2 ^ 30 + 2 ^ 31).
    replace (Z.lor id (2 ^ 30 + 2 ^ 31)) with (Z.lor (Z.lor id (2 ^ 30)) (2 ^ 31)).
    + rewrite (lor_disjoint_bit id 30) by lia. rewrite lor_disjoint_bit by lia. lia.
    + rewrite <- Z.lor_assoc. reflexivity.
  - change (Z.lor 0x80000000 0) with (2 ^ 31). rewrite lor_disjoint_bit by lia. lia.
  - change (Z.lor 0 0x40000000) with (2 ^ 30). rewrite lor_disjoint_bit by lia. lia.
  - change (Z.lor 0 0) with 0. rewrite Z.lor_0_r. lia.
Qed.

Ltac load_store :=
  repeat first
    [ rewrite load_store_same by (rewrite ?length_store; lia)
    | rewrite load_store_other by lia ].

(** Masks become remainders, shifts products and quotients. *)
Ltac to_arith :=
  unfold u32, bit_set, CAN_EFF_MASK, CAN_SFF_MASK, CAN_EFF_FLAG, CAN_RTR_FLAG in *;
  change 0x1FFFFFFF with (Z.ones 29) in *;
  change 0x7FF with (Z.ones 11) in *;
  change 0x7F with (Z.ones 7) in *;
  change 0xFF with (Z.ones 8) in *;
  rewrite ?Z.land_ones, ?Z.shiftl_mul_pow2, ?Z.shiftr_div_pow2 by lia;
  change (2 ^ 7) with 128 in *; change (2 ^ 8) with 256 in *;
  change (2 ^ 11) with 2048 in *; change (2 ^ 16) with 65536 in *;
  change (2 ^ 18) with 262144 in *; change (2 ^ 24) with 16777216 in *;
  change (2 ^ 29) with 536870912 in *; change (2 ^ 30) with 1073741824 in *;
  change (2 ^ 31) with 2147483648 in *; change (2 ^ 32) with 4294967296 in *.

Ltac decide_eqb :=
  match goal with
  | |- (?a =? ?b) = true => apply Z.eqb_eq
  | |- (?a =? ?b) = false => apply Z.eqb_neq
  end.

(** Four bytes packed into a word, least significant first, come back out
    of it. *)
Lemma pack_unpack (d0 d1 d2 d3 : Z) :
  is_byte d0 -> is_byte d1 -> is_byte d2 -> is_byte d3 ->
  Z.land (u32 (d0 + Z.shiftl d1 8 + Z.shiftl d2 16 + Z.shiftl d3 24)) 0xFF = d0
  /\ Z.land (Z.shiftr (u32 (d0 + Z.shiftl d1 8 + Z.shiftl d2 16 + Z.shiftl d3 24)) 8) 0xFF = d1
  /\ Z.land (Z.shiftr (u32 (d0 + Z.shiftl d1 8 + Z.shiftl d2 16 + Z.shiftl d3 24)) 16) 0xFF = d2
  /\ Z.land (Z.shiftr (u32 (d0 + Z.shiftl d1 8 + Z.shiftl d2 16 + Z.shiftl d3 24)) 24) 0xFF = d3.
Proof.
  unfold is_byte. intros H0 H1 H2 H3. to_arith.
  repeat split; Z.div_mod_to_equations; lia.
Qed.

(** The four words [tcan4550_composeMessage] leaves at [off .. off+3]. *)
Lemma compose_words (skb : sk_buff) (buf : list Z) (off : Z) :
  0 <= off -> off + 3 < Z.of_nat (length buf) ->
  load (tcan4550_composeMessage skb buf off) (off + 0)
    = u32 ((if bit_set (can_id (skb_data skb)) CAN_EFF_FLAG
            then Z.land (can_id (skb_data skb)) CAN_EFF_MASK
            else u32 (Z.shiftl (Z.land (can_id (skb_data skb)) CAN_SFF_MASK) 18))
           + (Z.shiftl (Z.b2z (bit_set (can_id (skb_data skb)) CAN_RTR_FLAG)) 29
              + Z.shiftl (Z.b2z (bit_set (can_id (skb_data skb)) CAN_EFF_FLAG)) 30))
  /\ load (tcan4550_composeMessage skb buf off) (off + 1)
     = u32 (Z.shiftl (if 8 <? len (skb_data skb) then 8 else len (skb_data skb)) 16)
  /\ load (tcan4550_composeMessage skb buf off) (off + 2)
     = u32 (load (data (skb_data skb)) 0 + Z.shiftl (load (data (skb_data skb)) 1) 8
            + Z.shiftl (load (data (skb_data skb)) 2) 16
            + Z.shiftl (load (data (skb_data skb)) 3) 24)
  /\ load (tcan4550_composeMessage skb buf off) (off + 3)
     = u32 (load (data (skb_data skb)) 4 + Z.shiftl (load (data (skb_data skb)) 5) 8
            + Z.shiftl (load (data (skb_data skb)) 6) 16
            + Z.shiftl (load (data (skb_data skb)) 7) 24).
Proof.
  intros Hoff Hroom. unfold tcan4550_composeMessage.
  destruct (bit_set (can_id (skb_data skb)) CAN_EFF_FLAG); repeat split; load_store; reflexivity.
Qed.

Lemma flags_of_can_id (id : Z) (extended rtr : bool) :
  0 <= id < 2 ^ 29 ->
  bit_set (id + (if extended then 2 ^ 31 else 0) + (if rtr then 2 ^ 30 else 0)) CAN_EFF_FLAG
    = extended
  /\ bit_set (id + (if extended then 2 ^ 31 else 0) + (if rtr then 2 ^ 30 else 0)) CAN_RTR_FLAG
     = rtr
  /\ Z.land (id + (if extended then 2 ^ 31 else 0) + (if rtr then 2 ^ 30 else 0)) CAN_EFF_MASK
     = id
  /\ (id < 2 ^ 11 ->
      Z.land (id + (if extended then 2 ^ 31 else 0) + (if rtr then 2 ^ 30 else 0)) CAN_SFF_MASK
      = id).
Proof.
  intros Hid.
  change CAN_EFF_FLAG with (2 ^ 31). change CAN_RTR_FLAG with (2 ^ 30).
  rewrite !bit_set_div by lia.
  destruct extended, rtr; to_arith;
    (split; [decide_eqb | split; [decide_eqb | split; [| intros Hsff]]]);
    Z.div_mod_to_equations; lia.
Qed.

(** What the decoder makes of word 0: the extended flag and the identifier
    come back, whatever bit 29 (remote request) holds. *)
Lemma word0_decode (id : Z) (extended rtr : bool) :
  id_in_range extended id ->
  bit_set (u32 ((if extended then id else u32 (Z.shiftl id 18))
                + (Z.shiftl (Z.b2z rtr) 29 + Z.shiftl (Z.b2z extended) 30)))
          (Z.shiftl 1 30) = extended
  /\ (if extended
      then Z.lor (Z.land (u32 ((if extended then id else u32 (Z.shiftl id 18))
                               + (Z.shiftl (Z.b2z rtr) 29 + Z.shiftl (Z.b2z extended) 30)))
                         CAN_EFF_MASK) CAN_EFF_FLAG
      else Z.land (Z.shiftr (u32 ((if extended then id else u32 (Z.shiftl id 18))
                                  + (Z.shiftl (Z.b2z rtr) 29 + Z.shiftl (Z.b2z extended) 30)))
                            18) CAN_SFF_MASK)
     = id + (if extended then 2 ^ 31 else 0).
Proof.
  intros Hid. unfold id_in_range in Hid.
  change (Z.shiftl 1 30) with (2 ^ 30). rewrite bit_set_div by lia.
  destruct extended, rtr; cbn [Z.b2z]; to_arith.
  - split; [decide_eqb; Z.div_mod_to_equations; lia |].
    replace ((id + (1 * 536870912 + 1 * 1073741824)) mod 4294967296 mod 536870912) with id
      by (Z.div_mod_to_equations; lia).
    change 0x80000000 with (2 ^ 31). rewrite lor_disjoint_bit; lia.
  - split; [decide_eqb; Z.div_mod_to_equations; lia |].
    replace ((id + (0 * 536870912 + 1 * 1073741824)) mod 4294967296 mod 536870912) with id
      by (Z.div_mod_to_equations; lia).
    change 0x80000000 with (2 ^ 31). rewrite lor_disjoint_bit; lia.
  - split; [decide_eqb |]; Z.div_mod_to_equations; lia.
  - split; [decide_eqb |]; Z.div_mod_to_equations; lia.
Qed.

Lemma decode_compose (f : can_frame) (invalid : bool) (id : Z) (extended rtr : bool)
    (d0 d1 d2 d3 d4 d5 d6 d7 : Z) (buf : list Z) (off : Z) :
  can_id f = id + (if extended then 2 ^ 31 else 0) + (if rtr then 2 ^ 30 else 0) ->
  data f = [d0; d1; d2; d3; d4; d5; d6; d7] ->
  0 <= len f <= 8 -> id_in_range extended id ->
  is_byte d0 -> is_byte d1 -> is_byte d2 -> is_byte d3 ->
  is_byte d4 -> is_byte d5 -> is_byte d6 -> is_byte d7 ->
  0 <= off -> off + 3 < Z.of_nat (length buf) ->
  recMsgs_decode (tcan4550_composeMessage {| skb_data := f; skb_invalid := invalid |} buf off) off
  = {| can_id := id + (if extended then 2 ^ 31 else 0); len := len f; data := data f |}.
Proof.
  intros Hcan Hdata Hlen Hid B0 B1 B2 B3 B4 B5 B6 B7 Hoff Hroom.
  destruct (compose_words {| skb_data := f; skb_invalid := invalid |} buf off Hoff Hroom)
    as (E0 & E1 & E2 & E3).
  cbn [skb_data] in E0, E1, E2, E3.
  unfold recMsgs_decode. rewrite E0, E1, E2, E3. clear E0 E1 E2 E3.
  rewrite Hcan, Hdata.
  change (load [d0; d1; d2; d3; d4; d5; d6; d7] 0) with d0.
  change (load [d0; d1; d2; d3; d4; d5; d6; d7] 1) with d1.
  change (load [d0; d1; d2; d3; d4; d5; d6; d7] 2) with d2.
  change (load [d0; d1; d2; d3; d4; d5; d6; d7] 3) with d3.
  change (load [d0; d1; d2; d3; d4; d5; d6; d7] 4) with d4.
  change (load [d0; d1; d2; d3; d4; d5; d6; d7] 5) with d5.
  change (load [d0; d1; d2; d3; d4; d5; d6; d7] 6) with d6.
  change (load [d0; d1; d2; d3; d4; d5; d6; d7] 7) with d7.
  destruct (pack_unpack d0 d1 d2 d3 B0 B1 B2 B3) as (P0 & P1 & P2 & P3).
  destruct (pack_unpack d4 d5 d6 d7 B4 B5 B6 B7) as (Q0 & Q1 & Q2 & Q3).
  rewrite P0, P1, P2, P3, Q0, Q1, Q2, Q3.
  assert (Hid29 : 0 <= id < 2 ^ 29).
  { unfold id_in_range in Hid. destruct extended; [exact Hid |].
    change (2 ^ 11) with 2048 in Hid. change (2 ^ 29) with 536870912. lia. }
  destruct (flags_of_can_id id extended rtr Hid29) as (F1 & F2 & F3 & F4).
  rewrite F1, F2, F3.
  destruct (word0_decode id extended rtr Hid) as (W1 & W2).
  assert (Hlen' : (if 8 <? len f then 8 else len f) = len f)
    by (destruct (Z.ltb_spec 8 (len f)); lia).
  rewrite Hlen'.
  assert (Hn : Z.land (Z.shiftr (u32 (Z.shiftl (len f) 16)) 16) 0x7F = len f)
    by (to_arith; Z.div_mod_to_equations; lia).
  rewrite Hn.
  destruct extended.
  - rewrite W1, W2. reflexivity.
  - unfold id_in_range in Hid. rewrite F4 by exact (proj2 Hid). rewrite W1, W2. reflexivity.
Qed.

(** X1: encoding a generic frame and decoding the four words gives back the
    identifier, the extended flag, the length and the eight payload bytes;
    the remote-request flag comes back cleared. *)
Lemma codec_round_trip_modulo_rtr
    (id : Z) (extended rtr : bool) (n : Z) (payload buf : list Z) (off : Z) :
  0 <= n <= 8 -> id_in_range extended id ->
  length payload = 8%nat -> Forall is_byte payload ->
  0 <= off -> off + 3 < Z.of_nat (length buf) ->
  recMsgs_decode
    (tcan4550_composeMessage
       {| skb_data := generic_frame id extended rtr n payload; skb_invalid := false |} buf off)
    off
  = generic_frame id extended false n payload.
Proof.
  intros Hn Hid Hlen Hbytes Hoff Hroom.
  assert (Hid29 : 0 <= id < 2 ^ 29).
  { unfold id_in_range in Hid. destruct extended; [exact Hid |].
    change (2 ^ 11) with 2048 in Hid. change (2 ^ 29) with 536870912. lia. }
  do 8 (destruct payload as [| ? payload]; [discriminate |]).
  destruct payload; [clear Hlen | discriminate].
  repeat match goal with
         | H : Forall _ (_ :: _) |- _ => inversion_clear H
         end.
  erewrite (decode_compose _ false id extended rtr);
    [ | apply generic_frame_can_id; exact Hid29 | reflexivity | exact Hn | exact Hid
      | eassumption .. ].
  unfold generic_frame at 3. f_equal.
  pose proof (generic_frame_can_id id extended false n [] Hid29) as Hc.
  cbn [generic_frame can_id] in Hc. rewrite Hc. lia.
Qed.

Lemma codec_round_trip_modulo_rtr_witness :
  recMsgs_decode
    (tcan4550_composeMessage
       {| skb_data := generic_frame 0x1ABCDE0F true true 8 [1; 2; 3; 4; 5; 6; 7; 255];
          skb_invalid := false |} (replicate 32 0) 4) 4
  = generic_frame 0x1ABCDE0F true false 8 [1; 2; 3; 4; 5; 6; 7; 255].
Proof.
  apply (codec_round_trip_modulo_rtr 0x1ABCDE0F true true 8 [1; 2; 3; 4; 5; 6; 7; 255]
           (replicate 32 0) 4).
  - lia.
  - unfold id_in_range. lia.
  - reflexivity.
  - repeat constructor; unfold is_byte; lia.
  - lia.
  - simpl. lia.
Defined.

(** C1, at a failing input: the remote-request frame with standard
    identifier 0x123 is encoded with bit 29 of word 0 set, and decoding the
    record yields identifier 0x123 with the remote-request flag cleared: the
    decoded frame differs from the one encoded. *)
Theorem codec_loses_remote_request :
  bit_set (can_id (skb_data rtr_skb)) CAN_RTR_FLAG = true
  /\ tcan4550_composeMessage rtr_skb (replicate 4 0) 0 = [0x248C0000; 0; 0; 0]
  /\ recMsgs_decode (tcan4550_composeMessage rtr_skb (replicate 4 0) 0) 0
     = generic_frame 0x123 false false 0 (replicate 8 0)
  /\ bit_set (can_id (recMsgs_decode (tcan4550_composeMessage rtr_skb (replicate 4 0) 0) 0))
       CAN_RTR_FLAG = false
  /\ recMsgs_decode (tcan4550_composeMessage rtr_skb (replicate 4 0) 0) 0 <> skb_data rtr_skb.
Proof.
  split; [reflexivity |]. split; [reflexivity |]. split; [reflexivity |].
  split; [reflexivity |]. intros H. apply (f_equal can_id) in H. vm_compute in H. discriminate.
Qed.

(** ** Burst windows of the hardware FIFOs *)

Lemma land_ones_range (x n : Z) : 0 <= n -> 0 <= Z.land x (Z.ones n) < 2 ^ n.
Proof.
  intros Hn. rewrite Z.land_ones by lia. apply Z.mod_pos_bound.
  apply Z.pow_pos_nonneg; lia.
Qed.

Lemma tx_fields_range (txqfs : Z) :
  0 <= tx_freeBuffers txqfs < 64 /\ 0 <= tx_writeIndex txqfs < 32.
Proof.
  unfold tx_freeBuffers, tx_writeIndex. split.
  - exact (land_ones_range txqfs 6 ltac:(lia)).
  - exact (land_ones_range (Z.shiftr txqfs 16) 5 ltac:(lia)).
Qed.

Lemma rx_fields_range (rxf0s : Z) :
  0 <= rx_fillLevel rxf0s < 128 /\ 0 <= rx_getIndex rxf0s < 64.
Proof.
  unfold rx_fillLevel, rx_getIndex. split.
  - exact (land_ones_range rxf0s 7 ltac:(lia)).
  - exact (land_ones_range (Z.shiftr rxf0s 8) 6 ltac:(lia)).
Qed.

(** Transmit side: whatever TXQFS holds, the clamped count is at most 8, at
    most the free count, and ends at or before the last slot of the ring. *)
Lemma tx_msgsToTransmit_bounds (txqfs : Z) :
  0 <= tx_msgsToTransmit txqfs <= MAX_BURST_TX_MESSAGES
  /\ tx_msgsToTransmit txqfs <= tx_freeBuffers txqfs
  /\ tx_writeIndex txqfs + tx_msgsToTransmit txqfs <= TX_MSG_BOXES
  /\ (1 <= tx_freeBuffers txqfs -> 1 <= tx_msgsToTransmit txqfs).
Proof.
  destruct (tx_fields_range txqfs) as (Hf & Hw).
  unfold tx_msgsToTransmit, MAX_BURST_TX_MESSAGES, TX_MSG_BOXES, u32.
  change (2 ^ 32) with 4294967296.
  destruct (Z.ltb_spec 8 (tx_freeBuffers txqfs)).
  - rewrite (Z.mod_small (tx_writeIndex txqfs + 8)) by lia.
    destruct (Z.ltb_spec 32 (tx_writeIndex txqfs + 8)).
    + rewrite Z.mod_small by lia. lia.
    + lia.
  - rewrite (Z.mod_small (tx_writeIndex txqfs + tx_freeBuffers txqfs)) by lia.
    destruct (Z.ltb_spec 32 (tx_writeIndex txqfs + tx_freeBuffers txqfs)).
    + rewrite Z.mod_small by lia. lia.
    + lia.
Qed.

(** The loop of the worker takes at most [budget] messages. *)
Lemma tx_loop_msgs (budget : nat) :
  forall st st', tx_loop budget st = Some st' ->
    tl_msgs st <= tl_msgs st' <= tl_msgs st + Z.of_nat budget.
Proof.
  induction budget as [| b IH]; intros st st' Hrun; cbn [tx_loop] in Hrun.
  - injection Hrun as <-. lia.
  - destruct (tx_head (tl_priv st) =? tx_tail (tl_priv st)).
    + injection Hrun as <-. lia.
    + destruct (tx_loop_body st) as [st1 |] eqn:Ebody; [| discriminate].
      apply IH in Hrun.
      assert (tl_msgs st1 = tl_msgs st + 1).
      { unfold tx_loop_body in Ebody.
        destruct (tx_skb_buf (tl_priv st) !! Z.to_nat (tx_tail (tl_priv st))) as [[skb |] |];
          try discriminate.
        injection Ebody as <-. reflexivity. }
      lia.
Qed.

(** The count the worker hands to [spi_write_msgs] never carries the burst
    past slot 31 of the transmit ring. *)
Lemma tx_burst_within_ring (txqfs : Z) (p : tcan4550_priv) (st' : tx_loop_state) :
  tx_loop (Z.to_nat (tx_msgsToTransmit txqfs))
    {| tl_priv := p; tl_msgs := 0; tl_writeIndex := tx_writeIndex txqfs; tl_requestMask := 0 |}
  = Some st' ->
  tx_writeIndex txqfs + tl_msgs st' <= TX_MSG_BOXES.
Proof.
  intros Hrun. apply tx_loop_msgs in Hrun. cbn [tl_msgs] in Hrun.
  pose proof (tx_msgsToTransmit_bounds txqfs) as (H0 & _ & Hring & _). lia.
Qed.

Lemma tx_burst_within_ring_witness :
  exists st',
    tx_loop (Z.to_nat (tx_msgsToTransmit 0x001E0008))
      {| tl_priv := snd (xmit_all [sample_skb; sample_skb; sample_skb]
                           (fresh_priv (steady_bus 0x001E0008) (fun _ => true)));
         tl_msgs := 0; tl_writeIndex := tx_writeIndex 0x001E0008; tl_requestMask := 0 |}
    = Some st'
    /\ tl_msgs st' = 2
    /\ tx_writeIndex 0x001E0008 + tl_msgs st' <= TX_MSG_BOXES.
Proof.
  eexists. split; [vm_compute; reflexivity |]. split; [reflexivity |].
  apply (tx_burst_within_ring 0x001E0008
           (snd (xmit_all [sample_skb; sample_skb; sample_skb]
                   (fresh_priv (steady_bus 0x001E0008) (fun _ => true))))).
  vm_compute. reflexivity.
Defined.

(** Receive side: when the reported get index is at most 32, the clamped
    count ends at or before the last slot. *)
Lemma rx_burst_within_ring (rxf0s : Z) :
  rx_getIndex rxf0s <= RX_MSG_BOXES ->
  rx_getIndex rxf0s + rx_msgsToGet rxf0s <= RX_MSG_BOXES
  /\ 0 <= rx_msgsToGet rxf0s <= MAX_BURST_RX_MESSAGES.
Proof.
  destruct (rx_fields_range rxf0s) as (Hf & Hi).
  unfold rx_msgsToGet, RX_MSG_BOXES, MAX_BURST_RX_MESSAGES, u32.
  change (2 ^ 32) with 4294967296. intros Hin.
  rewrite (Z.mod_small (32 - rx_getIndex rxf0s)) by lia.
  destruct (Z.ltb_spec (32 - rx_getIndex rxf0s) (rx_fillLevel rxf0s));
    match goal with |- context [8 <? ?x] => destruct (Z.ltb_spec 8 x) end; lia.
Qed.

Lemma rx_burst_within_ring_witness :
  rx_getIndex 0x1E05 + rx_msgsToGet 0x1E05 <= RX_MSG_BOXES
  /\ 0 <= rx_msgsToGet 0x1E05 <= MAX_BURST_RX_MESSAGES.
Proof. apply (rx_burst_within_ring 0x1E05). vm_compute. discriminate. Defined.

(** For a get index of the ring the receive burst is never more than the
    fill level, and a non-empty FIFO gives a non-empty burst. *)
Lemma rx_burst_of_fill (rxf0s : Z) :
  rx_getIndex rxf0s < RX_MSG_BOXES ->
  rx_msgsToGet rxf0s <= rx_fillLevel rxf0s
  /\ (rx_fillLevel rxf0s <> 0 -> 1 <= rx_msgsToGet rxf0s).
Proof.
  destruct (rx_fields_range rxf0s) as (Hf & Hi).
  unfold rx_msgsToGet, RX_MSG_BOXES, MAX_BURST_RX_MESSAGES, u32.
  change (2 ^ 32) with 4294967296. intros Hin.
  rewrite (Z.mod_small (32 - rx_getIndex rxf0s)) by lia.
  destruct (Z.ltb_spec (32 - rx_getIndex rxf0s) (rx_fillLevel rxf0s));
    match goal with |- context [8 <? ?x] => destruct (Z.ltb_spec 8 x) end; lia.
Qed.

(** C2: for every value of TXQFS (free count, put index) and every value of
    RXF0S whose get index is an index of the 32-slot ring (0..31), the burst
    each path issues ends at or before the last slot of its ring: index +
    burst <= 32.  Neither burst exceeds 8 messages nor the count the chip
    reports, so what remains of that count waits for a later pass; a
    non-empty receive FIFO gives a non-empty burst. *)
Theorem burst_stays_within_ring
    (txqfs rxf0s : Z) (p : tcan4550_priv) (st' : tx_loop_state) :
  tx_loop (Z.to_nat (tx_msgsToTransmit txqfs))
    {| tl_priv := p; tl_msgs := 0; tl_writeIndex := tx_writeIndex txqfs; tl_requestMask := 0 |}
  = Some st' ->
  rx_getIndex rxf0s < RX_MSG_BOXES ->
  tx_writeIndex txqfs + tx_msgsToTransmit txqfs <= TX_MSG_BOXES
  /\ 0 <= tl_msgs st' <= tx_msgsToTransmit txqfs
  /\ tx_msgsToTransmit txqfs <= MAX_BURST_TX_MESSAGES
  /\ tx_msgsToTransmit txqfs <= tx_freeBuffers txqfs
  /\ tx_writeIndex txqfs + tl_msgs st' <= TX_MSG_BOXES
  /\ rx_getIndex rxf0s + rx_msgsToGet rxf0s <= RX_MSG_BOXES
  /\ 0 <= rx_msgsToGet rxf0s <= MAX_BURST_RX_MESSAGES
  /\ rx_msgsToGet rxf0s <= rx_fillLevel rxf0s
  /\ (rx_fillLevel rxf0s <> 0 -> 1 <= rx_msgsToGet rxf0s).
Proof.
  intros Hrun Hidx.
  pose proof (tx_burst_within_ring txqfs p st' Hrun) as Htx.
  apply tx_loop_msgs in Hrun. cbn [tl_msgs] in Hrun.
  pose proof (tx_msgsToTransmit_bounds txqfs) as (H0 & Hfree & Hring & _).
  destruct (rx_burst_within_ring rxf0s ltac:(lia)) as (Hrx & Hrx8).
  destruct (rx_burst_of_fill rxf0s Hidx) as (Hfill & Hone).
  repeat split; try assumption; lia.
Qed.

Lemma burst_stays_within_ring_witness :
  exists st',
    tx_loop (Z.to_nat (tx_msgsToTransmit 0x001E0008))
      {| tl_priv := snd (xmit_all [sample_skb; sample_skb; sample_skb]
                           (fresh_priv (steady_bus 0x001E0008) (fun _ => true)));
         tl_msgs := 0; tl_writeIndex := tx_writeIndex 0x001E0008; tl_requestMask := 0 |}
    = Some st'
    /\ tl_msgs st' = 2
    /\ tx_writeIndex 0x001E0008 + tl_msgs st' <= TX_MSG_BOXES
    /\ rx_getIndex 0x1E05 + rx_msgsToGet 0x1E05 <= RX_MSG_BOXES.
Proof.
  eexists. split; [vm_compute; reflexivity |]. split; [reflexivity |].
  match goal with
  | |- _ + tl_msgs ?st <= _ /\ _ =>
      destruct (burst_stays_within_ring 0x001E0008 0x1E05
                  (snd (xmit_all [sample_skb; sample_skb; sample_skb]
                          (fresh_priv (steady_bus 0x001E0008) (fun _ => true))))
                  st) as (_ & _ & _ & _ & Htx & Hrx & _)
  end.
  - vm_compute. reflexivity.
  - vm_compute. reflexivity.
  - split; [exact Htx | exact Hrx].
Defined.

(** ** Software transmit ring *)

(** The head computed by [tcan_start_xmit] is the head advanced by one
    modulo the ring size. *)
Lemma tmpHead_next (h : Z) :
  0 <= h < TX_BUFFER_SIZE ->
  (if TX_BUFFER_SIZE <=? u32 (u32 h + 1) then 0 else u32 (u32 h + 1)) = next_index h.
Proof.
  unfold next_index, TX_BUFFER_SIZE, u32. change (16 + 1) with 17.
  change (2 ^ 32) with 4294967296.
  intros Hh. rewrite (Z.mod_small h) by lia. rewrite (Z.mod_small (h + 1)) by lia.
  destruct (Z.leb_spec 17 (h + 1)).
  - assert (h = 16) by lia. subst h. reflexivity.
  - rewrite Z.mod_small by lia. reflexivity.
Qed.

(** A valid buffer is refused exactly when the ring is full (advancing the
    head would reach the tail); otherwise it is stored at the head, which
    advances. *)
Lemma tcan_start_xmit_spec (skb : sk_buff) (p : tcan4550_priv) :
  skb_ok skb -> ring_ok p ->
  tcan_start_xmit skb p =
    if next_index (tx_head p) =? tx_tail p
    then (NETDEV_TX_BUSY,
          set_ring (set_ndev p (netif_stop_queue (ndev p)))
            (tx_skb_buf p) (tx_head p) (tx_tail p) true)
    else (NETDEV_TX_OK,
          set_ring p (<[Z.to_nat (tx_head p) := Some skb]> (tx_skb_buf p))
            (next_index (tx_head p)) (tx_tail p) true).
Proof.
  intros Hv (Hh & Ht & _). unfold tcan_start_xmit. rewrite Hv.
  rewrite (tmpHead_next (tx_head p) Hh).
  assert (Hu : u32 (tx_tail p) = tx_tail p).
  { unfold u32, TX_BUFFER_SIZE in *. apply Z.mod_small. change (2 ^ 32) with 4294967296. lia. }
  rewrite Hu. reflexivity.
Qed.

Lemma tcan_start_xmit_spec_witness :
  tcan_start_xmit sample_skb (fresh_priv dead_bus (fun _ => true))
  = (NETDEV_TX_OK,
     set_ring (fresh_priv dead_bus (fun _ => true))
       (<[0%nat := Some sample_skb]> (replicate 17 None)) 1 0 true).
Proof.
  apply (tcan_start_xmit_spec sample_skb (fresh_priv dead_bus (fun _ => true))).
  - reflexivity.
  - unfold ring_ok. simpl. unfold TX_BUFFER_SIZE. lia.
Defined.

(** Submitting valid buffers to a ring whose tail is 0 and that has room
    for them all: each is accepted and the head advances by their number. *)
Lemma xmit_all_fill (skbs : list sk_buff) :
  forall p : tcan4550_priv,
    ring_ok p -> tx_tail p = 0 -> filled_below_head p ->
    Forall skb_ok skbs ->
    tx_head p + Z.of_nat (length skbs) <= 16 ->
    fst (xmit_all skbs p) = replicate (length skbs) NETDEV_TX_OK
    /\ tx_head (snd (xmit_all skbs p)) = tx_head p + Z.of_nat (length skbs)
    /\ tx_tail (snd (xmit_all skbs p)) = 0
    /\ ring_ok (snd (xmit_all skbs p))
    /\ filled_below_head (snd (xmit_all skbs p))
    /\ spi (snd (xmit_all skbs p)) = spi p.
Proof.
  induction skbs as [| skb rest IH]; intros p Hok Htail Hfill Hvalid Hroom.
  - cbn. refine (conj eq_refl (conj _ (conj Htail (conj Hok (conj Hfill eq_refl))))). lia.
  - inversion_clear Hvalid as [| ? ? Hskb Hrest].
    cbn [xmit_all length] in *.
    pose proof Hok as (Hh & Ht & Hlen).
    rewrite (tcan_start_xmit_spec skb p Hskb Hok).
    assert (Hnext : next_index (tx_head p) = tx_head p + 1).
    { unfold next_index, TX_BUFFER_SIZE. change (16 + 1) with 17. apply Z.mod_small. lia. }
    rewrite Hnext, Htail.
    destruct (Z.eqb_spec (tx_head p + 1) 0) as [E | _]; [lia |].
    set (p1 := set_ring p _ _ _ _).
    assert (Hok1 : ring_ok p1).
    { unfold ring_ok, p1, TX_BUFFER_SIZE in *. cbn. rewrite length_insert. lia. }
    assert (Hfill1 : filled_below_head p1).
    { intros j Hj. unfold p1 in *. cbn in *.
      destruct (Z.eq_dec j (tx_head p)) as [-> | Hne].
      - exists skb. apply list_lookup_insert_eq. unfold TX_BUFFER_SIZE in *. lia.
      - rewrite list_lookup_insert_ne by lia. apply Hfill. lia. }
    specialize (IH p1 Hok1 eq_refl Hfill1 Hrest).
    assert (Hroom1 : tx_head p1 + Z.of_nat (length rest) <= 16) by (unfold p1; cbn; lia).
    specialize (IH Hroom1).
    destruct (xmit_all rest p1) as [rs p2] eqn:Erun. cbn [fst snd] in *.
    destruct IH as (I1 & I2 & I3 & I4 & I5 & I6).
    refine (conj _ (conj _ (conj I3 (conj I4 (conj I5 I6))))).
    + rewrite I1. reflexivity.
    + rewrite I2. unfold p1. cbn. lia.
Qed.

Lemma spi_write_msgs_ring (p : tcan4550_priv) (address msgs : Z) (words : list Z) :
  tx_head (snd (spi_write_msgs p address msgs words)) = tx_head p
  /\ tx_tail (snd (spi_write_msgs p address msgs words)) = tx_tail p
  /\ tx_skb_buf (snd (spi_write_msgs p address msgs words)) = tx_skb_buf p
  /\ ndev (snd (spi_write_msgs p address msgs words)) = ndev p.
Proof.
  unfold spi_write_msgs. destruct (MAX_BURST_TX_MESSAGES <? msgs); [tauto |].
  destruct (spi_transfer _ _ _ _) as [[ret s'] rxb]. cbn. tauto.
Qed.

(** With one free slot reported by the chip and a non-empty ring, the worker
    returns, takes exactly the entry at the tail and advances the tail by
    one. *)
Lemma worker_drains_one (p : tcan4550_priv) :
  ring_ok p -> tx_head p <> tx_tail p ->
  (exists skb, tx_skb_buf p !! Z.to_nat (tx_tail p) = Some (Some skb)) ->
  tx_freeBuffers (fst (spi_read32 (spi p) TXQFS)) = 1 ->
  exists p', tcan4550_tx_work_handler p = Some p'
    /\ tx_tail p' = next_index (tx_tail p)
    /\ tx_head p' = tx_head p
    /\ tx_skb_buf p' = tx_skb_buf p.
Proof.
  intros (Hh & Ht & Hlen) Hne (skb & Hslot) Hfree.
  unfold tcan4550_tx_work_handler.
  destruct (spi_read32 (spi p) TXQFS) as [txqfs s1]. cbn [fst] in Hfree.
  assert (Hone : tx_msgsToTransmit txqfs = 1).
  { pose proof (tx_msgsToTransmit_bounds txqfs) as (_ & Hle & _ & Hge). lia. }
  rewrite Hone. change (Z.to_nat 1) with 1%nat. cbn [tx_loop tl_priv].
  change (tx_head (set_spi p s1)) with (tx_head p).
  change (tx_tail (set_spi p s1)) with (tx_tail p).
  destruct (Z.eqb_spec (tx_head p) (tx_tail p)) as [E | _]; [contradiction |].
  unfold tx_loop_body. cbn [tl_priv tl_msgs tl_writeIndex tl_requestMask].
  change (tx_skb_buf (set_spi p s1)) with (tx_skb_buf p).
  change (tx_tail (set_spi p s1)) with (tx_tail p).
  rewrite Hslot. cbn [tl_priv tl_msgs tl_requestMask]. change (0 <? 0 + 1) with true. cbv iota.
  match goal with
  | |- context [spi_write_msgs ?q ?a ?m ?w] =>
      pose proof (spi_write_msgs_ring q a m w) as (R1 & R2 & R3 & _);
      destruct (spi_write_msgs q a m w) as [ret q']
  end.
  cbn [snd] in R1, R2, R3.
  destruct (spi_write32 (spi q') TXBAR _) as [ret2 s2].
  eexists. split; [reflexivity |].
  cbn [set_spi tx_tail tx_head tx_skb_buf].
  rewrite R1, R2, R3. cbn.
  split; [| split; reflexivity].
  unfold next_index, TX_BUFFER_SIZE in *. change (16 + 1) with 17 in *.
  destruct (Z.leb_spec 17 (tx_tail p + 1)).
  - assert (tx_tail p = 16) by lia. replace (tx_tail p) with 16 by lia. reflexivity.
  - rewrite Z.mod_small by lia. reflexivity.
Qed.

(** C3: from the empty ring (head = tail = 0, 17 slots) sixteen valid
    buffers in a row are accepted; after [k] of them the head is [k] and the
    tail 0, so the ring is empty (head = tail) exactly for [k = 0] and full
    (head advanced by one modulo 17 equals tail) exactly for [k = 16]; the
    seventeenth is answered busy and leaves head, tail and slots as they were;
    once the worker has taken one entry (the chip reporting one free slot),
    one more buffer is accepted. *)
Theorem tx_queue_sixteen_then_busy
    (p : tcan4550_priv) (skbs : list sk_buff) (extra later : sk_buff) :
  tx_head p = 0 -> tx_tail p = 0 -> length (tx_skb_buf p) = Z.to_nat TX_BUFFER_SIZE ->
  length skbs = 16%nat -> Forall skb_ok skbs -> skb_ok extra -> skb_ok later ->
  tx_freeBuffers (fst (spi_read32 (spi p) TXQFS)) = 1 ->
  (forall k : nat, (k <= 16)%nat ->
     fst (xmit_all (take k skbs) p) = replicate k NETDEV_TX_OK
     /\ tx_head (snd (xmit_all (take k skbs) p)) = Z.of_nat k
     /\ tx_tail (snd (xmit_all (take k skbs) p)) = 0
     /\ (queue_empty (snd (xmit_all (take k skbs) p)) <-> k = 0%nat)
     /\ (queue_full (snd (xmit_all (take k skbs) p)) <-> k = 16%nat))
  /\ fst (xmit_all skbs p) = replicate 16 NETDEV_TX_OK
  /\ fst (tcan_start_xmit extra (snd (xmit_all skbs p))) = NETDEV_TX_BUSY
  /\ tx_head (snd (tcan_start_xmit extra (snd (xmit_all skbs p)))) = 16
  /\ tx_tail (snd (tcan_start_xmit extra (snd (xmit_all skbs p)))) = 0
  /\ tx_skb_buf (snd (tcan_start_xmit extra (snd (xmit_all skbs p))))
     = tx_skb_buf (snd (xmit_all skbs p))
  /\ exists p18,
       tcan4550_tx_work_handler (snd (tcan_start_xmit extra (snd (xmit_all skbs p)))) = Some p18
       /\ tx_head p18 = 16 /\ tx_tail p18 = 1
       /\ fst (tcan_start_xmit later p18) = NETDEV_TX_OK
       /\ tx_head (snd (tcan_start_xmit later p18)) = 0
       /\ tx_tail (snd (tcan_start_xmit later p18)) = 1.
Proof.
  intros Hhead Htail Hlen Hn Hvalid Hextra Hlater Hfree.
  assert (Hok : ring_ok p).
  { unfold ring_ok, TX_BUFFER_SIZE in *. rewrite Hhead, Htail. lia. }
  assert (Hfill : filled_below_head p) by (intros j Hj; lia).
  split.
  { intros k Hk.
    assert (Hvk : Forall skb_ok (take k skbs)) by (apply Forall_take; exact Hvalid).
    assert (Hlk : length (take k skbs) = k) by (rewrite length_take; lia).
    destruct (xmit_all_fill (take k skbs) p Hok Htail Hfill Hvk) as (A1 & A2 & A3 & _).
    { rewrite Hlk, Hhead. lia. }
    rewrite Hlk in A1, A2. rewrite Hhead in A2.
    unfold queue_empty, queue_full, next_index, TX_BUFFER_SIZE.
    rewrite A2, A3. change (16 + 1) with 17.
    refine (conj A1 (conj _ (conj eq_refl (conj _ _)))); [lia | lia |].
    rewrite Z.add_0_l. split.
    - intros Hfull. destruct (Nat.eq_dec k 16%nat) as [-> | Hlt]; [reflexivity |].
      rewrite Z.mod_small in Hfull; lia.
    - intros ->. reflexivity. }
  destruct (xmit_all_fill skbs p Hok Htail Hfill Hvalid) as (B1 & B2 & B3 & B4 & B5 & B6).
  { rewrite Hn, Hhead. lia. }
  rewrite Hn in B1, B2. rewrite Hhead in B2.
  set (p16 := snd (xmit_all skbs p)) in *.
  rewrite (tcan_start_xmit_spec extra p16 Hextra B4).
  rewrite B2, B3. change (next_index (0 + Z.of_nat 16) =? 0) with true. cbv iota.
  cbn [fst snd set_ring tx_head tx_tail tx_skb_buf].
  refine (conj B1 (conj eq_refl (conj eq_refl (conj eq_refl (conj eq_refl _))))).
  set (p17 := set_ring (set_ndev p16 (netif_stop_queue (ndev p16)))
                (tx_skb_buf p16) (0 + Z.of_nat 16) 0 true).
  assert (Hok17 : ring_ok p17).
  { unfold ring_ok, p17, TX_BUFFER_SIZE. cbn. destruct B4 as (_ & _ & L).
    split; [lia | split; [lia | exact L]]. }
  destruct (worker_drains_one p17 Hok17) as (p18 & W1 & W2 & W3 & W4).
  - unfold p17. cbn. lia.
  - unfold p17. cbn. apply B5. rewrite B2. lia.
  - unfold p17. cbn. rewrite B6. exact Hfree.
  - exists p18. split; [exact W1 |].
    assert (T18 : tx_tail p18 = 1) by (rewrite W2; reflexivity).
    assert (H18 : tx_head p18 = 16) by (rewrite W3; reflexivity).
    assert (Hok18 : ring_ok p18).
    { unfold ring_ok, TX_BUFFER_SIZE. rewrite T18, H18, W4. destruct Hok17 as (_ & _ & L).
      split; [lia | split; [lia | exact L]]. }
    rewrite (tcan_start_xmit_spec later p18 Hlater Hok18).
    rewrite T18, H18. change (next_index 16 =? 1) with false. cbv iota.
    cbn [fst snd set_ring tx_head tx_tail].
    refine (conj eq_refl (conj eq_refl (conj eq_refl (conj eq_refl eq_refl)))).
Qed.

Lemma tx_queue_sixteen_then_busy_witness :
  fst (tcan_start_xmit sample_skb
         (snd (xmit_all (replicate 16 sample_skb) (fresh_priv (steady_bus 1) (fun _ => true)))))
  = NETDEV_TX_BUSY.
Proof.
  refine (proj1 (proj2 (proj2
    (tx_queue_sixteen_then_busy (fresh_priv (steady_bus 1) (fun _ => true))
       (replicate 16 sample_skb) sample_skb sample_skb
       eq_refl eq_refl eq_refl eq_refl _ eq_refl eq_refl eq_refl)))).
  repeat constructor.
Defined.

(** ** Shape of the register accesses *)

Lemma spi_read32_some (d : spi_device) (address : Z) :
  exists word d',
    spi_read32 (Some d) address = (word, Some d')
    /\ spi_sent d' = spi_sent d ++ [read32_request address]
    /\ spi_reply d' = spi_reply d.
Proof.
  unfold spi_read32, spi_transfer, spi_sync.
  destruct (spi_reply d _ _) as [ret rx]. eexists. eexists.
  split; [reflexivity |]. split; reflexivity.
Qed.

Lemma spi_write32_some (d : spi_device) (address word : Z) :
  exists ret d',
    spi_write32 (Some d) address word = (ret, Some d')
    /\ spi_sent d' = spi_sent d ++ [write32_request address word]
    /\ spi_reply d' = spi_reply d.
Proof.
  unfold spi_write32, spi_transfer, spi_sync.
  destruct (spi_reply d _ _) as [ret rx]. eexists. eexists.
  split; [reflexivity |]. split; reflexivity.
Qed.

Lemma spi_read_msgs_some (p : tcan4550_priv) (d : spi_device) (address msgs : Z) (out : list Z) :
  spi p = Some d -> msgs <= MAX_BURST_RX_MESSAGES ->
  exists ret d' rxb out',
    spi_read_msgs p address msgs out
    = (ret, set_rx_bufs p (Some d') (read_msgs_header (rx_txBuf p) address msgs) rxb, out')
    /\ spi_sent d'
       = spi_sent d ++ [take (Z.to_nat (4 + msgs * 16))
                          (read_msgs_header (rx_txBuf p) address msgs)]
    /\ spi_reply d' = spi_reply d.
Proof.
  intros Hspi Hm. unfold spi_read_msgs.
  destruct (Z.ltb_spec MAX_BURST_RX_MESSAGES msgs) as [Hgt | _]; [lia |].
  rewrite Hspi. unfold spi_transfer, spi_sync.
  destruct (spi_reply d _ _) as [ret rx].
  eexists. eexists. eexists. eexists. split; [reflexivity |]. split; reflexivity.
Qed.

Lemma read_msgs_header_take4 (buf : list Z) (address msgs : Z) :
  (4 <= length buf)%nat ->
  take 4 (read_msgs_header buf address msgs)
  = [0x41; u8 (Z.shiftr address 8); u8 (Z.land address 0xFF); u8 (msgs * 4)].
Proof.
  intros Hlen. do 4 (destruct buf as [| ? buf]; [simpl in Hlen; lia |]). reflexivity.
Qed.

Lemma read_msgs_header_length (buf : list Z) (address msgs : Z) :
  length (read_msgs_header buf address msgs) = length buf.
Proof. unfold read_msgs_header, store. rewrite !length_insert. reflexivity. Qed.

Lemma writes_to_app (address : Z) (l1 l2 : list (list Z)) :
  writes_to address (l1 ++ l2) = writes_to address l1 ++ writes_to address l2.
Proof. unfold writes_to. apply flat_map_app. Qed.

(** A request longer than eight bytes is no single-register write. *)
Lemma writes_to_long (address : Z) (req : list Z) :
  (8 < length req)%nat -> writes_to address [req] = [].
Proof.
  intros Hlen. do 9 (destruct req as [| ? req]; [simpl in Hlen; lia |]). reflexivity.
Qed.

(** ** Bus-off *)

Lemma configureControlModes_frame (q : tcan4550_priv) :
  tcan4550_configureControlModes q = set_spi q (spi (tcan4550_configureControlModes q)).
Proof.
  unfold tcan4550_configureControlModes.
  destruct (spi_read32 (spi q) CCCR) as [cccr s]. destruct (spi_read32 s TEST) as [test s'].
  destruct (bit_set (ctrlmode (can q)) CAN_CTRLMODE_LOOPBACK); reflexivity.
Qed.

(** The set-up sequence reports success and touches the device only. *)
Lemma tcan4550_init_frame (q : tcan4550_priv) (reg : Z) :
  tcan4550_init q reg = (true, set_spi q (spi (snd (tcan4550_init q reg)))).
Proof.
  unfold tcan4550_init. rewrite configureControlModes_frame. reflexivity.
Qed.

(** An explicit restart empties the ring, returns the state to
    error-active and starts the queue again. *)
Lemma restart_reopens (q : tcan4550_priv) :
  fst (tcan4550_set_mode q CAN_MODE_START) = 0
  /\ queue_stopped (ndev (snd (tcan4550_set_mode q CAN_MODE_START))) = false
  /\ state (can (snd (tcan4550_set_mode q CAN_MODE_START))) = CAN_STATE_ERROR_ACTIVE
  /\ tx_head (snd (tcan4550_set_mode q CAN_MODE_START)) = 0
  /\ tx_tail (snd (tcan4550_set_mode q CAN_MODE_START)) = 0.
Proof.
  unfold tcan4550_set_mode. rewrite tcan4550_init_frame.
  repeat split; reflexivity.
Qed.

(** Neither the submission path nor the worker starts a stopped queue. *)
Lemma tcan_start_xmit_keeps_stopped (skb : sk_buff) (q : tcan4550_priv) :
  queue_stopped (ndev q) = true ->
  queue_stopped (ndev (snd (tcan_start_xmit skb q))) = true.
Proof.
  intros Hs. unfold tcan_start_xmit.
  destruct (skb_invalid skb); [exact Hs |].
  match goal with |- context [if ?c then _ else _] => destruct c end; cbn;
    [reflexivity | exact Hs].
Qed.

Lemma tx_loop_queue_flag (budget : nat) :
  forall st st', tx_loop budget st = Some st' ->
    queue_stopped (ndev (tl_priv st')) = queue_stopped (ndev (tl_priv st)).
Proof.
  induction budget as [| b IH]; intros st st' Hrun; cbn [tx_loop] in Hrun.
  - injection Hrun as <-. reflexivity.
  - destruct (tx_head (tl_priv st) =? tx_tail (tl_priv st)).
    + injection Hrun as <-. reflexivity.
    + destruct (tx_loop_body st) as [st1 |] eqn:Ebody; [| discriminate].
      apply IH in Hrun. rewrite Hrun.
      unfold tx_loop_body in Ebody.
      destruct (tx_skb_buf (tl_priv st) !! Z.to_nat (tx_tail (tl_priv st))) as [[skb |] |];
        try discriminate.
      injection Ebody as <-. reflexivity.
Qed.

Lemma worker_keeps_queue_flag (q q' : tcan4550_priv) :
  tcan4550_tx_work_handler q = Some q' ->
  queue_stopped (ndev q') = queue_stopped (ndev q).
Proof.
  unfold tcan4550_tx_work_handler.
  destruct (spi_read32 (spi q) TXQFS) as [txqfs s1].
  destruct (tx_loop _ _) as [st |] eqn:Erun; [| discriminate].
  apply tx_loop_queue_flag in Erun. cbn [tl_priv set_spi ndev] in Erun.
  destruct (0 <? tl_msgs st).
  - match goal with
    | |- context [spi_write_msgs ?a ?b ?c ?e] =>
        pose proof (spi_write_msgs_ring a b c e) as (_ & _ & _ & Hn);
        destruct (spi_write_msgs a b c e) as [ret a']
    end.
    cbn [snd] in Hn. destruct (spi_write32 _ _ _) as [ret2 s2].
    intros [= <-]. cbn [set_spi ndev]. rewrite Hn. exact Erun.
  - intros [= <-]. exact Erun.
Qed.

(** ** Bit-timing word: values outside the declared ranges *)

(** The packing of the source has no range test of its own: a prescaler of
    0 wraps to an all-ones field that spills over the bits above it. *)
Example bitRateReg_unchecked :
  bitRateReg (with_brp sample_bittiming 0) = 0xFFFF3E0F
  /\ bitRateReg (with_brp sample_bittiming 512) = 0x01FF3E0F.
Proof. split; reflexivity. Qed.

(** ** Receive acknowledge *)

Lemma rx_deliver_spi (p : tcan4550_priv) (i : Z) : spi (rx_deliver p i) = spi p.
Proof.
  unfold rx_deliver, alloc_skb. destruct (skb_alloc (ndev p) (skb_allocs (ndev p))); reflexivity.
Qed.

Lemma rx_deliver_all_spi (l : list Z) :
  forall p, spi (fold_left rx_deliver l p) = spi p.
Proof.
  induction l as [| i l IH]; intros p; [reflexivity |].
  cbn [fold_left]. rewrite IH. apply rx_deliver_spi.
Qed.

(** Each pass of the delivery loop asks for one buffer. *)
Lemma rx_deliver_all_allocs (l : list Z) :
  forall p, skb_allocs (ndev (fold_left rx_deliver l p)) = (skb_allocs (ndev p) + length l)%nat.
Proof.
  induction l as [| i l IH]; intros p; [cbn; lia |].
  cbn [fold_left length]. rewrite IH.
  unfold rx_deliver, alloc_skb.
  destruct (skb_alloc (ndev p) (skb_allocs (ndev p))); cbn; lia.
Qed.

(** C6: with fill level 5 and get index 10 in RXF0S, one pass of the
    receive path puts three requests on the wire: the read of RXF0S, one
    burst read of 5 records at slot 10 (address 0x82A0, 84 bytes), and the
    write of 14 (the index of the last record read, 10 + 5 - 1) to the
    acknowledge register RXF0A, which is the only write to that register in
    the pass; all 5 records are then processed. *)
Theorem rx_acknowledge_last_index (p : tcan4550_priv) :
  buffers_ok p ->
  rx_fillLevel (fst (spi_read32 (spi p) RXF0S)) = 5 ->
  rx_getIndex (fst (spi_read32 (spi p) RXF0S)) = 10 ->
  fst (tcan4550_recMsgs p) = true
  /\ skb_allocs (ndev (snd (tcan4550_recMsgs p))) = (skb_allocs (ndev p) + 5)%nat
  /\ exists burst,
       issued (spi p) (spi (snd (tcan4550_recMsgs p)))
       = [read32_request RXF0S; burst; write32_request RXF0A 14]
       /\ take 4 burst = [0x41; 0x82; 0xA0; 20]
       /\ length burst = 84%nat
       /\ writes_to RXF0A (issued (spi p) (spi (snd (tcan4550_recMsgs p)))) = [14].
Proof.
  intros Hbuf Hfill Hidx. unfold tcan4550_recMsgs, issued.
  destruct (spi p) as [d |] eqn:Hspi; [| vm_compute in Hfill; discriminate].
  destruct (spi_read32_some d RXF0S) as (rxf0s & d1 & E1 & S1 & R1).
  rewrite E1 in *. cbn [fst] in Hfill, Hidx.
  assert (Hget : rx_msgsToGet rxf0s = 5).
  { unfold rx_msgsToGet. rewrite Hfill, Hidx. reflexivity. }
  rewrite Hfill, Hidx, Hget. change (5 =? 0) with false. cbv iota.
  destruct (spi_read_msgs_some (set_spi p (Some d1)) d1
              (u32 (MRAM_BASE + RX_FIFO_START_ADDRESS + 10 * RX_SLOT_SIZE)) 5
              (rxBuffer (set_spi p (Some d1))) eq_refl)
    as (ret & d2 & rxb & out' & E2 & S2 & R2).
  { unfold MAX_BURST_RX_MESSAGES. lia. }
  rewrite E2. cbn [set_rxBuffer set_rx_bufs spi].
  destruct (spi_write32_some d2 RXF0A (u32 (10 + 5 - 1))) as (r3 & d3 & E3 & S3 & R3).
  rewrite E3. cbn [fst snd]. rewrite rx_deliver_all_spi, rx_deliver_all_allocs.
  cbn [set_spi spi sent ndev].
  rewrite S3, S2, S1. rewrite <- !app_assoc. rewrite drop_app_length.
  cbn [set_spi rx_txBuf].
  destruct Hbuf as (_ & _ & _ & Hlen & _).
  change (Z.to_nat (4 + MAX_BURST_RX_MESSAGES * 16)) with 132%nat in Hlen.
  change (Z.to_nat (4 + 5 * 16)) with 84%nat.
  set (hdr := read_msgs_header (rx_txBuf p) _ 5).
  assert (Hl : length (take 84 hdr) = 84%nat).
  { rewrite length_take. unfold hdr. rewrite read_msgs_header_length. lia. }
  split; [reflexivity |]. split; [reflexivity |].
  exists (take 84 hdr). split; [reflexivity |]. split; [| split; [exact Hl |]].
  - rewrite take_take. change (4 `min` 84)%nat with 4%nat.
    unfold hdr. rewrite read_msgs_header_take4 by lia. reflexivity.
  - change ([read32_request RXF0S] ++ [take 84 hdr] ++ [write32_request RXF0A (u32 (10 + 5 - 1))])
      with ([read32_request RXF0S] ++ ([take 84 hdr] ++ [write32_request RXF0A 14])).
    rewrite !writes_to_app. rewrite (writes_to_long RXF0A (take 84 hdr)) by lia.
    reflexivity.
Qed.

Lemma rx_acknowledge_last_index_witness :
  writes_to RXF0A
    (issued (spi (fresh_priv (steady_bus 0x0A05) (fun _ => true)))
       (spi (snd (tcan4550_recMsgs (fresh_priv (steady_bus 0x0A05) (fun _ => true))))))
  = [14].
Proof.
  destruct (rx_acknowledge_last_index (fresh_priv (steady_bus 0x0A05) (fun _ => true)))
    as (_ & _ & burst & _ & _ & _ & Hack).
  - unfold buffers_ok. repeat split; reflexivity.
  - reflexivity.
  - reflexivity.
  - exact Hack.
Defined.

(** ** Transport layer: byte order and burst layout *)

Lemma load_nth (l : list Z) (k : nat) : load l (Z.of_nat k) = nth k l 0.
Proof.
  unfold load. rewrite Nat2Z.id. revert k.
  induction l as [| a l IH]; intros [| k]; simpl; auto.
Qed.

(** Reading a literal array at a literal index. *)
Ltac load_literal :=
  repeat match goal with
         | |- context [load ?l ?k] =>
             match k with
             | 0 => change (load l 0) with (load l (Z.of_nat 0))
             | Zpos ?q =>
                 let n := eval vm_compute in (Pos.to_nat q) in
                 change (load l k) with (load l (Z.of_nat n))
             end;
             rewrite (load_nth l); cbn [nth]
         end.

Lemma be_bytes_word (w : Z) (pre : list Z) :
  is_word w -> length pre = 4%nat ->
  u32 (Z.shiftl (load (clock_in 8 (pre ++ be_bytes w) (uninit 8)) 4) 24
       + Z.shiftl (load (clock_in 8 (pre ++ be_bytes w) (uninit 8)) 5) 16
       + Z.shiftl (load (clock_in 8 (pre ++ be_bytes w) (uninit 8)) 6) 8
       + load (clock_in 8 (pre ++ be_bytes w) (uninit 8)) 7) = w.
Proof.
  unfold is_word. intros Hw Hpre.
  do 4 (destruct pre as [| ? pre]; [discriminate |]). destruct pre; [| discriminate].
  cbn [app be_bytes clock_in uninit replicate].
  load_literal.
  unfold u8. to_arith. rewrite !Z.mod_mod by lia.
  replace (w / 16777216) with (w / 256 / 256 / 256) by (rewrite !Z.div_div by lia; reflexivity).
  replace (w / 65536) with (w / 256 / 256) by (rewrite !Z.div_div by lia; reflexivity).
  Z.div_mod_to_equations. lia.
Qed.

(** X2: reading back what was written: when the exchange of [spi_read32] clocks
    in four header bytes followed by the payload bytes [spi_write32] sends for
    [word], the result is [word], whatever the status of the exchange. *)
Theorem spi_read32_of_written_bytes (d : spi_device) (address word : Z) (pre : list Z) (ret : Z) :
  is_word word -> length pre = 4%nat ->
  spi_reply d (length (spi_sent d)) (read32_request address)
    = (ret, pre ++ drop 4 (write32_request address word)) ->
  fst (spi_read32 (Some d) address) = word.
Proof.
  intros Hw Hpre Hreply. unfold spi_read32, spi_transfer, spi_sync.
  change (take (Z.to_nat 8) _) with (read32_request address).
  rewrite Hreply. cbn [fst]. change (Z.to_nat 8) with 8%nat.
  change (drop 4 (write32_request address word)) with (be_bytes word).
  apply be_bytes_word; assumption.
Qed.

Lemma spi_read32_of_written_bytes_witness :
  fst (spi_read32
         (Some {| spi_reply := fun _ _ => (0, [0x41; 0x10; 0x1C; 1; 0xCA; 0xFE; 0x01; 0x23]);
                  spi_sent := [] |}) NBTP) = 0xCAFE0123.
Proof.
  apply (spi_read32_of_written_bytes _ NBTP 0xCAFE0123 [0x41; 0x10; 0x1C; 1] 0).
  - unfold is_word. lia.
  - reflexivity.
  - reflexivity.
Defined.

Lemma iterations_S (n : nat) :
  iterations (Z.of_nat (S n)) = iterations (Z.of_nat n) ++ [Z.of_nat n].
Proof.
  unfold iterations. rewrite !Nat2Z.id. rewrite seq_S, map_app. reflexivity.
Qed.

Lemma store_app_r (l1 l2 : list Z) (k v : Z) :
  0 <= k -> store (l1 ++ l2) (Z.of_nat (length l1) + k) v = l1 ++ store l2 k v.
Proof.
  intros Hk. unfold store.
  replace (Z.to_nat (Z.of_nat (length l1) + k)) with (length l1 + Z.to_nat k)%nat by lia.
  apply insert_app_r.
Qed.

Lemma length_flat_map_be (f : Z -> Z) (l : list Z) :
  length (flat_map (fun i => be_bytes (f i)) l) = (4 * length l)%nat.
Proof. induction l as [| i l IH]; simpl; lia. Qed.

Lemma length_iterations (n : nat) : length (iterations (Z.of_nat n)) = n.
Proof. unfold iterations. rewrite length_map, length_seq. lia. Qed.

Lemma write_msgs_pack (words : list Z) (n : nat) :
  forall buf : list Z,
    (4 + 4 * n <= length buf)%nat ->
    fold_left (write_msgs_step words) (iterations (Z.of_nat n)) buf
    = take 4 buf ++ flat_map (fun i => be_bytes (load words i)) (iterations (Z.of_nat n))
      ++ drop (4 + 4 * n) buf.
Proof.
  induction n as [| n IH]; intros buf Hlen.
  - change (iterations (Z.of_nat 0)) with (@nil Z). cbn [fold_left flat_map app].
    change (4 + 4 * 0)%nat with 4%nat. symmetry. apply take_drop.
  - rewrite iterations_S, fold_left_app, flat_map_app. cbn [fold_left flat_map].
    rewrite IH by lia. rewrite app_nil_r.
    set (F := flat_map _ (iterations (Z.of_nat n))).
    assert (HF : length F = (4 * n)%nat).
    { unfold F. rewrite length_flat_map_be, length_iterations. reflexivity. }
    assert (Hrest : exists r0 r1 r2 r3,
               drop (4 + 4 * n) buf = r0 :: r1 :: r2 :: r3 :: drop (4 + 4 * S n) buf).
    { assert (Hl : (4 <= length (drop (4 + 4 * n) buf))%nat) by (rewrite length_drop; lia).
      destruct (drop (4 + 4 * n) buf) as [| r0 [| r1 [| r2 [| r3 rest]]]] eqn:E;
        try (simpl in Hl; lia).
      exists r0, r1, r2, r3. do 4 f_equal.
      replace (4 + 4 * S n)%nat with ((4 + 4 * n) + 4)%nat by lia.
      rewrite <- drop_drop, E. reflexivity. }
    destruct Hrest as (r0 & r1 & r2 & r3 & ->).
    set (rest := drop (4 + 4 * S n) buf).
    rewrite (app_assoc (take 4 buf) F).
    set (pre := take 4 buf ++ F).
    assert (Hpre : Z.of_nat (length pre) = 4 + Z.of_nat n * 4).
    { unfold pre. rewrite length_app, length_take, HF. lia. }
    unfold write_msgs_step.
    replace (4 + Z.of_nat n * 4) with (Z.of_nat (length pre) + 0) by lia.
    replace (5 + Z.of_nat n * 4) with (Z.of_nat (length pre) + 1) by lia.
    replace (6 + Z.of_nat n * 4) with (Z.of_nat (length pre) + 2) by lia.
    replace (7 + Z.of_nat n * 4) with (Z.of_nat (length pre) + 3) by lia.
    rewrite !store_app_r by lia.
    unfold pre. rewrite <- !app_assoc. reflexivity.
Qed.

Lemma write_msgs_buffer_take (buf : list Z) (address msgs : Z) (words : list Z) :
  0 <= msgs <= MAX_BURST_TX_MESSAGES ->
  length buf = Z.to_nat (4 + MAX_BURST_TX_MESSAGES * 16) ->
  take (Z.to_nat (4 + msgs * 16)) (write_msgs_buffer buf address msgs words)
  = write_msgs_request address msgs words.
Proof.
  unfold MAX_BURST_TX_MESSAGES. intros Hm Hlen.
  change (Z.to_nat (4 + 8 * 16)) with 132%nat in Hlen.
  unfold write_msgs_buffer, write_msgs_request.
  assert (Hu : u32 (msgs * 4) = Z.of_nat (Z.to_nat (msgs * 4))).
  { unfold u32. rewrite Z.mod_small; [lia |]. change (2 ^ 32) with 4294967296. lia. }
  rewrite Hu.
  replace (iterations (msgs * 4)) with (iterations (Z.of_nat (Z.to_nat (msgs * 4))))
    by (f_equal; lia).
  set (n := Z.to_nat (msgs * 4)).
  set (hdr := store _ 3 _).
  assert (Hh : length hdr = 132%nat).
  { unfold hdr, store. rewrite !length_insert. exact Hlen. }
  rewrite write_msgs_pack by (unfold n; lia).
  assert (H4 : take 4 hdr
               = [0x61; u8 (Z.shiftr address 8); u8 (Z.land address 0xFF); u8 (msgs * 4)]).
  { unfold hdr. do 4 (destruct buf as [| ? buf]; [simpl in Hlen; lia |]). reflexivity. }
  rewrite H4. rewrite app_assoc.
  apply take_app_length'.
  rewrite length_app, length_flat_map_be, length_iterations. simpl. unfold n. lia.
Qed.

(** X3: a burst write of up to 8 records puts one request on the wire: the write
    opcode, the address, the word count [msgs*4], then the first [msgs*4]
    words of the caller's array, each most significant byte first; and it
    returns the status of that exchange. *)
Theorem spi_write_msgs_framing
    (p : tcan4550_priv) (d : spi_device) (address msgs : Z) (words : list Z) :
  spi p = Some d -> 0 <= msgs <= MAX_BURST_TX_MESSAGES ->
  length (tx_txBuf p) = Z.to_nat (4 + MAX_BURST_TX_MESSAGES * 16) ->
  issued (spi p) (spi (snd (spi_write_msgs p address msgs words)))
  = [write_msgs_request address msgs words]
  /\ length (write_msgs_request address msgs words) = Z.to_nat (4 + msgs * 16)
  /\ fst (spi_write_msgs p address msgs words)
     = fst (spi_reply d (length (spi_sent d)) (write_msgs_request address msgs words)).
Proof.
  intros Hspi Hm Hlen.
  pose proof (write_msgs_buffer_take (tx_txBuf p) address msgs words Hm Hlen) as Htake.
  unfold spi_write_msgs, issued.
  destruct (Z.ltb_spec MAX_BURST_TX_MESSAGES msgs) as [Hgt | _]; [lia |].
  rewrite Hspi. unfold spi_transfer, spi_sync.
  fold (write_msgs_buffer (tx_txBuf p) address msgs words). rewrite Htake.
  destruct (spi_reply d _ _) as [ret rx]. cbn [fst snd set_tx_bufs spi sent spi_sent].
  rewrite drop_app_length. split; [reflexivity |]. split; [| reflexivity].
  unfold write_msgs_request. rewrite length_app, length_flat_map_be.
  replace (iterations (msgs * 4)) with (iterations (Z.of_nat (Z.to_nat (msgs * 4))))
    by (f_equal; lia).
  rewrite length_iterations. simpl. unfold MAX_BURST_TX_MESSAGES in Hm. lia.
Qed.

Lemma spi_write_msgs_framing_witness :
  issued (spi (fresh_priv dead_bus (fun _ => true)))
    (spi (snd (spi_write_msgs (fresh_priv dead_bus (fun _ => true)) 0x8010 1
                 [0x248C0000; 0x00020000; 0x0000CDAB; 0])))
  = [[0x61; 0x80; 0x10; 4; 0x24; 0x8C; 0; 0; 0; 2; 0; 0; 0; 0; 0xCD; 0xAB; 0; 0; 0; 0]]
  /\ fst (spi_write_msgs (fresh_priv dead_bus (fun _ => true)) 0x8010 1
            [0x248C0000; 0x00020000; 0x0000CDAB; 0]) = - ENODEV.
Proof.
  destruct (spi_write_msgs_framing (fresh_priv dead_bus (fun _ => true)) dead_bus 0x8010 1
              [0x248C0000; 0x00020000; 0x0000CDAB; 0] eq_refl) as (H1 & _ & H3).
  - unfold MAX_BURST_TX_MESSAGES. lia.
  - reflexivity.
  - split; [exact H1 | exact H3].
Defined.

Lemma read_msgs_iteration (rxb out : list Z) (i : Z) :
  0 <= i ->
  length (fold_left (run_assemble rxb) (read_msgs_body i) out) = length out
  /\ (forall k, 0 <= k -> (k < i * 4 \/ i * 4 + 4 <= k) ->
        load (fold_left (run_assemble rxb) (read_msgs_body i) out) k = load out k)
  /\ (forall k, i * 4 <= k < i * 4 + 4 -> k < Z.of_nat (length out) ->
        load (fold_left (run_assemble rxb) (read_msgs_body i) out) k = be_word rxb (4 + 4 * k)).
Proof.
  intros Hi. unfold read_msgs_body. cbn [fold_left]. unfold run_assemble. cbn [dst b0 b1 b2 b3].
  split; [rewrite !length_store; reflexivity |]. split.
  - intros k Hk Hout. rewrite !load_store_other by lia. reflexivity.
  - intros k Hk Hlen. unfold be_word.
    assert (Hc : k = 0 + i * 4 \/ k = 1 + i * 4 \/ k = 2 + i * 4 \/ k = 3 + i * 4) by lia.
    destruct Hc as [-> | [-> | [-> | ->]]].
    + rewrite !load_store_other by lia. rewrite load_store_same by lia.
      replace (4 + 4 * (0 + i * 4) + 3) with (7 + i * 16) by lia.
      replace (4 + 4 * (0 + i * 4) + 2) with (6 + i * 16) by lia.
      replace (4 + 4 * (0 + i * 4) + 1) with (5 + i * 16) by lia.
      replace (4 + 4 * (0 + i * 4)) with (4 + i * 16) by lia. reflexivity.
    + rewrite !load_store_other by lia. rewrite load_store_same by (rewrite ?length_store; lia).
      replace (4 + 4 * (1 + i * 4) + 3) with (11 + i * 16) by lia.
      replace (4 + 4 * (1 + i * 4) + 2) with (10 + i * 16) by lia.
      replace (4 + 4 * (1 + i * 4) + 1) with (9 + i * 16) by lia.
      replace (4 + 4 * (1 + i * 4)) with (8 + i * 16) by lia. reflexivity.
    + rewrite !load_store_other by lia. rewrite load_store_same by (rewrite ?length_store; lia).
      replace (4 + 4 * (2 + i * 4) + 3) with (15 + i * 16) by lia.
      replace (4 + 4 * (2 + i * 4) + 2) with (14 + i * 16) by lia.
      replace (4 + 4 * (2 + i * 4) + 1) with (13 + i * 16) by lia.
      replace (4 + 4 * (2 + i * 4)) with (12 + i * 16) by lia. reflexivity.
    + rewrite load_store_same by (rewrite ?length_store; lia).
      replace (4 + 4 * (3 + i * 4) + 3) with (19 + i * 16) by lia.
      replace (4 + 4 * (3 + i * 4) + 2) with (18 + i * 16) by lia.
      replace (4 + 4 * (3 + i * 4) + 1) with (17 + i * 16) by lia.
      replace (4 + 4 * (3 + i * 4)) with (16 + i * 16) by lia. reflexivity.
Qed.

Lemma read_msgs_loop_words (rxb : list Z) (n : nat) :
  forall out : list Z,
    length (read_msgs_loop (Z.of_nat n) rxb out) = length out
    /\ (forall k, Z.of_nat n * 4 <= k -> load (read_msgs_loop (Z.of_nat n) rxb out) k = load out k)
    /\ (forall k, 0 <= k < Z.of_nat n * 4 -> k < Z.of_nat (length out) ->
          load (read_msgs_loop (Z.of_nat n) rxb out) k = be_word rxb (4 + 4 * k)).
Proof.
  induction n as [| n IH]; intros out.
  - cbn. split; [reflexivity |]. split; [reflexivity | intros; lia].
  - unfold read_msgs_loop in *. rewrite iterations_S, fold_left_app. cbn [fold_left].
    destruct (IH out) as (L & Hhigh & Hlow).
    destruct (read_msgs_iteration rxb
                (fold_left (fun out i => fold_left (run_assemble rxb) (read_msgs_body i) out)
                   (iterations (Z.of_nat n)) out) (Z.of_nat n)) as (L1 & Hout & Hin); [lia |].
    split; [rewrite L1; exact L |]. split.
    + intros k Hk. rewrite Hout by lia. apply Hhigh. lia.
    + intros k Hk Hlen.
      destruct (Z_lt_dec k (Z.of_nat n * 4)) as [Hold | Hnew].
      * rewrite Hout by lia. apply Hlow; lia.
      * apply Hin; [lia | rewrite L; exact Hlen].
Qed.

Lemma length_clock_in (n : nat) :
  forall rx buf : list Z, length (clock_in n rx buf) = length buf.
Proof.
  induction n as [| n IH]; intros rx buf; [reflexivity |].
  destruct buf as [| b buf]; [reflexivity |].
  destruct rx as [| r rx]; cbn [clock_in length]; rewrite IH; reflexivity.
Qed.

(** X4: what a burst read leaves in [rxBuffer], the 32-word array it is
    called on.  Every word [k] below [16*msgs] (and below 32) is assembled,
    most significant byte first, from the bytes [4+4k .. 7+4k] of the
    receive buffer as the exchange left it, all of them inside its 132
    bytes; the records asked for are the words below [4*msgs], the words
    from there on come from bytes behind the transfer.  The words from
    [16*msgs] to 31 keep their content.  Nothing is said of what the loop
    stores past the array or loads past the receive buffer. *)
Theorem spi_read_msgs_words
    (p : tcan4550_priv) (address msgs : Z) (out : list Z) :
  0 <= msgs <= MAX_BURST_RX_MESSAGES ->
  length out = Z.to_nat (MAX_BURST_RX_MESSAGES * 4) ->
  length (rx_rxBuf p) = Z.to_nat (4 + MAX_BURST_RX_MESSAGES * 16) ->
  length (snd (spi_read_msgs p address msgs out)) = length out
  /\ length (snd (spi_transfer (spi p) (4 + msgs * 16) (rx_rxBuf p)
                   (read_msgs_header (rx_txBuf p) address msgs)))
     = Z.to_nat (4 + MAX_BURST_RX_MESSAGES * 16)
  /\ (forall k, 0 <= k < 16 * msgs -> k < MAX_BURST_RX_MESSAGES * 4 ->
        load (snd (spi_read_msgs p address msgs out)) k
        = be_word (snd (spi_transfer (spi p) (4 + msgs * 16) (rx_rxBuf p)
                          (read_msgs_header (rx_txBuf p) address msgs))) (4 + 4 * k))
  /\ (forall k, 16 * msgs <= k < MAX_BURST_RX_MESSAGES * 4 ->
        load (snd (spi_read_msgs p address msgs out)) k = load out k).
Proof.
  intros Hm Hout Hrx. unfold spi_read_msgs. unfold MAX_BURST_RX_MESSAGES in *.
  destruct (Z.ltb_spec 8 msgs) as [Hgt | _]; [lia |].
  fold (read_msgs_header (rx_txBuf p) address msgs).
  assert (Hlen : length (snd (spi_transfer (spi p) (4 + msgs * 16) (rx_rxBuf p)
                                (read_msgs_header (rx_txBuf p) address msgs)))
                 = Z.to_nat (4 + 8 * 16)).
  { unfold spi_transfer. destruct (spi p) as [d |]; [| exact Hrx].
    unfold spi_sync. destruct (spi_reply d _ _) as [ret rx]. cbn [snd].
    rewrite length_clock_in. exact Hrx. }
  destruct (spi_transfer _ _ _ _) as [[ret s'] rxb]. cbn [fst snd] in *.
  assert (Hu : u32 (msgs * 4) = Z.of_nat (Z.to_nat (msgs * 4))).
  { unfold u32. rewrite Z.mod_small; [lia |]. change (2 ^ 32) with 4294967296. lia. }
  rewrite Hu.
  destruct (read_msgs_loop_words rxb (Z.to_nat (msgs * 4)) out) as (L & Hhigh & Hlow).
  split; [exact L |]. split; [exact Hlen |]. split.
  - intros k Hk Hlt. apply Hlow; [lia |]. rewrite Hout. lia.
  - intros k Hk. apply Hhigh. lia.
Qed.

Lemma spi_read_msgs_words_witness :
  load (snd (spi_read_msgs (fresh_priv (steady_bus 0x0A05) (fun _ => true)) 0x8200 1
               (replicate 32 7))) 0 = 0x0A05
  /\ load (snd (spi_read_msgs (fresh_priv (steady_bus 0x0A05) (fun _ => true)) 0x8200 1
                  (replicate 32 7))) 15 = 0
  /\ load (snd (spi_read_msgs (fresh_priv (steady_bus 0x0A05) (fun _ => true)) 0x8200 1
                  (replicate 32 7))) 16 = 7.
Proof.
  destruct (spi_read_msgs_words (fresh_priv (steady_bus 0x0A05) (fun _ => true)) 0x8200 1
              (replicate 32 7)) as (_ & _ & Hlow & Hhigh).
  - unfold MAX_BURST_RX_MESSAGES. lia.
  - reflexivity.
  - reflexivity.
  - split; [| split].
    + rewrite Hlow by (unfold MAX_BURST_RX_MESSAGES; lia). reflexivity.
    + rewrite Hlow by (unfold MAX_BURST_RX_MESSAGES; lia). reflexivity.
    + rewrite Hhigh by (unfold MAX_BURST_RX_MESSAGES; lia). reflexivity.
Defined.

Lemma clock_in_load (n : nat) :
  forall (rx buf : list Z) (j : nat),
    (j < n)%nat -> (j < length rx)%nat -> (j < length buf)%nat ->
    load (clock_in n rx buf) (Z.of_nat j) = u8 (load rx (Z.of_nat j)).
Proof.
  induction n as [| n IH]; intros rx buf j Hn Hrx Hbuf; [lia |].
  destruct buf as [| b buf]; [simpl in Hbuf; lia |].
  destruct rx as [| r rx]; [simpl in Hrx; lia |].
  cbn [clock_in]. destruct j as [| j].
  - reflexivity.
  - rewrite !load_nth. cbn [nth]. rewrite <- !load_nth. apply IH; simpl in *; lia.
Qed.

Lemma load_app_l (l1 l2 : list Z) (k : Z) :
  0 <= k < Z.of_nat (length l1) -> load (l1 ++ l2) k = load l1 k.
Proof. intros Hk. unfold load. rewrite lookup_app_l by lia. reflexivity. Qed.

Lemma load_app_r (l1 l2 : list Z) (k : Z) :
  0 <= k -> load (l1 ++ l2) (Z.of_nat (length l1) + k) = load l2 k.
Proof.
  intros Hk. unfold load. rewrite lookup_app_r by lia.
  replace (Z.to_nat (Z.of_nat (length l1) + k) - length l1)%nat with (Z.to_nat k) by lia.
  reflexivity.
Qed.

Lemma load_flat_map_be (f : Z -> Z) (n : nat) :
  forall k j, 0 <= k < Z.of_nat n -> 0 <= j < 4 ->
    load (flat_map (fun i => be_bytes (f i)) (iterations (Z.of_nat n))) (4 * k + j)
    = load (be_bytes (f k)) j.
Proof.
  induction n as [| n IH]; intros k j Hk Hj; [lia |].
  rewrite iterations_S, flat_map_app. cbn [flat_map]. rewrite app_nil_r.
  destruct (Z_lt_dec k (Z.of_nat n)) as [Hold | Hnew].
  - rewrite load_app_l by (rewrite length_flat_map_be, length_iterations; lia).
    apply IH; lia.
  - assert (k = Z.of_nat n) by lia. subst k.
    replace (4 * Z.of_nat n + j)
      with (Z.of_nat (length (flat_map (fun i => be_bytes (f i)) (iterations (Z.of_nat n)))) + j)
      by (rewrite length_flat_map_be, length_iterations; lia).
    apply load_app_r. lia.
Qed.

Lemma load_is_word (l : list Z) (k : Z) : Forall is_word l -> is_word (load l k).
Proof.
  intros Hall. unfold load. destruct (l !! Z.to_nat k) as [w |] eqn:E.
  - simpl. eapply Forall_lookup_1; eassumption.
  - simpl. unfold is_word. lia.
Qed.

Lemma be_word_of_be_bytes (w : Z) (b0 b1 b2 b3 : Z) :
  is_word w -> be_bytes w = [b0; b1; b2; b3] ->
  u32 (u8 b3 + Z.shiftl (u8 b2) 8 + Z.shiftl (u8 b1) 16 + Z.shiftl (u8 b0) 24) = w.
Proof.
  unfold is_word, be_bytes. intros Hw [= <- <- <- <-].
  unfold u8. to_arith. rewrite !Z.mod_mod by lia.
  replace (w / 16777216) with (w / 256 / 256 / 256) by (rewrite !Z.div_div by lia; reflexivity).
  replace (w / 65536) with (w / 256 / 256) by (rewrite !Z.div_div by lia; reflexivity).
  Z.div_mod_to_equations. lia.
Qed.

(** X5: burst write and burst read agree on the layout: when the exchange of a
    burst read clocks in the bytes a burst write of [words] sends (four
    header bytes, then the records), the first [4*msgs] words of the
    caller's array become those very words. *)
Theorem burst_read_of_written_records
    (p : tcan4550_priv) (d : spi_device) (address msgs ret : Z) (words out : list Z) :
  spi p = Some d -> 0 <= msgs <= MAX_BURST_RX_MESSAGES ->
  length (rx_rxBuf p) = Z.to_nat (4 + MAX_BURST_RX_MESSAGES * 16) ->
  Forall is_word words ->
  spi_reply d (length (spi_sent d))
    (take (Z.to_nat (4 + msgs * 16)) (read_msgs_header (rx_txBuf p) address msgs))
  = (ret, write_msgs_request address msgs words) ->
  forall k, 0 <= k < msgs * 4 -> k < Z.of_nat (length out) ->
    load (snd (spi_read_msgs p address msgs out)) k = load words k.
Proof.
  intros Hspi Hm Hlen Hwords Hreply k Hk Hout.
  unfold spi_read_msgs. unfold MAX_BURST_RX_MESSAGES in *.
  change (Z.to_nat (4 + 8 * 16)) with 132%nat in Hlen.
  destruct (Z.ltb_spec 8 msgs) as [Hgt | _]; [lia |].
  rewrite Hspi. unfold spi_transfer, spi_sync.
  fold (read_msgs_header (rx_txBuf p) address msgs). rewrite Hreply. cbn [snd].
  assert (Hu : u32 (msgs * 4) = Z.of_nat (Z.to_nat (msgs * 4))).
  { unfold u32. rewrite Z.mod_small; [lia |]. change (2 ^ 32) with 4294967296. lia. }
  rewrite Hu.
  set (rx := write_msgs_request address msgs words).
  set (rxb := clock_in _ rx (rx_rxBuf p)).
  destruct (read_msgs_loop_words rxb (Z.to_nat (msgs * 4)) out) as (_ & _ & Hlow).
  rewrite Hlow by lia. clear Hlow.
  assert (Hrx : length rx = Z.to_nat (4 + msgs * 16)).
  { unfold rx, write_msgs_request. rewrite length_app, length_flat_map_be.
    replace (iterations (msgs * 4)) with (iterations (Z.of_nat (Z.to_nat (msgs * 4))))
      by (f_equal; lia).
    rewrite length_iterations. simpl. lia. }
  assert (Hbyte : forall j, 0 <= j < 4 ->
            load rxb (4 + 4 * k + j) = u8 (load (be_bytes (load words k)) j)).
  { intros j Hj. unfold rxb.
    replace (4 + 4 * k + j) with (Z.of_nat (Z.to_nat (4 + 4 * k + j))) by lia.
    rewrite clock_in_load by lia. f_equal.
    unfold rx, write_msgs_request.
    replace (Z.of_nat (Z.to_nat (4 + 4 * k + j)))
      with (Z.of_nat (length [0x61; u8 (Z.shiftr address 8); u8 (Z.land address 0xFF);
                              u8 (msgs * 4)]) + (4 * k + j)) by (simpl; lia).
    rewrite load_app_r by lia.
    replace (iterations (msgs * 4)) with (iterations (Z.of_nat (Z.to_nat (msgs * 4))))
      by (f_equal; lia).
    apply load_flat_map_be; lia. }
  unfold be_word.
  rewrite (Hbyte 3), (Hbyte 2), (Hbyte 1) by lia.
  pose proof (Hbyte 0 ltac:(lia)) as H0. rewrite Z.add_0_r in H0. rewrite H0.
  pose proof (load_is_word words k Hwords) as Hw.
  destruct (be_bytes (load words k)) as [| c0 [| c1 [| c2 [| c3 [| ? ?]]]]] eqn:E;
    try discriminate.
  load_literal.
  apply be_word_of_be_bytes; assumption.
Qed.

Lemma burst_read_of_written_records_witness :
  load (snd (spi_read_msgs
               (fresh_priv
                  (fixed_bus (write_msgs_request 0x8200 1 [0x248C0000; 0x00020000; 0xCDAB; 0]))
                  (fun _ => true))
               0x8200 1 (replicate 32 0))) 2 = 0xCDAB.
Proof.
  apply (burst_read_of_written_records
           (fresh_priv
              (fixed_bus (write_msgs_request 0x8200 1 [0x248C0000; 0x00020000; 0xCDAB; 0]))
              (fun _ => true))
           (fixed_bus (write_msgs_request 0x8200 1 [0x248C0000; 0x00020000; 0xCDAB; 0]))
           0x8200 1 0 [0x248C0000; 0x00020000; 0xCDAB; 0] (replicate 32 0) eq_refl).
  - unfold MAX_BURST_RX_MESSAGES. lia.
  - reflexivity.
  - repeat constructor; unfold is_word; lia.
  - reflexivity.
  - lia.
  - simpl. lia.
Defined.

(** ** Message codec: what each direction guarantees on its own *)

Lemma land_byte_range (x : Z) : is_byte (Z.land x 0xFF).
Proof. unfold is_byte. exact (land_ones_range x 8 ltac:(lia)). Qed.

(** X6: whatever four words the chip hands over, the decoded frame has eight
    payload bytes, each below 256, a length below 128 (the 7-bit field is
    taken as it is, not limited to 8), and an identifier that is either
    extended (flag set, 29 bits) or standard (11 bits); the remote-request
    and error flags are never set. *)
Theorem recMsgs_decode_well_formed (buf : list Z) (off : Z) :
  0 <= len (recMsgs_decode buf off) < 128
  /\ length (data (recMsgs_decode buf off)) = 8%nat
  /\ Forall is_byte (data (recMsgs_decode buf off))
  /\ bit_set (can_id (recMsgs_decode buf off)) CAN_RTR_FLAG = false
  /\ bit_set (can_id (recMsgs_decode buf off)) CAN_ERR_FLAG = false
  /\ (if bit_set (load buf (off + 0)) (Z.shiftl 1 30)
      then can_id (recMsgs_decode buf off) = load buf (off + 0) mod 2 ^ 29 + CAN_EFF_FLAG
      else 0 <= can_id (recMsgs_decode buf off) < 2 ^ 11).
Proof.
  unfold recMsgs_decode. cbn [len data can_id].
  split; [exact (land_ones_range _ 7 ltac:(lia)) |].
  split; [reflexivity |].
  split.
  { unfold zero_frame, store. cbn [data replicate Z.to_nat Pos.to_nat Pos.iter_op Nat.add].
    cbn [insert list_insert].
    repeat constructor; apply land_byte_range. }
  change CAN_RTR_FLAG with (2 ^ 30). change CAN_ERR_FLAG with (2 ^ 29).
  rewrite !bit_set_div by lia.
  destruct (bit_set (load buf (off + 0)) (Z.shiftl 1 30)).
  - unfold CAN_EFF_MASK, CAN_EFF_FLAG. change 0x1FFFFFFF with (Z.ones 29).
    rewrite Z.land_ones by lia.
    pose proof (Z.mod_pos_bound (load buf (off + 0)) (2 ^ 29) ltac:(lia)) as Hr.
    change 0x80000000 with (2 ^ 31). rewrite lor_disjoint_bit by lia.
    change (2 ^ 29) with 536870912 in *. change (2 ^ 30) with 1073741824.
    change (2 ^ 31) with 2147483648.
    split; [decide_eqb; Z.div_mod_to_equations; lia |].
    split; [decide_eqb; Z.div_mod_to_equations; lia | reflexivity].
  - unfold CAN_SFF_MASK. change 0x7FF with (Z.ones 11).
    pose proof (land_ones_range (Z.shiftr (load buf (off + 0)) 18) 11 ltac:(lia)) as Hr.
    change (2 ^ 11) with 2048 in *. change (2 ^ 29) with 536870912.
    change (2 ^ 30) with 1073741824.
    split; [decide_eqb; Z.div_mod_to_equations; lia |].
    split; [decide_eqb; Z.div_mod_to_equations; lia | exact Hr].
Qed.

(** X7: [tcan4550_composeMessage] writes the four words at [off .. off+3] and
    nothing else: the array keeps its length and its other words.  The words
    it writes fit the record layout: bit 31 of word 0 is clear, word 1 is the
    length limited to 8, shifted to bit 16, and words 2 and 3 are 32-bit
    values. *)
Theorem composeMessage_footprint (skb : sk_buff) (buf : list Z) (off : Z) :
  0 <= off -> off + 3 < Z.of_nat (length buf) ->
  0 <= len (skb_data skb) < 256 ->
  length (tcan4550_composeMessage skb buf off) = length buf
  /\ (forall k, 0 <= k -> k < off \/ off + 4 <= k ->
        load (tcan4550_composeMessage skb buf off) k = load buf k)
  /\ 0 <= load (tcan4550_composeMessage skb buf off) (off + 0) < 2 ^ 31
  /\ load (tcan4550_composeMessage skb buf off) (off + 1)
     = Z.min (len (skb_data skb)) 8 * 2 ^ 16
  /\ is_word (load (tcan4550_composeMessage skb buf off) (off + 2))
  /\ is_word (load (tcan4550_composeMessage skb buf off) (off + 3)).
Proof.
  intros Hoff Hroom Hlen.
  destruct (compose_words skb buf off Hoff Hroom) as (E0 & E1 & E2 & E3).
  rewrite E0, E1, E2, E3. clear E0 E1 E2 E3.
  assert (Hword : forall x, is_word (u32 x)).
  { intros x. unfold is_word, u32. apply Z.mod_pos_bound. lia. }
  split.
  { unfold tcan4550_composeMessage.
    destruct (bit_set (can_id (skb_data skb)) CAN_EFF_FLAG); rewrite !length_store; reflexivity. }
  split.
  { intros k Hk Hout. unfold tcan4550_composeMessage.
    destruct (bit_set (can_id (skb_data skb)) CAN_EFF_FLAG);
      rewrite !load_store_other by lia; reflexivity. }
  split.
  { pose proof (land_ones_range (can_id (skb_data skb)) 29 ltac:(lia)) as H29.
    pose proof (land_ones_range (can_id (skb_data skb)) 11 ltac:(lia)) as H11.
    unfold CAN_EFF_MASK, CAN_SFF_MASK.
    change 0x1FFFFFFF with (Z.ones 29). change 0x7FF with (Z.ones 11).
    set (a := Z.land (can_id (skb_data skb)) (Z.ones 29)) in *.
    set (b := Z.land (can_id (skb_data skb)) (Z.ones 11)) in *.
    destruct (bit_set (can_id (skb_data skb)) CAN_EFF_FLAG),
             (bit_set (can_id (skb_data skb)) CAN_RTR_FLAG); cbn [Z.b2z];
      unfold u32; rewrite !Z.shiftl_mul_pow2 by lia;
      change (2 ^ 11) with 2048 in *; change (2 ^ 18) with 262144;
      change (2 ^ 29) with 536870912 in *; change (2 ^ 30) with 1073741824;
      change (2 ^ 31) with 2147483648; change (2 ^ 32) with 4294967296;
      Z.div_mod_to_equations; lia. }
  split.
  { unfold u32. rewrite Z.shiftl_mul_pow2 by lia.
    change (2 ^ 16) with 65536. change (2 ^ 32) with 4294967296.
    destruct (Z.ltb_spec 8 (len (skb_data skb))).
    - rewrite Z.min_r by lia. reflexivity.
    - rewrite Z.min_l by lia. rewrite Z.mod_small by lia. reflexivity. }
  split; apply Hword.
Qed.

Lemma composeMessage_footprint_witness :
  load (tcan4550_composeMessage
          {| skb_data := {| can_id := 0x7FF; len := 200; data := replicate 8 0xFF |};
             skb_invalid := false |} (replicate 32 5) 8) 9 = Z.min 200 8 * 2 ^ 16
  /\ load (tcan4550_composeMessage
             {| skb_data := {| can_id := 0x7FF; len := 200; data := replicate 8 0xFF |};
                skb_invalid := false |} (replicate 32 5) 8) 12 = 5.
Proof.
  destruct (composeMessage_footprint
              {| skb_data := {| can_id := 0x7FF; len := 200; data := replicate 8 0xFF |};
                 skb_invalid := false |} (replicate 32 5) 8) as (_ & Hout & _ & H1 & _).
  - lia.
  - simpl. lia.
  - simpl. lia.
  - split; [exact H1 |]. rewrite Hout by lia. reflexivity.
Defined.

(** ** Burst windows: exact values *)

Lemma tx_msgsToTransmit_min (txqfs : Z) :
  tx_msgsToTransmit txqfs
  = Z.min (Z.min (tx_freeBuffers txqfs) MAX_BURST_TX_MESSAGES)
          (TX_MSG_BOXES - tx_writeIndex txqfs).
Proof.
  destruct (tx_fields_range txqfs) as (Hf & Hw).
  unfold tx_msgsToTransmit, MAX_BURST_TX_MESSAGES, TX_MSG_BOXES, u32.
  change (2 ^ 32) with 4294967296.
  destruct (Z.ltb_spec 8 (tx_freeBuffers txqfs)).
  - rewrite (Z.mod_small (tx_writeIndex txqfs + 8)) by lia.
    destruct (Z.ltb_spec 32 (tx_writeIndex txqfs + 8)); [rewrite Z.mod_small by lia |]; lia.
  - rewrite (Z.mod_small (tx_writeIndex txqfs + tx_freeBuffers txqfs)) by lia.
    destruct (Z.ltb_spec 32 (tx_writeIndex txqfs + tx_freeBuffers txqfs));
      [rewrite Z.mod_small by lia |]; lia.
Qed.

Lemma rx_msgsToGet_min (rxf0s : Z) :
  rx_msgsToGet rxf0s
  = (if rx_getIndex rxf0s <=? RX_MSG_BOXES
     then Z.min (Z.min (rx_fillLevel rxf0s) MAX_BURST_RX_MESSAGES)
                (RX_MSG_BOXES - rx_getIndex rxf0s)
     else Z.min (rx_fillLevel rxf0s) MAX_BURST_RX_MESSAGES).
Proof.
  destruct (rx_fields_range rxf0s) as (Hl & Hi).
  unfold rx_msgsToGet, MAX_BURST_RX_MESSAGES, RX_MSG_BOXES, u32.
  change (2 ^ 32) with 4294967296.
  destruct (Z.leb_spec (rx_getIndex rxf0s) 32).
  - rewrite (Z.mod_small (32 - rx_getIndex rxf0s)) by lia.
    destruct (Z.ltb_spec (32 - rx_getIndex rxf0s) (rx_fillLevel rxf0s));
      match goal with |- context [8 <? ?x] => destruct (Z.ltb_spec 8 x) end; lia.
  - replace ((32 - rx_getIndex rxf0s) mod 4294967296)
      with (4294967296 + 32 - rx_getIndex rxf0s)
      by (Z.div_mod_to_equations; lia).
    destruct (Z.ltb_spec (4294967296 + 32 - rx_getIndex rxf0s) (rx_fillLevel rxf0s)); [lia |].
    destruct (Z.ltb_spec 8 (rx_fillLevel rxf0s)); lia.
Qed.

(** X8: the clamps compute minima.  On the transmit side the burst is the least
    of the free count, 8 and the slots left up to the ring end, for every
    register value; on the receive side it is the least of the fill level, 8
    and the slots left up to the ring end when the get index is at most 32,
    and the least of the fill level and 8 when it is above. *)
Theorem burst_windows_are_minima (txqfs rxf0s : Z) :
  tx_msgsToTransmit txqfs
  = Z.min (Z.min (tx_freeBuffers txqfs) MAX_BURST_TX_MESSAGES)
          (TX_MSG_BOXES - tx_writeIndex txqfs)
  /\ rx_msgsToGet rxf0s
     = (if rx_getIndex rxf0s <=? RX_MSG_BOXES
        then Z.min (Z.min (rx_fillLevel rxf0s) MAX_BURST_RX_MESSAGES)
                   (RX_MSG_BOXES - rx_getIndex rxf0s)
        else Z.min (rx_fillLevel rxf0s) MAX_BURST_RX_MESSAGES).
Proof. split; [apply tx_msgsToTransmit_min | apply rx_msgsToGet_min]. Qed.

(** ** Receive path: one pass *)

Lemma u8_u8 (x : Z) : u8 (u8 x) = u8 x.
Proof. unfold u8. apply Z.mod_mod. lia. Qed.

(** Single-register writes seen by [writes_to]. *)
Lemma writes_to_write32 (address word : Z) :
  0 <= address < 2 ^ 16 -> is_word word ->
  writes_to address [write32_request address word] = [word].
Proof.
  unfold is_word. intros Ha Hw. unfold writes_to, write32_request. cbn [flat_map].
  change (0x61 =? 0x61) with true. change (1 =? 1) with true.
  assert (Haddr : u8 (Z.shiftr address 8) * 256 + u8 (Z.land address 0xFF) = address).
  { unfold u8. to_arith. rewrite !Z.mod_mod by lia. Z.div_mod_to_equations. lia. }
  rewrite Haddr, Z.eqb_refl. cbn [andb app]. f_equal.
  unfold u8. to_arith. rewrite !Z.mod_mod by lia.
  replace (word / 16777216) with (word / 256 / 256 / 256)
    by (rewrite !Z.div_div by lia; reflexivity).
  replace (word / 65536) with (word / 256 / 256) by (rewrite !Z.div_div by lia; reflexivity).
  Z.div_mod_to_equations. lia.
Qed.

Lemma writes_to_write32_other (address other word : Z) :
  0 <= address < 2 ^ 16 -> 0 <= other < 2 ^ 16 -> address <> other ->
  writes_to address [write32_request other word] = [].
Proof.
  intros Ha Ho Hne. unfold writes_to, write32_request. cbn [flat_map].
  assert (Haddr : u8 (Z.shiftr other 8) * 256 + u8 (Z.land other 0xFF) = other).
  { unfold u8. to_arith. rewrite !Z.mod_mod by lia. Z.div_mod_to_equations. lia. }
  rewrite Haddr. destruct (Z.eqb_spec other address) as [E | _]; [congruence |].
  rewrite andb_false_r. reflexivity.
Qed.

(** A request that starts with the read opcode is no register write. *)
Lemma writes_to_read_opcode (address : Z) (t : list Z) :
  writes_to address [0x41 :: t] = [].
Proof.
  unfold writes_to. cbn [flat_map].
  do 7 (destruct t as [| ? t]; [reflexivity |]). destruct t; reflexivity.
Qed.

Lemma read_msgs_header_head (buf : list Z) (address msgs : Z) (n : nat) :
  (4 <= length buf)%nat -> (4 <= n)%nat ->
  exists t, take n (read_msgs_header buf address msgs) = 0x41 :: t.
Proof.
  intros Hlen Hn. do 4 (destruct buf as [| ? buf]; [simpl in Hlen; lia |]).
  do 4 (destruct n as [| n]; [lia |]). eexists. reflexivity.
Qed.

(** With a non-empty FIFO the acknowledged index is not negative and the
    burst has between 0 and 8 records (0 only for the get index 32). *)
Lemma rx_window_facts (rxf0s : Z) :
  rx_fillLevel rxf0s <> 0 ->
  0 <= rx_msgsToGet rxf0s <= 8
  /\ 0 <= rx_getIndex rxf0s + rx_msgsToGet rxf0s - 1 < 2 ^ 16
  /\ (rx_getIndex rxf0s < RX_MSG_BOXES ->
      1 <= rx_msgsToGet rxf0s
      /\ rx_getIndex rxf0s + rx_msgsToGet rxf0s - 1 < RX_MSG_BOXES).
Proof.
  intros Hfill. destruct (rx_fields_range rxf0s) as (Hl & Hi).
  rewrite rx_msgsToGet_min. unfold RX_MSG_BOXES, MAX_BURST_RX_MESSAGES.
  change (2 ^ 16) with 65536.
  destruct (Z.leb_spec (rx_getIndex rxf0s) 32); lia.
Qed.

(** Only the network device changes in the delivery loop. *)
Lemma rx_deliver_frame (p : tcan4550_priv) (i : Z) :
  rx_deliver p i = set_ndev p (ndev (rx_deliver p i)).
Proof.
  unfold rx_deliver, alloc_skb. destruct (skb_alloc (ndev p) (skb_allocs (ndev p))); reflexivity.
Qed.

Lemma rx_deliver_all_frame (l : list Z) :
  forall p, fold_left rx_deliver l p = set_ndev p (ndev (fold_left rx_deliver l p)).
Proof.
  induction l as [| i l IH]; intros p; [destruct p; reflexivity |].
  cbn [fold_left]. rewrite IH. rewrite (rx_deliver_frame p i) at 1. reflexivity.
Qed.

(** The delivery loop: the frames kept are decoded from [rxBuffer] and handed
    upward in order; the counters account for every pass. *)
Lemma rx_deliver_all_effect (l : list Z) :
  forall p,
    netif_rx (ndev (fold_left rx_deliver l p))
    = netif_rx (ndev p)
      ++ map (fun i => recMsgs_decode (rxBuffer p) (0 + i * 4))
           (rx_kept (skb_alloc (ndev p)) (skb_allocs (ndev p)) l)
    /\ rx_packets (stats (ndev (fold_left rx_deliver l p)))
       = rx_packets (stats (ndev p))
         + Z.of_nat (length (rx_kept (skb_alloc (ndev p)) (skb_allocs (ndev p)) l))
    /\ rx_dropped (stats (ndev (fold_left rx_deliver l p)))
       = rx_dropped (stats (ndev p))
         + (Z.of_nat (length l)
            - Z.of_nat (length (rx_kept (skb_alloc (ndev p)) (skb_allocs (ndev p)) l)))
    /\ queue_stopped (ndev (fold_left rx_deliver l p)) = queue_stopped (ndev p)
    /\ echoed (ndev (fold_left rx_deliver l p)) = echoed (ndev p)
    /\ tx_packets (stats (ndev (fold_left rx_deliver l p))) = tx_packets (stats (ndev p)).
Proof.
  induction l as [| i l IH]; intros p.
  - cbn. rewrite app_nil_r. repeat split; lia.
  - cbn [fold_left rx_kept length].
    destruct (IH (rx_deliver p i)) as (I1 & I2 & I3 & I4 & I5 & I6).
    rewrite I1, I2, I3, I4, I5, I6. clear IH I1 I2 I3 I4 I5 I6.
    unfold rx_deliver, alloc_skb.
    destruct (skb_alloc (ndev p) (skb_allocs (ndev p)));
      cbn [ndev set_ndev set_stats deliver netif_rx stats rx_packets rx_dropped queue_stopped
           echoed tx_packets skb_alloc skb_allocs rxBuffer app map length];
      rewrite <- ?app_assoc; cbn [app]; repeat split; lia.
Qed.

(** A pass over a non-empty FIFO: three exchanges, then the delivery loop
    over the state [p1] the exchanges leave. *)
Lemma recMsgs_nonempty_shape (p : tcan4550_priv) (d : spi_device) :
  spi p = Some d ->
  rx_fillLevel (fst (spi_read32 (Some d) RXF0S)) <> 0 ->
  exists p1 d3,
    tcan4550_recMsgs p
    = (true, fold_left rx_deliver
               (iterations (rx_msgsToGet (fst (spi_read32 (Some d) RXF0S)))) p1)
    /\ can p1 = can p /\ ndev p1 = ndev p
    /\ tx_head p1 = tx_head p /\ tx_tail p1 = tx_tail p /\ tx_skb_buf p1 = tx_skb_buf p
    /\ txBuffer p1 = txBuffer p
    /\ spi p1 = Some d3
    /\ spi_sent d3
       = spi_sent d
         ++ [read32_request RXF0S;
             take (Z.to_nat (4 + rx_msgsToGet (fst (spi_read32 (Some d) RXF0S)) * 16))
               (read_msgs_header (rx_txBuf p)
                  (u32 (MRAM_BASE + RX_FIFO_START_ADDRESS
                        + rx_getIndex (fst (spi_read32 (Some d) RXF0S)) * RX_SLOT_SIZE))
                  (rx_msgsToGet (fst (spi_read32 (Some d) RXF0S))));
             write32_request RXF0A
               (u32 (rx_getIndex (fst (spi_read32 (Some d) RXF0S))
                     + rx_msgsToGet (fst (spi_read32 (Some d) RXF0S)) - 1))].
Proof.
  intros Hspi Hfill. unfold tcan4550_recMsgs. rewrite Hspi.
  destruct (spi_read32_some d RXF0S) as (rxf0s & d1 & E1 & S1 & R1).
  rewrite E1 in *. cbn [fst] in Hfill |- *.
  destruct (Z.eqb_spec (rx_fillLevel rxf0s) 0) as [E | _]; [contradiction |].
  destruct (rx_window_facts rxf0s Hfill) as (Hm & _ & _).
  destruct (spi_read_msgs_some (set_spi p (Some d1)) d1
              (u32 (MRAM_BASE + RX_FIFO_START_ADDRESS + rx_getIndex rxf0s * RX_SLOT_SIZE))
              (rx_msgsToGet rxf0s) (rxBuffer (set_spi p (Some d1))) eq_refl)
    as (ret & d2 & rxb & out' & E2 & S2 & R2).
  { unfold MAX_BURST_RX_MESSAGES. lia. }
  rewrite E2. cbn [set_rxBuffer set_rx_bufs spi].
  destruct (spi_write32_some d2 RXF0A (u32 (rx_getIndex rxf0s + rx_msgsToGet rxf0s - 1)))
    as (r3 & d3 & E3 & S3 & R3).
  rewrite E3. eexists. exists d3. split; [reflexivity |].
  cbn [set_spi can ndev tx_head tx_tail tx_skb_buf txBuffer spi rx_txBuf].
  repeat (split; [reflexivity |]).
  rewrite S3, S2, S1. rewrite <- !app_assoc. reflexivity.
Qed.

(** X9: an empty receive FIFO: the pass reads the status register and stops.  It
    reports that there was nothing to do, makes no burst read and no
    acknowledge write, and changes nothing but the log of the bus. *)
Theorem rx_pass_on_empty_fifo (p : tcan4550_priv) (d : spi_device) :
  spi p = Some d ->
  rx_fillLevel (fst (spi_read32 (Some d) RXF0S)) = 0 ->
  fst (tcan4550_recMsgs p) = false
  /\ issued (spi p) (spi (snd (tcan4550_recMsgs p))) = [read32_request RXF0S]
  /\ snd (tcan4550_recMsgs p) = set_spi p (spi (snd (tcan4550_recMsgs p))).
Proof.
  intros Hspi Hfill. unfold tcan4550_recMsgs, issued. rewrite Hspi.
  destruct (spi_read32_some d RXF0S) as (rxf0s & d1 & E1 & S1 & R1).
  rewrite E1 in *. cbn [fst] in Hfill |- *. rewrite Hfill. change (0 =? 0) with true.
  cbn [fst snd set_spi spi sent]. rewrite S1, drop_app_length.
  repeat split; reflexivity.
Qed.

Lemma rx_pass_on_empty_fifo_witness :
  fst (tcan4550_recMsgs (fresh_priv (steady_bus 0x1F00) (fun _ => true))) = false
  /\ issued (spi (fresh_priv (steady_bus 0x1F00) (fun _ => true)))
       (spi (snd (tcan4550_recMsgs (fresh_priv (steady_bus 0x1F00) (fun _ => true)))))
     = [read32_request RXF0S].
Proof.
  destruct (rx_pass_on_empty_fifo (fresh_priv (steady_bus 0x1F00) (fun _ => true))
              (steady_bus 0x1F00) eq_refl) as (H1 & H2 & _).
  - reflexivity.
  - split; [exact H1 | exact H2].
Defined.

(** X10: a pass over a non-empty receive FIFO makes exactly three exchanges: the
    status read, one burst read of the clamped number of records at the slot
    of the get index, and one write to the acknowledge register, whose value
    is the index of the last slot read, get index + burst - 1. *)
Theorem rx_pass_acknowledges_last_slot (p : tcan4550_priv) (d : spi_device) :
  spi p = Some d -> buffers_ok p ->
  rx_fillLevel (fst (spi_read32 (Some d) RXF0S)) <> 0 ->
  fst (tcan4550_recMsgs p) = true
  /\ exists burst,
       issued (spi p) (spi (snd (tcan4550_recMsgs p)))
       = [read32_request RXF0S; burst;
          write32_request RXF0A
            (rx_getIndex (fst (spi_read32 (Some d) RXF0S))
             + rx_msgsToGet (fst (spi_read32 (Some d) RXF0S)) - 1)]
       /\ take 4 burst
          = [0x41;
             u8 (Z.shiftr (MRAM_BASE + RX_FIFO_START_ADDRESS
                           + rx_getIndex (fst (spi_read32 (Some d) RXF0S)) * RX_SLOT_SIZE) 8);
             u8 (Z.land (MRAM_BASE + RX_FIFO_START_ADDRESS
                         + rx_getIndex (fst (spi_read32 (Some d) RXF0S)) * RX_SLOT_SIZE) 0xFF);
             rx_msgsToGet (fst (spi_read32 (Some d) RXF0S)) * 4]
       /\ length burst = Z.to_nat (4 + rx_msgsToGet (fst (spi_read32 (Some d) RXF0S)) * 16)
       /\ writes_to RXF0A (issued (spi p) (spi (snd (tcan4550_recMsgs p))))
          = [rx_getIndex (fst (spi_read32 (Some d) RXF0S))
             + rx_msgsToGet (fst (spi_read32 (Some d) RXF0S)) - 1].
Proof.
  intros Hspi Hbuf Hfill.
  destruct (recMsgs_nonempty_shape p d Hspi Hfill)
    as (p1 & d3 & E & _ & _ & _ & _ & _ & _ & Hs1 & Hsent).
  rewrite E. cbn [fst snd]. rewrite rx_deliver_all_spi, Hs1. unfold issued.
  rewrite Hspi. cbn [sent]. rewrite Hsent, drop_app_length. clear E Hs1 Hsent p1 d3.
  set (rxf0s := fst (spi_read32 (Some d) RXF0S)) in *.
  destruct (rx_window_facts rxf0s Hfill) as (Hm & Hack & _).
  destruct (rx_fields_range rxf0s) as (_ & Hidx).
  destruct Hbuf as (_ & _ & _ & Hlen & _).
  change (Z.to_nat (4 + MAX_BURST_RX_MESSAGES * 16)) with 132%nat in Hlen.
  assert (Hbase : u32 (MRAM_BASE + RX_FIFO_START_ADDRESS + rx_getIndex rxf0s * RX_SLOT_SIZE)
                  = MRAM_BASE + RX_FIFO_START_ADDRESS + rx_getIndex rxf0s * RX_SLOT_SIZE).
  { unfold u32, MRAM_BASE, RX_FIFO_START_ADDRESS, RX_SLOT_SIZE. apply Z.mod_small.
    change (2 ^ 32) with 4294967296. lia. }
  assert (Hu : u32 (rx_getIndex rxf0s + rx_msgsToGet rxf0s - 1)
               = rx_getIndex rxf0s + rx_msgsToGet rxf0s - 1).
  { unfold u32. apply Z.mod_small. change (2 ^ 32) with 4294967296.
    change (2 ^ 16) with 65536 in Hack. lia. }
  rewrite Hbase, Hu.
  set (hdr := read_msgs_header (rx_txBuf p) _ (rx_msgsToGet rxf0s)).
  set (n := Z.to_nat (4 + rx_msgsToGet rxf0s * 16)).
  split; [reflexivity |]. exists (take n hdr). split; [reflexivity |].
  assert (Hn : (4 <= n)%nat) by (unfold n; lia).
  split; [| split].
  - rewrite take_take. replace (4 `min` n)%nat with 4%nat by lia.
    unfold hdr. rewrite read_msgs_header_take4 by lia.
    do 4 f_equal. unfold u8. apply Z.mod_small. change (2 ^ 8) with 256. lia.
  - rewrite length_take. unfold hdr. rewrite read_msgs_header_length. unfold n. lia.
  - destruct (read_msgs_header_head (rx_txBuf p)
                (MRAM_BASE + RX_FIFO_START_ADDRESS + rx_getIndex rxf0s * RX_SLOT_SIZE)
                (rx_msgsToGet rxf0s) n ltac:(lia) Hn) as (t & Ht).
    fold hdr in Ht. rewrite Ht.
    change [read32_request RXF0S; 0x41 :: t;
            write32_request RXF0A (rx_getIndex rxf0s + rx_msgsToGet rxf0s - 1)]
      with ([read32_request RXF0S] ++ [0x41 :: t]
            ++ [write32_request RXF0A (rx_getIndex rxf0s + rx_msgsToGet rxf0s - 1)]).
    rewrite !writes_to_app, writes_to_read_opcode.
    change (read32_request RXF0S) with (0x41 :: tl (read32_request RXF0S)).
    rewrite writes_to_read_opcode. cbn [app].
    apply writes_to_write32.
    + unfold RXF0A. lia.
    + unfold is_word. change (2 ^ 16) with 65536 in Hack. lia.
Qed.

Lemma rx_pass_acknowledges_last_slot_witness :
  writes_to RXF0A
    (issued (spi (fresh_priv (steady_bus 0x1E05) (fun _ => true)))
       (spi (snd (tcan4550_recMsgs (fresh_priv (steady_bus 0x1E05) (fun _ => true))))))
  = [31].
Proof.
  destruct (rx_pass_acknowledges_last_slot (fresh_priv (steady_bus 0x1E05) (fun _ => true))
              (steady_bus 0x1E05) eq_refl) as (_ & burst & _ & _ & _ & Hack).
  - unfold buffers_ok. repeat split; reflexivity.
  - vm_compute. discriminate.
  - exact Hack.
Defined.

(** X11: every record of the burst is accounted for: the pass asks for one
    buffer per record; a record whose buffer is granted is decoded from
    [rxBuffer] and handed upward, in FIFO order, and counted in
    [rx_packets]; a record whose buffer is refused is counted in
    [rx_dropped], and the loop goes on with the next one. *)
Theorem rx_pass_delivers_or_counts (p : tcan4550_priv) (d : spi_device) :
  spi p = Some d ->
  rx_fillLevel (fst (spi_read32 (Some d) RXF0S)) <> 0 ->
  netif_rx (ndev (snd (tcan4550_recMsgs p)))
  = netif_rx (ndev p)
    ++ map (fun i => recMsgs_decode (rxBuffer (snd (tcan4550_recMsgs p))) (0 + i * 4))
         (rx_kept (skb_alloc (ndev p)) (skb_allocs (ndev p))
            (iterations (rx_msgsToGet (fst (spi_read32 (Some d) RXF0S)))))
  /\ rx_packets (stats (ndev (snd (tcan4550_recMsgs p))))
     = rx_packets (stats (ndev p))
       + Z.of_nat (length (rx_kept (skb_alloc (ndev p)) (skb_allocs (ndev p))
                             (iterations (rx_msgsToGet (fst (spi_read32 (Some d) RXF0S))))))
  /\ rx_dropped (stats (ndev (snd (tcan4550_recMsgs p))))
     = rx_dropped (stats (ndev p))
       + (rx_msgsToGet (fst (spi_read32 (Some d) RXF0S))
          - Z.of_nat (length (rx_kept (skb_alloc (ndev p)) (skb_allocs (ndev p))
                                (iterations (rx_msgsToGet (fst (spi_read32 (Some d) RXF0S)))))))
  /\ skb_allocs (ndev (snd (tcan4550_recMsgs p)))
     = (skb_allocs (ndev p) + Z.to_nat (rx_msgsToGet (fst (spi_read32 (Some d) RXF0S))))%nat.
Proof.
  intros Hspi Hfill.
  destruct (recMsgs_nonempty_shape p d Hspi Hfill)
    as (p1 & d3 & E & _ & Hndev & _ & _ & _ & _ & _ & _).
  rewrite E. cbn [snd]. clear E.
  set (m := rx_msgsToGet (fst (spi_read32 (Some d) RXF0S))).
  destruct (rx_window_facts _ Hfill) as (Hm & _ & _). fold m in Hm.
  assert (Hlen : length (iterations m) = Z.to_nat m).
  { unfold iterations. rewrite length_map, length_seq. reflexivity. }
  destruct (rx_deliver_all_effect (iterations m) p1) as (D1 & D2 & D3 & _).
  assert (Hrxb : rxBuffer (fold_left rx_deliver (iterations m) p1) = rxBuffer p1)
    by (rewrite rx_deliver_all_frame; reflexivity).
  rewrite rx_deliver_all_allocs, Hlen, Hrxb.
  rewrite D1, D2, D3, Hndev, Hlen.
  repeat split; lia.
Qed.

Lemma rx_pass_delivers_or_counts_witness :
  length (netif_rx (ndev (snd (tcan4550_recMsgs
                                (fresh_priv (steady_bus 0x0A05) (fun n => Nat.even n))))))
  = 3%nat
  /\ rx_dropped (stats (ndev (snd (tcan4550_recMsgs
                                     (fresh_priv (steady_bus 0x0A05) (fun n => Nat.even n))))))
     = 2.
Proof.
  destruct (rx_pass_delivers_or_counts (fresh_priv (steady_bus 0x0A05) (fun n => Nat.even n))
              (steady_bus 0x0A05) eq_refl) as (H1 & _ & H3 & _).
  - vm_compute. discriminate.
  - split; [rewrite H1 | rewrite H3]; reflexivity.
Defined.

(** ** Transmit worker: one pass *)

(** The state after one pass through the loop body. *)
Lemma tx_loop_body_spec (st st1 : tx_loop_state) :
  tx_loop_body st = Some st1 ->
  exists skb,
    tx_skb_buf (tl_priv st) !! Z.to_nat (tx_tail (tl_priv st)) = Some (Some skb)
    /\ tl_msgs st1 = tl_msgs st + 1
    /\ tl_writeIndex st1 = u32 (tl_writeIndex st + 1)
    /\ tl_requestMask st1 = u32 (tl_requestMask st + Z.shiftl 1 (tl_writeIndex st))
    /\ tx_head (tl_priv st1) = tx_head (tl_priv st)
    /\ tx_tail (tl_priv st1)
       = (if TX_BUFFER_SIZE <=? tx_tail (tl_priv st) + 1 then 0 else tx_tail (tl_priv st) + 1)
    /\ tx_skb_buf (tl_priv st1) = tx_skb_buf (tl_priv st)
    /\ spi (tl_priv st1) = spi (tl_priv st)
    /\ can (tl_priv st1) = can (tl_priv st)
    /\ txBuffer (tl_priv st1)
       = tcan4550_composeMessage skb (txBuffer (tl_priv st)) (tl_msgs st * 4)
    /\ echoed (ndev (tl_priv st1)) = echoed (ndev (tl_priv st)) ++ [skb]
    /\ netif_rx (ndev (tl_priv st1)) = netif_rx (ndev (tl_priv st))
    /\ queue_stopped (ndev (tl_priv st1)) = queue_stopped (ndev (tl_priv st))
    /\ tx_packets (stats (ndev (tl_priv st1))) = tx_packets (stats (ndev (tl_priv st))) + 1
    /\ tx_bytes (stats (ndev (tl_priv st1)))
       = tx_bytes (stats (ndev (tl_priv st))) + len (skb_data skb)
    /\ tx_txBuf (tl_priv st1) = tx_txBuf (tl_priv st).
Proof.
  unfold tx_loop_body.
  destruct (tx_skb_buf (tl_priv st) !! Z.to_nat (tx_tail (tl_priv st))) as [[skb |] |];
    try discriminate.
  intros [= <-]. exists skb. cbn. repeat split; reflexivity.
Qed.

Lemma next_tail (t : Z) :
  0 <= t < TX_BUFFER_SIZE ->
  (if TX_BUFFER_SIZE <=? t + 1 then 0 else t + 1) = (t + 1) mod TX_BUFFER_SIZE.
Proof.
  unfold TX_BUFFER_SIZE. change (16 + 1) with 17. intros Ht.
  destruct (Z.leb_spec 17 (t + 1)).
  - replace t with 16 by lia. reflexivity.
  - rewrite Z.mod_small by lia. reflexivity.
Qed.

Lemma iterations_cons (n : nat) :
  iterations (Z.of_nat (S n)) = 0 :: map (fun j => j + 1) (iterations (Z.of_nat n)).
Proof.
  unfold iterations. rewrite !Nat2Z.id. cbn [seq map]. f_equal.
  rewrite <- seq_shift, !map_map. apply map_ext. intros a. lia.
Qed.

(** What the loop does with a ring whose queued slots are filled: it takes
    the least of its budget and the number of entries, leaves the head and
    the slots alone, advances tail and write index by the number taken, sets
    one request bit per entry and counts each in [tx_packets]. *)
Lemma tx_loop_effect (budget : nat) :
  forall st : tx_loop_state,
    ring_ok (tl_priv st) -> ring_filled (tl_priv st) ->
    0 <= tl_writeIndex st -> tl_writeIndex st + Z.of_nat budget <= 32 ->
    0 <= tl_requestMask st < 2 ^ tl_writeIndex st ->
    exists st' k,
      tx_loop budget st = Some st'
      /\ k = Z.min (Z.of_nat budget) (queue_count (tl_priv st))
      /\ tl_msgs st' = tl_msgs st + k
      /\ tl_writeIndex st' = tl_writeIndex st + k
      /\ tl_requestMask st'
         = tl_requestMask st + 2 ^ tl_writeIndex st * (2 ^ k - 1)
      /\ tx_head (tl_priv st') = tx_head (tl_priv st)
      /\ tx_tail (tl_priv st') = (tx_tail (tl_priv st) + k) mod TX_BUFFER_SIZE
      /\ tx_skb_buf (tl_priv st') = tx_skb_buf (tl_priv st)
      /\ spi (tl_priv st') = spi (tl_priv st)
      /\ can (tl_priv st') = can (tl_priv st)
      /\ tx_txBuf (tl_priv st') = tx_txBuf (tl_priv st)
      /\ netif_rx (ndev (tl_priv st')) = netif_rx (ndev (tl_priv st))
      /\ tx_packets (stats (ndev (tl_priv st')))
         = tx_packets (stats (ndev (tl_priv st))) + k
      /\ echoed (ndev (tl_priv st'))
         = echoed (ndev (tl_priv st)) ++ map (queued (tl_priv st)) (iterations k).
Proof.
  induction budget as [| b IH]; intros st Hok Hfill Hw Hroom Hmask.
  - exists st, 0. cbn [tx_loop].
    assert (Hc : 0 <= queue_count (tl_priv st)).
    { unfold queue_count, TX_BUFFER_SIZE. apply Z.mod_pos_bound. lia. }
    pose proof Hok as (_ & Ht & _). unfold TX_BUFFER_SIZE in Ht |- *.
    change (iterations 0) with (@nil Z). cbn [map]. rewrite app_nil_r, !Z.add_0_r.
    rewrite Z.mod_small by lia. repeat split; lia.
  - cbn [tx_loop]. pose proof Hok as (Hh & Ht & Hlen).
    destruct (Z.eqb_spec (tx_head (tl_priv st)) (tx_tail (tl_priv st))) as [Heq | Hne].
    + exists st, 0.
      assert (Hc : queue_count (tl_priv st) = 0).
      { unfold queue_count. rewrite Heq, Z.sub_diag. reflexivity. }
      rewrite Hc. unfold TX_BUFFER_SIZE in Ht |- *.
      change (iterations 0) with (@nil Z). cbn [map]. rewrite app_nil_r, !Z.add_0_r.
      rewrite Z.mod_small by lia. repeat split; lia.
    + assert (Hc : 1 <= queue_count (tl_priv st) < 17).
      { unfold queue_count, TX_BUFFER_SIZE in *. Z.div_mod_to_equations. lia. }
      destruct (Hfill 0 ltac:(lia)) as (skb0 & Hslot0).
      rewrite Z.add_0_r in Hslot0. rewrite Z.mod_small in Hslot0 by exact Ht.
      destruct (tx_loop_body st) as [st1 |] eqn:Ebody.
      2:{ unfold tx_loop_body in Ebody. rewrite Hslot0 in Ebody. discriminate. }
      destruct (tx_loop_body_spec st st1 Ebody)
        as (skb & Hslot & B1 & B2 & B3 & B4 & B5 & B6 & B7 & B8 & B9 & B10 & B11 & B12
            & B13 & B14 & B15).
      rewrite next_tail in B5 by exact Ht.
      assert (Hw1 : tl_writeIndex st1 = tl_writeIndex st + 1).
      { rewrite B2. unfold u32. apply Z.mod_small. change (2 ^ 32) with 4294967296. lia. }
      assert (Hpow : 2 ^ (tl_writeIndex st + 1) = 2 * 2 ^ tl_writeIndex st).
      { rewrite Z.pow_add_r by lia. lia. }
      assert (Hp32 : 2 ^ (tl_writeIndex st + 1) <= 2 ^ 32).
      { apply Z.pow_le_mono_r; lia. }
      assert (Hm1 : tl_requestMask st1 = tl_requestMask st + 2 ^ tl_writeIndex st).
      { rewrite B3, Z.shiftl_1_l. unfold u32. apply Z.mod_small. lia. }
      assert (Hc1 : queue_count (tl_priv st1) = queue_count (tl_priv st) - 1).
      { unfold queue_count in *. rewrite B4, B5. unfold TX_BUFFER_SIZE in *.
        Z.div_mod_to_equations. lia. }
      assert (Hok1 : ring_ok (tl_priv st1)).
      { unfold ring_ok. rewrite B4, B5, B6. unfold TX_BUFFER_SIZE in *.
        split; [lia |]. split; [apply Z.mod_pos_bound; lia | exact Hlen]. }
      assert (Hshift : forall j, (tx_tail (tl_priv st1) + j) mod TX_BUFFER_SIZE
                                 = (tx_tail (tl_priv st) + (j + 1)) mod TX_BUFFER_SIZE).
      { intros j. rewrite B5. rewrite Z.add_mod_idemp_l by (unfold TX_BUFFER_SIZE; lia).
        f_equal. lia. }
      assert (Hfill1 : ring_filled (tl_priv st1)).
      { intros j Hj. rewrite Hshift, B6. apply Hfill. lia. }
      destruct (IH st1 Hok1 Hfill1) as (st' & k1 & R & Hk1 & I1 & I2 & I3 & I4 & I5 & I6 & I7
                                        & I8 & I9 & I10 & I11 & I12);
        [lia | lia | rewrite Hw1, Hpow; lia |].
      exists st', (k1 + 1). split; [exact R |].
      assert (Hk1pos : 0 <= k1) by lia.
      split; [lia |]. split; [lia |]. split; [lia |].
      split.
      { rewrite I3, Hm1, Hw1, Hpow. rewrite (Z.pow_add_r 2 k1 1) by lia.
        change (2 ^ 1) with 2. ring. }
      split; [congruence |].
      split.
      { rewrite I5, B5. rewrite Z.add_mod_idemp_l by (unfold TX_BUFFER_SIZE; lia).
        f_equal. lia. }
      split; [congruence |]. split; [congruence |]. split; [congruence |].
      split; [congruence |]. split; [congruence |]. split; [lia |].
      rewrite I12, B10, <- app_assoc. f_equal.
      replace (k1 + 1) with (Z.of_nat (S (Z.to_nat k1))) by lia.
      rewrite iterations_cons. replace (Z.of_nat (Z.to_nat k1)) with k1 by lia.
      cbn [map app]. f_equal.
      * unfold queued. rewrite Z.add_0_r, Z.mod_small by exact Ht.
        rewrite Hslot. reflexivity.
      * rewrite map_map. apply map_ext. intros a.
        unfold queued. rewrite Hshift, B6. reflexivity.
Qed.

Lemma compose_outside (skb : sk_buff) (buf : list Z) (off k : Z) :
  0 <= off -> 0 <= k -> k < off \/ off + 4 <= k ->
  load (tcan4550_composeMessage skb buf off) k = load buf k.
Proof.
  intros Hoff Hk Hout. unfold tcan4550_composeMessage.
  destruct (bit_set (can_id (skb_data skb)) CAN_EFF_FLAG);
    rewrite !load_store_other by lia; reflexivity.
Qed.

Lemma compose_length (skb : sk_buff) (buf : list Z) (off : Z) :
  length (tcan4550_composeMessage skb buf off) = length buf.
Proof.
  unfold tcan4550_composeMessage.
  destruct (bit_set (can_id (skb_data skb)) CAN_EFF_FLAG); rewrite !length_store; reflexivity.
Qed.

(** The record written does not depend on where it is written. *)
Lemma compose_words_same (skb : sk_buff) (buf : list Z) (off j : Z) :
  0 <= off -> off + 3 < Z.of_nat (length buf) -> 0 <= j < 4 ->
  load (tcan4550_composeMessage skb buf off) (off + j)
  = load (tcan4550_composeMessage skb (replicate 4 0) 0) j.
Proof.
  intros Hoff Hroom Hj.
  destruct (compose_words skb buf off Hoff Hroom) as (E0 & E1 & E2 & E3).
  destruct (compose_words skb (replicate 4 0) 0 ltac:(lia) ltac:(simpl; lia))
    as (F0 & F1 & F2 & F3).
  assert (Hc : j = 0 \/ j = 1 \/ j = 2 \/ j = 3) by lia.
  change (0 + 0) with 0 in F0. change (0 + 1) with 1 in F1.
  change (0 + 2) with 2 in F2. change (0 + 3) with 3 in F3.
  destruct Hc as [-> | [-> | [-> | ->]]]; congruence.
Qed.

(** The loop fills [txBuffer] record by record, in queue order. *)
Lemma tx_loop_records (budget : nat) :
  forall st st' : tx_loop_state,
    tx_loop budget st = Some st' ->
    ring_ok (tl_priv st) -> 0 <= tl_msgs st ->
    4 * (tl_msgs st + Z.of_nat budget) <= Z.of_nat (length (txBuffer (tl_priv st))) ->
    length (txBuffer (tl_priv st')) = length (txBuffer (tl_priv st))
    /\ (forall w, 0 <= w < 4 * tl_msgs st ->
          load (txBuffer (tl_priv st')) w = load (txBuffer (tl_priv st)) w)
    /\ (forall i j, 0 <= i < tl_msgs st' - tl_msgs st -> 0 <= j < 4 ->
          load (txBuffer (tl_priv st')) (4 * (tl_msgs st + i) + j)
          = load (tcan4550_composeMessage (queued (tl_priv st) i) (replicate 4 0) 0) j).
Proof.
  induction budget as [| b IH]; intros st st' Hrun Hok Hm Hroom; cbn [tx_loop] in Hrun.
  - injection Hrun as <-. split; [reflexivity |]. split; [reflexivity | intros; lia].
  - destruct (tx_head (tl_priv st) =? tx_tail (tl_priv st)).
    + injection Hrun as <-. split; [reflexivity |]. split; [reflexivity | intros; lia].
    + destruct (tx_loop_body st) as [st1 |] eqn:Ebody; [| discriminate].
      destruct (tx_loop_body_spec st st1 Ebody)
        as (skb & Hslot & B1 & B2 & B3 & B4 & B5 & B6 & B7 & B8 & B9 & _).
      pose proof Hok as (Hh & Ht & Hlen).
      rewrite next_tail in B5 by exact Ht.
      assert (Hok1 : ring_ok (tl_priv st1)).
      { unfold ring_ok. rewrite B4, B5, B6. unfold TX_BUFFER_SIZE in *.
        split; [lia |]. split; [apply Z.mod_pos_bound; lia | exact Hlen]. }
      assert (Hl1 : length (txBuffer (tl_priv st1)) = length (txBuffer (tl_priv st))).
      { rewrite B9. apply compose_length. }
      destruct (IH st1 st' Hrun Hok1) as (L & Hlow & Hrec); [lia | rewrite Hl1; lia |].
      split; [congruence |]. split.
      * intros w Hw. rewrite Hlow by lia. rewrite B9. apply compose_outside; lia.
      * intros i j Hi Hj.
        destruct (Z.eq_dec i 0) as [-> | Hpos].
        -- rewrite Hlow by lia. rewrite B9.
           replace (4 * (tl_msgs st + 0) + j) with (tl_msgs st * 4 + j) by lia.
           rewrite compose_words_same by lia. do 2 f_equal.
           unfold queued. rewrite Z.add_0_r, Z.mod_small by exact Ht. rewrite Hslot.
           reflexivity.
        -- replace (4 * (tl_msgs st + i) + j) with (4 * (tl_msgs st1 + (i - 1)) + j) by lia.
           rewrite Hrec by lia. do 2 f_equal.
           unfold queued. rewrite B5, B6.
           rewrite Z.add_mod_idemp_l by (unfold TX_BUFFER_SIZE; lia).
           replace (tx_tail (tl_priv st) + 1 + (i - 1)) with (tx_tail (tl_priv st) + i) by lia.
           reflexivity.
Qed.

Lemma spi_write_msgs_frame (p : tcan4550_priv) (address msgs : Z) (words : list Z) :
  txBuffer (snd (spi_write_msgs p address msgs words)) = txBuffer p
  /\ can (snd (spi_write_msgs p address msgs words)) = can p
  /\ rxBuffer (snd (spi_write_msgs p address msgs words)) = rxBuffer p.
Proof.
  unfold spi_write_msgs. destruct (MAX_BURST_TX_MESSAGES <? msgs); [tauto |].
  destruct (spi_transfer _ _ _ _) as [[ret s'] rxb]. cbn. tauto.
Qed.

Lemma queue_count_range (p : tcan4550_priv) : 0 <= queue_count p < TX_BUFFER_SIZE.
Proof. unfold queue_count, TX_BUFFER_SIZE. apply Z.mod_pos_bound. lia. Qed.

(** One pass of the worker over a ring whose queued slots are filled. *)
Lemma worker_effect (p : tcan4550_priv) :
  ring_ok p -> ring_filled p -> length (txBuffer p) = Z.to_nat (MAX_BURST_TX_MESSAGES * 4) ->
  exists p' k,
    tcan4550_tx_work_handler p = Some p'
    /\ k = Z.min (tx_msgsToTransmit (fst (spi_read32 (spi p) TXQFS))) (queue_count p)
    /\ tx_head p' = tx_head p
    /\ tx_tail p' = (tx_tail p + k) mod TX_BUFFER_SIZE
    /\ tx_skb_buf p' = tx_skb_buf p
    /\ can p' = can p
    /\ netif_rx (ndev p') = netif_rx (ndev p)
    /\ tx_packets (stats (ndev p')) = tx_packets (stats (ndev p)) + k
    /\ echoed (ndev p') = echoed (ndev p) ++ map (queued p) (iterations k)
    /\ length (txBuffer p') = length (txBuffer p)
    /\ (forall i j, 0 <= i < k -> 0 <= j < 4 ->
          load (txBuffer p') (4 * i + j)
          = load (tcan4550_composeMessage (queued p i) (replicate 4 0) 0) j).
Proof.
  intros Hok Hfill Hlen. unfold tcan4550_tx_work_handler.
  destruct (spi_read32 (spi p) TXQFS) as [txqfs s1]. cbn [fst].
  pose proof (tx_msgsToTransmit_bounds txqfs) as (Hwin & _ & Hring & _).
  destruct (tx_fields_range txqfs) as (_ & Hw).
  unfold MAX_BURST_TX_MESSAGES, TX_MSG_BOXES in *.
  change (Z.to_nat (8 * 4)) with 32%nat in Hlen.
  set (st0 := {| tl_priv := set_spi p s1; tl_msgs := 0;
                 tl_writeIndex := tx_writeIndex txqfs; tl_requestMask := 0 |}).
  destruct (tx_loop_effect (Z.to_nat (tx_msgsToTransmit txqfs)) st0)
    as (st' & k & R & Hk & E1 & E2 & E3 & E4 & E5 & E6 & E7 & E8 & E9 & E10 & E11 & E12).
  { exact Hok. }
  { exact Hfill. }
  { cbn. lia. }
  { cbn. lia. }
  { cbn. pose proof (Z.pow_pos_nonneg 2 (tx_writeIndex txqfs)). lia. }
  destruct (tx_loop_records _ st0 st' R) as (L & _ & Hrec).
  { exact Hok. }
  { cbn. lia. }
  { cbn [st0 tl_priv tl_msgs set_spi txBuffer]. rewrite Hlen. lia. }
  rewrite R. cbn [st0 tl_priv tl_msgs tl_writeIndex tl_requestMask] in *.
  change (queue_count (set_spi p s1)) with (queue_count p) in Hk.
  change (tx_head (set_spi p s1)) with (tx_head p) in E4.
  change (tx_tail (set_spi p s1)) with (tx_tail p) in E5.
  change (tx_skb_buf (set_spi p s1)) with (tx_skb_buf p) in E6.
  change (can (set_spi p s1)) with (can p) in E8.
  change (ndev (set_spi p s1)) with (ndev p) in E10, E11, E12.
  change (queued (set_spi p s1)) with (queued p) in E12, Hrec.
  change (txBuffer (set_spi p s1)) with (txBuffer p) in L.
  rewrite Z2Nat.id in Hk by lia.
  rewrite Z.add_0_l in E1. rewrite E1 in Hrec. rewrite Z.sub_0_r in Hrec.
  assert (Hrec' : forall i j, 0 <= i < k -> 0 <= j < 4 ->
            load (txBuffer (tl_priv st')) (4 * i + j)
            = load (tcan4550_composeMessage (queued p i) (replicate 4 0) 0) j).
  { intros i j Hi Hj. specialize (Hrec i j Hi Hj). rewrite Z.add_0_l in Hrec. exact Hrec. }
  destruct (0 <? tl_msgs st').
  - match goal with
    | |- context [spi_write_msgs ?a ?b ?c ?e] =>
        pose proof (spi_write_msgs_ring a b c e) as (W1 & W2 & W3 & W4);
        pose proof (spi_write_msgs_frame a b c e) as (W5 & W6 & _);
        destruct (spi_write_msgs a b c e) as [ret q]
    end.
    cbn [snd] in W1, W2, W3, W4, W5, W6.
    destruct (spi_write32 (spi q) TXBAR _) as [ret2 s2].
    exists (set_spi q s2), k. split; [reflexivity |].
    cbn [set_spi tx_head tx_tail tx_skb_buf can ndev txBuffer].
    rewrite W1, W2, W3, W4, W5, W6.
    refine (conj Hk (conj E4 (conj E5 (conj E6 (conj E8 (conj E10 (conj E11 (conj E12
              (conj L Hrec'))))))))).
  - exists (tl_priv st'), k. split; [reflexivity |].
    refine (conj Hk (conj E4 (conj E5 (conj E6 (conj E8 (conj E10 (conj E11 (conj E12
              (conj L Hrec'))))))))).
Qed.

Lemma spi_write_msgs_some (p : tcan4550_priv) (d : spi_device) (address msgs : Z) (words : list Z) :
  spi p = Some d -> 0 <= msgs <= MAX_BURST_TX_MESSAGES ->
  length (tx_txBuf p) = Z.to_nat (4 + MAX_BURST_TX_MESSAGES * 16) ->
  exists d',
    spi (snd (spi_write_msgs p address msgs words)) = Some d'
    /\ spi_sent d' = spi_sent d ++ [write_msgs_request address msgs words]
    /\ spi_reply d' = spi_reply d.
Proof.
  intros Hspi Hm Hlen.
  pose proof (write_msgs_buffer_take (tx_txBuf p) address msgs words Hm Hlen) as Htake.
  unfold spi_write_msgs.
  destruct (Z.ltb_spec MAX_BURST_TX_MESSAGES msgs) as [Hgt | _]; [lia |].
  rewrite Hspi. unfold spi_transfer, spi_sync.
  fold (write_msgs_buffer (tx_txBuf p) address msgs words). rewrite Htake.
  destruct (spi_reply d _ _) as [ret rx]. cbn [fst snd set_tx_bufs spi].
  eexists. split; [reflexivity |]. split; reflexivity.
Qed.

Lemma request_mask_is_word (w k : Z) :
  0 <= w -> 0 <= k -> w + k <= 32 -> is_word (2 ^ w * (2 ^ k - 1)).
Proof.
  intros Hw Hk Hsum. unfold is_word.
  pose proof (Z.pow_pos_nonneg 2 w ltac:(lia) Hw) as Pw.
  pose proof (Z.pow_pos_nonneg 2 k ltac:(lia) Hk) as Pk.
  assert (2 ^ w * 2 ^ k <= 2 ^ 32).
  { rewrite <- Z.pow_add_r by lia. apply Z.pow_le_mono_r; lia. }
  nia.
Qed.

(** ** Transmit worker: the pass as a whole *)

(** X12: one pass of the worker over a well-formed ring whose queued slots
    are filled always completes and takes the oldest [k] buffers, where [k]
    is the least of the window computed from TXQFS and the number queued:
    the tail advances by [k] modulo 17, the head and the slots stay, the
    buffers are echoed in queue order and [tx_packets] goes up by [k]. *)
Theorem worker_takes_queue_prefix (p : tcan4550_priv) :
  ring_ok p -> ring_filled p -> length (txBuffer p) = Z.to_nat (MAX_BURST_TX_MESSAGES * 4) ->
  exists p' k,
    tcan4550_tx_work_handler p = Some p'
    /\ k = Z.min (tx_msgsToTransmit (fst (spi_read32 (spi p) TXQFS))) (queue_count p)
    /\ tx_head p' = tx_head p
    /\ tx_tail p' = (tx_tail p + k) mod TX_BUFFER_SIZE
    /\ tx_skb_buf p' = tx_skb_buf p
    /\ queue_count p' = queue_count p - k
    /\ tx_packets (stats (ndev p')) = tx_packets (stats (ndev p)) + k
    /\ echoed (ndev p') = echoed (ndev p) ++ map (queued p) (iterations k)
    /\ netif_rx (ndev p') = netif_rx (ndev p).
Proof.
  intros Hok Hfill Hlen.
  destruct (worker_effect p Hok Hfill Hlen)
    as (p' & k & R & Hk & H1 & H2 & H3 & H4 & H5 & H6 & H7 & _).
  exists p', k. refine (conj R (conj Hk (conj H1 (conj H2 (conj H3 (conj _ (conj H6
                   (conj H7 H5)))))))).
  pose proof (tx_msgsToTransmit_bounds (fst (spi_read32 (spi p) TXQFS))) as (Hwin & _).
  pose proof (queue_count_range p) as Hq.
  destruct Hok as (Hh & Ht & _).
  unfold queue_count in *. rewrite H1, H2. unfold TX_BUFFER_SIZE in *.
  Z.div_mod_to_equations. lia.
Qed.

(** X13: the worker stages the records in queue order: record [i] of
    [txBuffer] (words [4i .. 4i+3]) is the encoding of the buffer [i]
    places behind the tail, for every buffer taken. *)
Theorem worker_stages_records_in_order (p : tcan4550_priv) :
  ring_ok p -> ring_filled p -> length (txBuffer p) = Z.to_nat (MAX_BURST_TX_MESSAGES * 4) ->
  exists p',
    tcan4550_tx_work_handler p = Some p'
    /\ length (txBuffer p') = length (txBuffer p)
    /\ forall i j,
         0 <= i < Z.min (tx_msgsToTransmit (fst (spi_read32 (spi p) TXQFS))) (queue_count p) ->
         0 <= j < 4 ->
         load (txBuffer p') (4 * i + j)
         = load (tcan4550_composeMessage (queued p i) (replicate 4 0) 0) j.
Proof.
  intros Hok Hfill Hlen.
  destruct (worker_effect p Hok Hfill Hlen)
    as (p' & k & R & Hk & _ & _ & _ & _ & _ & _ & _ & L & Hrec).
  exists p'. split; [exact R |]. split; [exact L |].
  intros i j Hi Hj. apply Hrec; lia.
Qed.

(** X14: the bus traffic of one pass of the worker on a bound device.
    With nothing to send (empty ring or no free slot) it is the status read
    alone.  Otherwise it is the status read, one burst write of the [k]
    records at the slot of the put index, and one write to TXBAR whose
    value has exactly the bits [put index .. put index + k - 1] set. *)
Theorem worker_bus_traffic (p : tcan4550_priv) (d : spi_device) :
  spi p = Some d -> ring_ok p -> ring_filled p -> buffers_ok p ->
  exists p' txqfs k,
    tcan4550_tx_work_handler p = Some p'
    /\ txqfs = fst (spi_read32 (spi p) TXQFS)
    /\ k = Z.min (tx_msgsToTransmit txqfs) (queue_count p)
    /\ issued (spi p) (spi p')
       = (if k =? 0 then [read32_request TXQFS]
          else [read32_request TXQFS;
                write_msgs_request (MRAM_BASE + TX_FIFO_START_ADDRESS
                                    + tx_writeIndex txqfs * TX_SLOT_SIZE) k (txBuffer p');
                write32_request TXBAR (2 ^ tx_writeIndex txqfs * (2 ^ k - 1))])
    /\ writes_to TXBAR (issued (spi p) (spi p'))
       = (if k =? 0 then [] else [2 ^ tx_writeIndex txqfs * (2 ^ k - 1)]).
Proof.
  intros Hspi Hok Hfill (_ & _ & Hlen & _ & _ & Htx & _).
  unfold tcan4550_tx_work_handler. rewrite Hspi.
  destruct (spi_read32_some d TXQFS) as (txqfs & d1 & R1 & S1 & _). rewrite R1. cbn [fst].
  pose proof (tx_msgsToTransmit_bounds txqfs) as (Hwin & _ & Hring & _).
  destruct (tx_fields_range txqfs) as (_ & Hw).
  unfold MAX_BURST_TX_MESSAGES, TX_MSG_BOXES in Hwin, Hring.
  set (st0 := {| tl_priv := set_spi p (Some d1); tl_msgs := 0;
                 tl_writeIndex := tx_writeIndex txqfs; tl_requestMask := 0 |}).
  destruct (tx_loop_effect (Z.to_nat (tx_msgsToTransmit txqfs)) st0)
    as (st' & k & R & Hk & E1 & E2 & E3 & E4 & E5 & E6 & E7 & E8 & E9 & _).
  { exact Hok. }
  { exact Hfill. }
  { cbn. lia. }
  { cbn. lia. }
  { cbn. pose proof (Z.pow_pos_nonneg 2 (tx_writeIndex txqfs)). lia. }
  rewrite R. cbn [st0 tl_priv tl_msgs tl_writeIndex tl_requestMask] in *.
  change (queue_count (set_spi p (Some d1))) with (queue_count p) in Hk.
  change (spi (set_spi p (Some d1))) with (Some d1) in E7.
  change (tx_txBuf (set_spi p (Some d1))) with (tx_txBuf p) in E9.
  rewrite Z2Nat.id in Hk by lia. rewrite Z.add_0_l in E1, E3.
  pose proof (queue_count_range p) as Hq.
  assert (Hk0 : 0 <= k <= 8) by lia.
  rewrite E1.
  assert (Hbase : u32 (MRAM_BASE + TX_FIFO_START_ADDRESS + tx_writeIndex txqfs * TX_SLOT_SIZE)
                  = MRAM_BASE + TX_FIFO_START_ADDRESS + tx_writeIndex txqfs * TX_SLOT_SIZE).
  { unfold u32, MRAM_BASE, TX_FIFO_START_ADDRESS, TX_SLOT_SIZE. apply Z.mod_small.
    change (2 ^ 32) with 4294967296. lia. }
  rewrite Hbase.
  destruct (Z.ltb_spec 0 k) as [Hpos | Hzero].
  - destruct (spi_write_msgs_some (tl_priv st') d1
                (MRAM_BASE + TX_FIFO_START_ADDRESS + tx_writeIndex txqfs * TX_SLOT_SIZE)
                k (txBuffer (tl_priv st')) E7 ltac:(unfold MAX_BURST_TX_MESSAGES; lia)
                ltac:(rewrite E9; exact Htx)) as (d2 & W1 & W2 & _).
    match goal with
    | |- context [spi_write_msgs ?a ?b ?c ?e] =>
        pose proof (spi_write_msgs_frame a b c e) as (W5 & _);
        destruct (spi_write_msgs a b c e) as [ret q]
    end.
    cbn [snd] in W1, W5. rewrite W1.
    destruct (spi_write32_some d2 TXBAR (tl_requestMask st')) as (ret2 & d3 & R3 & S3 & _).
    rewrite R3. eexists. exists txqfs, k. split; [reflexivity |].
    split; [reflexivity |]. split; [exact Hk |].
    destruct (Z.eqb_spec k 0) as [E | _]; [lia |].
    assert (Hiss : issued (Some d) (spi (set_spi q (Some d3)))
                   = [read32_request TXQFS;
                      write_msgs_request (MRAM_BASE + TX_FIFO_START_ADDRESS
                                          + tx_writeIndex txqfs * TX_SLOT_SIZE) k
                        (txBuffer (set_spi q (Some d3)));
                      write32_request TXBAR (2 ^ tx_writeIndex txqfs * (2 ^ k - 1))]).
    { unfold issued. cbn [set_spi spi sent txBuffer]. rewrite S3, W2, S1, W5, E3.
      rewrite <- !app_assoc. rewrite drop_app_length. reflexivity. }
    split; [exact Hiss |]. rewrite Hiss.
    change [read32_request TXQFS;
            write_msgs_request (MRAM_BASE + TX_FIFO_START_ADDRESS
                                + tx_writeIndex txqfs * TX_SLOT_SIZE) k
              (txBuffer (set_spi q (Some d3)));
            write32_request TXBAR (2 ^ tx_writeIndex txqfs * (2 ^ k - 1))]
      with ([read32_request TXQFS]
            ++ [write_msgs_request (MRAM_BASE + TX_FIFO_START_ADDRESS
                                    + tx_writeIndex txqfs * TX_SLOT_SIZE) k
                  (txBuffer (set_spi q (Some d3)))]
            ++ [write32_request TXBAR (2 ^ tx_writeIndex txqfs * (2 ^ k - 1))]).
    rewrite !writes_to_app. unfold read32_request at 1. rewrite writes_to_read_opcode.
    rewrite writes_to_long.
    + rewrite writes_to_write32; [reflexivity | unfold TXBAR; lia |].
      apply request_mask_is_word; lia.
    + unfold write_msgs_request. rewrite length_app, length_flat_map_be.
      replace (iterations (k * 4)) with (iterations (Z.of_nat (Z.to_nat (k * 4))))
        by (f_equal; lia).
      rewrite length_iterations. simpl. lia.
  - eexists. exists txqfs, k. split; [reflexivity |]. split; [reflexivity |].
    split; [exact Hk |].
    destruct (Z.eqb_spec k 0) as [_ | N]; [| lia].
    assert (Hiss : issued (Some d) (spi (tl_priv st')) = [read32_request TXQFS]).
    { unfold issued. rewrite E7. cbn [sent]. rewrite S1, drop_app_length. reflexivity. }
    rewrite Hiss. split; [reflexivity |].
    unfold read32_request. apply writes_to_read_opcode.
Qed.

Ltac two_queued_filled :=
  let j := fresh "j" in
  let Hj := fresh "Hj" in
  intros j Hj;
  assert (j = 0 \/ j = 1) as [-> | ->]
    by (change (queue_count two_queued) with 2 in Hj; lia);
  eexists; reflexivity.

Lemma worker_takes_queue_prefix_witness :
  exists p' k,
    tcan4550_tx_work_handler two_queued = Some p'
    /\ k = Z.min (tx_msgsToTransmit (fst (spi_read32 (spi two_queued) TXQFS)))
                 (queue_count two_queued)
    /\ tx_head p' = tx_head two_queued
    /\ tx_tail p' = (tx_tail two_queued + k) mod TX_BUFFER_SIZE
    /\ tx_skb_buf p' = tx_skb_buf two_queued
    /\ queue_count p' = queue_count two_queued - k
    /\ tx_packets (stats (ndev p')) = tx_packets (stats (ndev two_queued)) + k
    /\ echoed (ndev p') = echoed (ndev two_queued) ++ map (queued two_queued) (iterations k)
    /\ netif_rx (ndev p') = netif_rx (ndev two_queued).
Proof.
  apply (worker_takes_queue_prefix two_queued).
  - unfold ring_ok. vm_compute. repeat split; congruence.
  - two_queued_filled.
  - reflexivity.
Defined.

Lemma worker_stages_records_in_order_witness :
  exists p',
    tcan4550_tx_work_handler two_queued = Some p'
    /\ length (txBuffer p') = length (txBuffer two_queued)
    /\ forall i j,
         0 <= i < Z.min (tx_msgsToTransmit (fst (spi_read32 (spi two_queued) TXQFS)))
                        (queue_count two_queued) ->
         0 <= j < 4 ->
         load (txBuffer p') (4 * i + j)
         = load (tcan4550_composeMessage (queued two_queued i) (replicate 4 0) 0) j.
Proof.
  apply (worker_stages_records_in_order two_queued).
  - unfold ring_ok. vm_compute. repeat split; congruence.
  - two_queued_filled.
  - reflexivity.
Defined.

Lemma worker_bus_traffic_witness :
  exists p' txqfs k,
    tcan4550_tx_work_handler two_queued = Some p'
    /\ txqfs = fst (spi_read32 (spi two_queued) TXQFS)
    /\ k = Z.min (tx_msgsToTransmit txqfs) (queue_count two_queued)
    /\ issued (spi two_queued) (spi p')
       = (if k =? 0 then [read32_request TXQFS]
          else [read32_request TXQFS;
                write_msgs_request (MRAM_BASE + TX_FIFO_START_ADDRESS
                                    + tx_writeIndex txqfs * TX_SLOT_SIZE) k (txBuffer p');
                write32_request TXBAR (2 ^ tx_writeIndex txqfs * (2 ^ k - 1))])
    /\ writes_to TXBAR (issued (spi two_queued) (spi p'))
       = (if k =? 0 then [] else [2 ^ tx_writeIndex txqfs * (2 ^ k - 1)]).
Proof.
  apply (worker_bus_traffic two_queued (fixed_bus [0; 0; 0; 0; 0; 3; 0; 5])).
  - reflexivity.
  - unfold ring_ok. vm_compute. repeat split; congruence.
  - two_queued_filled.
  - unfold buffers_ok. repeat split; reflexivity.
Defined.

(** ** The software ring across the entry points *)

Lemma ring_inv_ext (p p' : tcan4550_priv) :
  tx_head p' = tx_head p -> tx_tail p' = tx_tail p -> tx_skb_buf p' = tx_skb_buf p ->
  txBuffer p' = txBuffer p ->
  ring_inv p -> ring_inv p'.
Proof.
  intros Hh Ht Hs Hb (Hok & Hfill & Hlen).
  unfold ring_inv, ring_ok, ring_filled, queue_count in *.
  rewrite Hh, Ht, Hs, Hb. tauto.
Qed.

Lemma ring_inv_reset (p p' : tcan4550_priv) :
  tx_head p' = 0 -> tx_tail p' = 0 -> tx_skb_buf p' = tx_skb_buf p ->
  txBuffer p' = txBuffer p ->
  ring_inv p -> ring_inv p'.
Proof.
  intros Hh Ht Hs Hb ((_ & _ & Hl) & _ & Hlen).
  unfold ring_inv, ring_ok, ring_filled, queue_count.
  rewrite Hh, Ht, Hs, Hb. unfold TX_BUFFER_SIZE in *.
  split; [lia |]. split; [| exact Hlen].
  intros j Hj. change ((0 - 0) mod (16 + 1)) with 0 in Hj. lia.
Qed.

Lemma tcan_start_xmit_keeps_ring (skb : sk_buff) (p : tcan4550_priv) :
  ring_inv p -> ring_inv (snd (tcan_start_xmit skb p)).
Proof.
  intros Hinv. pose proof Hinv as (Hok & Hfill & Hlen).
  unfold tcan_start_xmit. destruct (skb_invalid skb) eqn:Ev; [exact Hinv |].
  pose proof Hok as (Hh & Ht & Hs).
  rewrite (tmpHead_next (tx_head p) Hh).
  assert (Hu : u32 (tx_tail p) = tx_tail p).
  { unfold u32, TX_BUFFER_SIZE in *. apply Z.mod_small. change (2 ^ 32) with 4294967296. lia. }
  rewrite Hu.
  destruct (Z.eqb_spec (next_index (tx_head p)) (tx_tail p)) as [E | N].
  - cbn [snd]. apply (ring_inv_ext p); try reflexivity. exact Hinv.
  - cbn [snd]. unfold ring_inv, ring_ok, ring_filled, queue_count.
    cbn [set_ring tx_head tx_tail tx_skb_buf txBuffer].
    rewrite length_insert. unfold next_index, TX_BUFFER_SIZE in *.
    split; [split; [apply Z.mod_pos_bound; lia | tauto] |]. split; [| exact Hlen].
    intros j Hj.
    destruct (Z.eq_dec ((tx_tail p + j) mod (16 + 1)) (tx_head p)) as [E | Hne].
    + rewrite E. exists skb. apply list_lookup_insert_eq. lia.
    + rewrite list_lookup_insert_ne.
      * apply Hfill. unfold queue_count, TX_BUFFER_SIZE.
        revert Hj Hne N. Z.div_mod_to_equations. lia.
      * intros C. apply Hne. pose proof (Z.mod_pos_bound (tx_tail p + j) (16 + 1)). lia.
Qed.

Lemma worker_keeps_ring (p : tcan4550_priv) :
  ring_inv p -> exists p', tcan4550_tx_work_handler p = Some p' /\ ring_inv p'.
Proof.
  intros (Hok & Hfill & Hlen).
  destruct (worker_effect p Hok Hfill Hlen)
    as (p' & k & R & Hk & H1 & H2 & H3 & _ & _ & _ & _ & L & _).
  exists p'. split; [exact R |].
  pose proof (tx_msgsToTransmit_bounds (fst (spi_read32 (spi p) TXQFS))) as (Hwin & _).
  pose proof (queue_count_range p) as Hq.
  pose proof Hok as (Hh & Ht & Hs).
  assert (Hok' : ring_ok p').
  { unfold ring_ok. rewrite H1, H2, H3. split; [exact Hh |]. split; [| exact Hs].
    unfold TX_BUFFER_SIZE. apply Z.mod_pos_bound. lia. }
  split; [exact Hok' |]. split; [| congruence].
  intros j Hj.
  assert (Hc : queue_count p' = queue_count p - k).
  { unfold queue_count in *. rewrite H1, H2. unfold TX_BUFFER_SIZE in *.
    Z.div_mod_to_equations. lia. }
  destruct (Hfill (k + j)) as (skb & Hskb); [lia |].
  exists skb. rewrite H3, H2, <- Hskb. do 2 f_equal.
  unfold TX_BUFFER_SIZE. rewrite Zplus_mod_idemp_l. f_equal. lia.
Qed.

Lemma spi_read_msgs_ring (p : tcan4550_priv) (address msgs : Z) (out : list Z) :
  tx_head (snd (fst (spi_read_msgs p address msgs out))) = tx_head p
  /\ tx_tail (snd (fst (spi_read_msgs p address msgs out))) = tx_tail p
  /\ tx_skb_buf (snd (fst (spi_read_msgs p address msgs out))) = tx_skb_buf p
  /\ txBuffer (snd (fst (spi_read_msgs p address msgs out))) = txBuffer p
  /\ can (snd (fst (spi_read_msgs p address msgs out))) = can p
  /\ ndev (snd (fst (spi_read_msgs p address msgs out))) = ndev p.
Proof.
  unfold spi_read_msgs. destruct (MAX_BURST_RX_MESSAGES <? msgs); [cbn; tauto |].
  destruct (spi_transfer _ _ _ _) as [[ret s'] rxb]. cbn. tauto.
Qed.

Lemma rx_deliver_all_ring (l : list Z) (p : tcan4550_priv) :
  tx_head (fold_left rx_deliver l p) = tx_head p
  /\ tx_tail (fold_left rx_deliver l p) = tx_tail p
  /\ tx_skb_buf (fold_left rx_deliver l p) = tx_skb_buf p
  /\ txBuffer (fold_left rx_deliver l p) = txBuffer p
  /\ can (fold_left rx_deliver l p) = can p.
Proof. rewrite rx_deliver_all_frame. cbn. tauto. Qed.

Lemma recMsgs_ring (p : tcan4550_priv) :
  tx_head (snd (tcan4550_recMsgs p)) = tx_head p
  /\ tx_tail (snd (tcan4550_recMsgs p)) = tx_tail p
  /\ tx_skb_buf (snd (tcan4550_recMsgs p)) = tx_skb_buf p
  /\ txBuffer (snd (tcan4550_recMsgs p)) = txBuffer p
  /\ can (snd (tcan4550_recMsgs p)) = can p.
Proof.
  unfold tcan4550_recMsgs. destruct (spi_read32 (spi p) RXF0S) as [rxf0s s1].
  destruct (rx_fillLevel rxf0s =? 0); [cbn; tauto |].
  match goal with
  | |- context [spi_read_msgs ?a ?b ?c ?e] =>
      pose proof (spi_read_msgs_ring a b c e) as (R1 & R2 & R3 & R4 & R5 & _);
      destruct (spi_read_msgs a b c e) as [[ret q] rxb]
  end.
  cbn [fst snd set_spi tx_head tx_tail tx_skb_buf txBuffer can] in R1, R2, R3, R4, R5.
  destruct (spi_write32 _ _ _) as [ret2 s2]. cbn [snd].
  match goal with
  | |- context [fold_left rx_deliver ?l ?a] =>
      pose proof (rx_deliver_all_ring l a) as (D1 & D2 & D3 & D4 & D5)
  end.
  rewrite D1, D2, D3, D4, D5. cbn [set_spi set_rxBuffer tx_head tx_tail tx_skb_buf txBuffer can].
  tauto.
Qed.

Lemma handle_bus_off_ring (p : tcan4550_priv) :
  tx_head (handle_bus_off p) = tx_head p
  /\ tx_tail (handle_bus_off p) = tx_tail p
  /\ tx_skb_buf (handle_bus_off p) = tx_skb_buf p
  /\ txBuffer (handle_bus_off p) = txBuffer p.
Proof.
  unfold handle_bus_off. destruct (spi_write32 _ _ _) as [ret s].
  unfold alloc_skb. cbn. tauto.
Qed.

Lemma handleInterrupts_ring (p : tcan4550_priv) :
  tx_head (snd (tcan4450_handleInterrupts p)) = tx_head p
  /\ tx_tail (snd (tcan4450_handleInterrupts p)) = tx_tail p
  /\ tx_skb_buf (snd (tcan4450_handleInterrupts p)) = tx_skb_buf p
  /\ txBuffer (snd (tcan4450_handleInterrupts p)) = txBuffer p.
Proof.
  unfold tcan4450_handleInterrupts. destruct (spi_read32 (spi p) IR) as [ir s1].
  destruct (spi_write32 s1 IR ir) as [ret s2].
  destruct (ir =? 0); [cbn; tauto |]. cbn [snd].
  destruct (bit_set ir EP), (bit_set ir EW); cbn [set_can tx_head tx_tail tx_skb_buf txBuffer];
    (destruct (bit_set ir BO);
     [ match goal with
       | |- context [handle_bus_off ?a] =>
           pose proof (handle_bus_off_ring a) as (B1 & B2 & B3 & B4); rewrite B1, B2, B3, B4
       end | ];
     destruct (bit_set ir TFE); cbn [set_ndev tx_head tx_tail tx_skb_buf txBuffer];
     (destruct (bit_set ir RF0N);
      [ pose proof (recMsgs_ring (set_spi p s2)) as (R1 & R2 & R3 & R4 & _);
        rewrite R1, R2, R3, R4 | ]; cbn; tauto)).
Qed.

Lemma tcan4550_init_ring (p : tcan4550_priv) (reg : Z) :
  fst (tcan4550_init p reg) = true
  /\ tx_head (snd (tcan4550_init p reg)) = tx_head p
  /\ tx_tail (snd (tcan4550_init p reg)) = tx_tail p
  /\ tx_skb_buf (snd (tcan4550_init p reg)) = tx_skb_buf p
  /\ txBuffer (snd (tcan4550_init p reg)) = txBuffer p
  /\ can (snd (tcan4550_init p reg)) = can p
  /\ ndev (snd (tcan4550_init p reg)) = ndev p.
Proof. rewrite tcan4550_init_frame. cbn. tauto. Qed.

Lemma set_mode_keeps_ring (p : tcan4550_priv) (mode : can_mode) :
  ring_inv p -> ring_inv (snd (tcan4550_set_mode p mode)).
Proof.
  intros Hinv. destruct mode; try exact Hinv.
  unfold tcan4550_set_mode.
  match goal with
  | |- context [tcan4550_init ?a ?b] =>
      pose proof (tcan4550_init_ring a b) as (I0 & I1 & I2 & I3 & I4 & _);
      destruct (tcan4550_init a b) as [ok q]
  end.
  cbn [fst snd set_can set_ring tx_head tx_tail tx_skb_buf txBuffer] in I0, I1, I2, I3, I4.
  subst ok. cbn [snd].
  apply (ring_inv_reset p); assumption.
Qed.

Lemma tcan_open_keeps_ring (p p' : tcan4550_priv) (open_err irq_err r : Z) :
  tcan_open p open_err irq_err = Some (r, p') -> ring_inv p -> ring_inv p'.
Proof.
  unfold tcan_open. intros Hrun Hinv.
  destruct (open_err =? 0); cbn [negb] in Hrun; [| injection Hrun as _ <-; exact Hinv].
  pose proof (tcan4550_init_ring p (bitRateReg (bittiming (can p))))
    as (I0 & I1 & I2 & I3 & I4 & _).
  destruct (tcan4550_init p (bitRateReg (bittiming (can p)))) as [ok q].
  cbn [fst snd] in I0, I1, I2, I3, I4. subst ok. cbn [negb] in Hrun.
  destruct (spi q); [| discriminate].
  destruct (irq_err =? 0); cbn [negb] in Hrun; injection Hrun as _ <-.
  - apply (ring_inv_reset p); try assumption; reflexivity.
  - apply (ring_inv_ext p); assumption.
Qed.

Lemma tcan_close_keeps_ring (p p' : tcan4550_priv) (r : Z) :
  tcan_close p = Some (r, p') -> ring_inv p -> ring_inv p'.
Proof.
  unfold tcan_close. intros Hrun Hinv.
  destruct (spi (set_can _ _)); [| discriminate]. injection Hrun as _ <-.
  apply (ring_inv_ext p); try reflexivity. exact Hinv.
Qed.

Lemma driver_step_keeps_ring (p p' : tcan4550_priv) :
  driver_step p p' -> ring_inv p -> ring_inv p'.
Proof.
  intros Hstep Hinv. destruct Hstep.
  - apply tcan_start_xmit_keeps_ring; exact Hinv.
  - destruct (worker_keeps_ring p Hinv) as (q & Hq & Hinv'). congruence.
  - pose proof (handleInterrupts_ring p) as (H1 & H2 & H3 & H4).
    apply (ring_inv_ext p); assumption.
  - apply set_mode_keeps_ring; exact Hinv.
  - eapply tcan_open_keeps_ring; eassumption.
  - eapply tcan_close_keeps_ring; eassumption.
Qed.

(** X15: in every state the driver gets to from one whose queued slots are
    filled, the worker completes its pass: it never follows an empty slot of
    [tx_skb_buf], and the ring stays well formed with every queued slot
    filled. *)
Theorem worker_never_takes_empty_slot (p0 p : tcan4550_priv) :
  ring_inv p0 -> reachable p0 p ->
  ring_inv p /\ 0 <= queue_count p <= 16
  /\ exists p', tcan4550_tx_work_handler p = Some p'.
Proof.
  intros H0 Hreach.
  assert (Hinv : ring_inv p).
  { induction Hreach as [| p p' _ IH Hstep]; [exact H0 |].
    exact (driver_step_keeps_ring p p' Hstep IH). }
  split; [exact Hinv |]. split.
  - pose proof (queue_count_range p). unfold TX_BUFFER_SIZE in *. lia.
  - destruct (worker_keeps_ring p Hinv) as (p' & Hrun & _). exists p'. exact Hrun.
Qed.

Lemma worker_never_takes_empty_slot_witness :
  ring_inv two_queued /\ 0 <= queue_count two_queued <= 16
  /\ exists p', tcan4550_tx_work_handler two_queued = Some p'.
Proof.
  apply (worker_never_takes_empty_slot
           (fresh_priv (fixed_bus [0; 0; 0; 0; 0; 3; 0; 5]) (fun _ => true)) two_queued).
  - unfold ring_inv, ring_ok. split; [vm_compute; repeat split; congruence |].
    split; [| reflexivity].
    intros j Hj. change (queue_count (fresh_priv _ _)) with 0 in Hj. lia.
  - exact (reach_step _ _ _
             (reach_step _ _ _ (reach_init _) (step_xmit sample_skb _))
             (step_xmit rtr_skb _)).
Defined.

(** ** Chip set-up: what goes over the bus *)

Lemma spi_read32_word (s : option spi_device) (address : Z) :
  is_word (fst (spi_read32 s address)).
Proof.
  unfold spi_read32. destruct (spi_transfer _ _ _ _) as [[ret s'] rxb]. cbn [fst].
  unfold is_word, u32. apply Z.mod_pos_bound. lia.
Qed.

Lemma land_word (a b : Z) : is_word (Z.land a (u32 b)).
Proof.
  unfold is_word, u32. rewrite <- Z.land_ones by lia. rewrite Z.land_assoc.
  rewrite Z.land_ones by lia. apply Z.mod_pos_bound. lia.
Qed.

Lemma set_standby_mode_some (d : spi_device) :
  exists d',
    tcan4550_set_standby_mode (Some d) = Some d'
    /\ spi_sent d'
       = spi_sent d
         ++ [read32_request MODES_OF_OPERATION;
             write32_request MODES_OF_OPERATION
               (standby_word (fst (spi_read32 (Some d) MODES_OF_OPERATION)))]
    /\ spi_reply d' = spi_reply d.
Proof.
  unfold tcan4550_set_standby_mode.
  destruct (spi_read32_some d MODES_OF_OPERATION) as (val & d1 & R1 & S1 & P1).
  rewrite R1. cbn [fst].
  destruct (spi_write32_some d1 MODES_OF_OPERATION (standby_word val))
    as (ret & d2 & R2 & S2 & P2).
  unfold standby_word in R2 |- *. rewrite R2. cbn [snd]. exists d2.
  split; [reflexivity |]. split; [| congruence].
  rewrite S2, S1, <- app_assoc. reflexivity.
Qed.

Lemma set_normal_mode_some (d : spi_device) :
  exists d',
    tcan4550_set_normal_mode (Some d) = Some d'
    /\ spi_sent d'
       = spi_sent d
         ++ [read32_request MODES_OF_OPERATION;
             write32_request MODES_OF_OPERATION
               (normal_word (fst (spi_read32 (Some d) MODES_OF_OPERATION)))]
    /\ spi_reply d' = spi_reply d.
Proof.
  unfold tcan4550_set_normal_mode.
  destruct (spi_read32_some d MODES_OF_OPERATION) as (val & d1 & R1 & S1 & P1).
  rewrite R1. cbn [fst].
  destruct (spi_write32_some d1 MODES_OF_OPERATION (normal_word val))
    as (ret & d2 & R2 & S2 & P2).
  unfold normal_word in R2 |- *. rewrite R2. cbn [snd]. exists d2.
  split; [reflexivity |]. split; [| congruence].
  rewrite S2, S1, <- app_assoc. reflexivity.
Qed.

Lemma unlock_some (d : spi_device) :
  exists d',
    tcan4550_unlock (Some d) = Some d'
    /\ spi_sent d'
       = spi_sent d
         ++ [read32_request CCCR;
             write32_request CCCR (unlock_word (fst (spi_read32 (Some d) CCCR)))]
    /\ spi_reply d' = spi_reply d.
Proof.
  unfold tcan4550_unlock.
  destruct (spi_read32_some d CCCR) as (val & d1 & R1 & S1 & P1).
  rewrite R1. cbn [fst].
  destruct (spi_write32_some d1 CCCR (unlock_word val)) as (ret & d2 & R2 & S2 & P2).
  unfold unlock_word in R2 |- *. rewrite R2. cbn [snd]. exists d2.
  split; [reflexivity |]. split; [| congruence].
  rewrite S2, S1, <- app_assoc. reflexivity.
Qed.

Lemma write_all_some (f : Z -> Z) (v : Z) (l : list Z) :
  forall d : spi_device,
    exists d',
      fold_left (fun s i => snd (spi_write32 s (f i) v)) l (Some d) = Some d'
      /\ spi_sent d' = spi_sent d ++ map (fun i => write32_request (f i) v) l
      /\ spi_reply d' = spi_reply d.
Proof.
  induction l as [| i l IH]; intros d.
  - exists d. cbn. rewrite app_nil_r. auto.
  - cbn [fold_left map].
    destruct (spi_write32_some d (f i) v) as (ret & d1 & R1 & S1 & P1).
    rewrite R1. cbn [snd]. destruct (IH d1) as (d' & R & S & P).
    exists d'. split; [exact R |]. split; [| congruence].
    rewrite S, S1, <- app_assoc. reflexivity.
Qed.

Lemma configure_mram_some (d : spi_device) :
  exists d',
    tcan4550_configure_mram (Some d) = Some d'
    /\ spi_sent d' = spi_sent d ++ mram_requests
    /\ spi_reply d' = spi_reply d.
Proof.
  unfold tcan4550_configure_mram.
  destruct (write_all_some (fun i => u32 (MRAM_BASE + i * 4)) 0 (iterations MRAM_SIZE_WORDS) d)
    as (d0 & R0 & S0 & P0).
  rewrite R0.
  destruct (spi_write32_some d0 TXBC (u32 (TX_FIFO_START_ADDRESS + Z.shiftl TX_MSG_BOXES 24)))
    as (r1 & d1 & R1 & S1 & P1). rewrite R1. cbn [snd].
  destruct (spi_write32_some d1 RXF0C (u32 (RX_FIFO_START_ADDRESS + Z.shiftl RX_MSG_BOXES 16)))
    as (r2 & d2 & R2 & S2 & P2). rewrite R2. cbn [snd].
  destruct (spi_write32_some d2 TXESC 0) as (r3 & d3 & R3 & S3 & P3). rewrite R3. cbn [snd].
  destruct (spi_write32_some d3 RXESC 0) as (r4 & d4 & R4 & S4 & P4). rewrite R4. cbn [snd].
  exists d4. split; [reflexivity |]. split; [| congruence].
  rewrite S4, S3, S2, S1, S0. unfold mram_requests. rewrite <- !app_assoc. reflexivity.
Qed.

Lemma setupInterrupts_some (d : spi_device) :
  exists d',
    tcan4550_setupInterrupts (Some d) = Some d'
    /\ spi_sent d' = spi_sent d ++ interrupt_requests
    /\ spi_reply d' = spi_reply d.
Proof.
  unfold tcan4550_setupInterrupts.
  destruct (spi_write32_some d IE (u32 (RF0N + TFE + BO + EW + EP)))
    as (r1 & d1 & R1 & S1 & P1). rewrite R1. cbn [snd].
  destruct (spi_write32_some d1 ILE 0x1) as (r2 & d2 & R2 & S2 & P2). rewrite R2. cbn [snd].
  destruct (spi_write32_some d2 SPI_MASK 0xFFFFFFFF) as (r3 & d3 & R3 & S3 & P3).
  rewrite R3. cbn [snd].
  destruct (spi_write32_some d3 STATUS 0xFFFFFFFF) as (r4 & d4 & R4 & S4 & P4).
  rewrite R4. cbn [snd].
  destruct (spi_write32_some d4 INTERRUPT_FLAGS 0xFFFFFFFF) as (r5 & d5 & R5 & S5 & P5).
  rewrite R5. cbn [snd].
  destruct (spi_write32_some d5 INTERRUPT_ENABLE 0) as (r6 & d6 & R6 & S6 & P6).
  rewrite R6. cbn [snd].
  exists d6. split; [reflexivity |]. split; [| congruence].
  rewrite S6, S5, S4, S3, S2, S1. unfold interrupt_requests. rewrite <- !app_assoc. reflexivity.
Qed.

Lemma writes_to_cons (address : Z) (r r' : list Z) (l : list (list Z)) :
  writes_to address (r :: r' :: l) = writes_to address [r] ++ writes_to address (r' :: l).
Proof. unfold writes_to. cbn [flat_map]. rewrite app_nil_r. reflexivity. Qed.

Lemma writes_to_read32 (address other : Z) : writes_to address [read32_request other] = [].
Proof. unfold read32_request. apply writes_to_read_opcode. Qed.

Lemma writes_to_write_all (address v : Z) (f : Z -> Z) (l : list Z) :
  0 <= address < 2 ^ 16 ->
  (forall i, In i l -> 0 <= f i < 2 ^ 16 /\ f i <> address) ->
  writes_to address (map (fun i => write32_request (f i) v) l) = [].
Proof.
  intros Ha Hl. induction l as [| i l IH]; [reflexivity |].
  cbn [map]. change (write32_request (f i) v :: ?t) with ([write32_request (f i) v] ++ t).
  rewrite writes_to_app, IH by (intros j Hj; apply Hl; right; exact Hj).
  destruct (Hl i (or_introl eq_refl)) as (Hr & Hne).
  rewrite writes_to_write32_other by (lia || congruence). reflexivity.
Qed.

Lemma In_iterations (n i : Z) : In i (iterations n) -> 0 <= i < n.
Proof.
  unfold iterations. rewrite in_map_iff. intros (k & <- & Hk). apply in_seq in Hk. lia.
Qed.

Lemma testbit_word_high (w i : Z) : is_word w -> 32 <= i -> Z.testbit w i = false.
Proof.
  unfold is_word. intros Hw Hi.
  rewrite <- (Z.mod_small w (2 ^ 32)) by lia. apply Z.mod_pow2_bits_high. lia.
Qed.

(** Clearing bit [c] of a 32-bit value, as the set-up functions do. *)
Lemma clear_bit (x c i : Z) :
  0 <= i -> 0 <= c ->
  Z.testbit (Z.land x (u32 (Z.lnot (2 ^ c)))) i = Z.testbit x i && (i <? 32) && negb (i =? c).
Proof.
  intros Hi Hc. rewrite Z.land_spec. unfold u32.
  destruct (Z.ltb_spec i 32) as [Hlt | Hge].
  - rewrite Z.mod_pow2_bits_low by lia. rewrite Z.lnot_spec by lia.
    rewrite Z.pow2_bits_eqb by lia. rewrite (Z.eqb_sym c i). rewrite andb_true_r. reflexivity.
  - rewrite Z.mod_pow2_bits_high by lia. rewrite !andb_false_r. reflexivity.
Qed.

Lemma set_clear_bits (val s c i : Z) :
  0 <= i -> 0 <= c ->
  Z.testbit (Z.land (Z.lor val s) (u32 (Z.lnot (2 ^ c)))) i
  = (Z.testbit val i || Z.testbit s i) && (i <? 32) && negb (i =? c).
Proof. intros Hi Hc. rewrite clear_bit by lia. rewrite Z.lor_spec. reflexivity. Qed.

(** ** Mode selection and unlock: the bits written *)

(** X16: the mode-select functions read the mode register and write it back with
    the two select bits set to 01 (standby) or 10 (normal); every other bit
    of the 32-bit value is written back as read. *)
Theorem mode_select_bits (d : spi_device) (i : Z) :
  0 <= i < 32 ->
  issued (Some d) (tcan4550_set_standby_mode (Some d))
  = [read32_request MODES_OF_OPERATION;
     write32_request MODES_OF_OPERATION
       (standby_word (fst (spi_read32 (Some d) MODES_OF_OPERATION)))]
  /\ issued (Some d) (tcan4550_set_normal_mode (Some d))
     = [read32_request MODES_OF_OPERATION;
        write32_request MODES_OF_OPERATION
          (normal_word (fst (spi_read32 (Some d) MODES_OF_OPERATION)))]
  /\ Z.testbit (standby_word (fst (spi_read32 (Some d) MODES_OF_OPERATION))) i
     = (if i =? 6 then true else if i =? 7 then false
        else Z.testbit (fst (spi_read32 (Some d) MODES_OF_OPERATION)) i)
  /\ Z.testbit (normal_word (fst (spi_read32 (Some d) MODES_OF_OPERATION))) i
     = (if i =? 7 then true else if i =? 6 then false
        else Z.testbit (fst (spi_read32 (Some d) MODES_OF_OPERATION)) i).
Proof.
  intros Hi.
  destruct (set_standby_mode_some d) as (d1 & R1 & S1 & _).
  destruct (set_normal_mode_some d) as (d2 & R2 & S2 & _).
  rewrite R1, R2. unfold issued. cbn [sent]. rewrite S1, S2, !drop_app_length.
  split; [reflexivity |]. split; [reflexivity |].
  unfold standby_word, normal_word, MODESEL_1, MODESEL_2.
  change 0x40 with (2 ^ 6). change 0x80 with (2 ^ 7).
  rewrite !set_clear_bits by lia. rewrite !Z.pow2_bits_eqb by lia.
  destruct (Z.ltb_spec i 32); [| lia].
  destruct (Z.eqb_spec i 6) as [-> | N6].
  { cbn. rewrite orb_true_r, andb_false_r. split; reflexivity. }
  destruct (Z.eqb_spec i 7) as [-> | N7].
  { cbn. rewrite orb_true_r, andb_false_r. split; reflexivity. }
  destruct (Z.eqb_spec 6 i); [lia |]. destruct (Z.eqb_spec 7 i); [lia |].
  cbn [negb]. rewrite !orb_false_r, !andb_true_r. split; reflexivity.
Qed.

Lemma mode_select_bits_witness :
  issued (Some (steady_bus 0xC8)) (tcan4550_set_standby_mode (Some (steady_bus 0xC8)))
  = [read32_request MODES_OF_OPERATION;
     write32_request MODES_OF_OPERATION
       (standby_word (fst (spi_read32 (Some (steady_bus 0xC8)) MODES_OF_OPERATION)))]
  /\ issued (Some (steady_bus 0xC8)) (tcan4550_set_normal_mode (Some (steady_bus 0xC8)))
     = [read32_request MODES_OF_OPERATION;
        write32_request MODES_OF_OPERATION
          (normal_word (fst (spi_read32 (Some (steady_bus 0xC8)) MODES_OF_OPERATION)))]
  /\ Z.testbit (standby_word (fst (spi_read32 (Some (steady_bus 0xC8)) MODES_OF_OPERATION))) 7
     = (if 7 =? 6 then true else if 7 =? 7 then false
        else Z.testbit (fst (spi_read32 (Some (steady_bus 0xC8)) MODES_OF_OPERATION)) 7)
  /\ Z.testbit (normal_word (fst (spi_read32 (Some (steady_bus 0xC8)) MODES_OF_OPERATION))) 7
     = (if 7 =? 7 then true else if 7 =? 6 then false
        else Z.testbit (fst (spi_read32 (Some (steady_bus 0xC8)) MODES_OF_OPERATION)) 7).
Proof. apply (mode_select_bits (steady_bus 0xC8) 7). lia. Defined.

(** X17: [tcan4550_unlock] reads the control register and writes it back with
    INIT and CCE set and the clock-stop request cleared; every other bit of
    the 32-bit value is written back as read. *)
Theorem unlock_bits (d : spi_device) (i : Z) :
  0 <= i < 32 ->
  issued (Some d) (tcan4550_unlock (Some d))
  = [read32_request CCCR;
     write32_request CCCR (unlock_word (fst (spi_read32 (Some d) CCCR)))]
  /\ Z.testbit (unlock_word (fst (spi_read32 (Some d) CCCR))) i
     = (if (i =? 0) || (i =? 1) then true else if i =? 4 then false
        else Z.testbit (fst (spi_read32 (Some d) CCCR)) i).
Proof.
  intros Hi.
  destruct (unlock_some d) as (d1 & R1 & S1 & _).
  rewrite R1. unfold issued. cbn [sent]. rewrite S1, !drop_app_length.
  split; [reflexivity |].
  unfold unlock_word, CCE, INIT, CSR. change 0x10 with (2 ^ 4).
  rewrite set_clear_bits by lia.
  destruct (Z.ltb_spec i 32); [| lia].
  destruct (Z.eqb_spec i 0) as [-> | N0]; [rewrite orb_true_r; reflexivity |].
  destruct (Z.eqb_spec i 1) as [-> | N1]; [rewrite orb_true_r; reflexivity |].
  destruct (Z.eqb_spec i 4) as [-> | N4]; [rewrite andb_false_r; reflexivity |].
  cbn [orb negb]. rewrite !andb_true_r.
  replace (Z.testbit (0x2 + 0x1) i) with false; [apply orb_false_r |].
  change (0x2 + 0x1) with 3. symmetry.
  rewrite <- (Z.mod_small 3 (2 ^ 2)) by lia. apply Z.mod_pow2_bits_high. lia.
Qed.

Lemma unlock_bits_witness :
  issued (Some (steady_bus 0x19)) (tcan4550_unlock (Some (steady_bus 0x19)))
  = [read32_request CCCR;
     write32_request CCCR (unlock_word (fst (spi_read32 (Some (steady_bus 0x19)) CCCR)))]
  /\ Z.testbit (unlock_word (fst (spi_read32 (Some (steady_bus 0x19)) CCCR))) 4
     = (if (4 =? 0) || (4 =? 1) then true else if 4 =? 4 then false
        else Z.testbit (fst (spi_read32 (Some (steady_bus 0x19)) CCCR)) 4).
Proof. apply (unlock_bits (steady_bus 0x19) 4). lia. Defined.

Lemma configureControlModes_some (p : tcan4550_priv) (d : spi_device) :
  spi p = Some d ->
  exists d' cccr test,
    spi (tcan4550_configureControlModes p) = Some d'
    /\ cccr = fst (spi_read32 (Some d) CCCR)
    /\ test = fst (spi_read32 (snd (spi_read32 (Some d) CCCR)) TEST)
    /\ spi_sent d'
       = spi_sent d
         ++ [read32_request CCCR; read32_request TEST;
             write32_request CCCR (control_cccr (ctrlmode (can p)) cccr);
             write32_request TEST (control_test (ctrlmode (can p)) test)]
    /\ spi_reply d' = spi_reply d.
Proof.
  intros Hspi. unfold tcan4550_configureControlModes. rewrite Hspi.
  destruct (spi_read32_some d CCCR) as (cccr & d1 & R1 & S1 & P1). rewrite R1. cbn [fst snd].
  destruct (spi_read32_some d1 TEST) as (test & d2 & R2 & S2 & P2). rewrite R2. cbn [fst].
  destruct (spi_write32_some d2 CCCR (control_cccr (ctrlmode (can p)) cccr))
    as (r3 & d3 & R3 & S3 & P3).
  destruct (spi_write32_some d3 TEST (control_test (ctrlmode (can p)) test))
    as (r4 & d4 & R4 & S4 & P4).
  exists d4, cccr, test.
  unfold control_cccr, control_test in R3, R4.
  destruct (bit_set (ctrlmode (can p)) CAN_CTRLMODE_LOOPBACK);
    rewrite R3; cbn [snd]; rewrite R4; cbn [snd set_spi spi];
    (split; [reflexivity |]); (split; [reflexivity |]); (split; [reflexivity |]);
    (split; [| congruence]);
    rewrite S4, S3, S2, S1, <- !app_assoc; reflexivity.
Qed.

Lemma shiftl_1 (k : Z) : 0 <= k -> Z.shiftl 1 k = 2 ^ k.
Proof. intros Hk. rewrite Z.shiftl_mul_pow2 by lia. lia. Qed.

(** X18: [tcan4550_configureControlModes] reads CCCR and TEST and writes both
    back: loop-back sets bits 7 and 5 of CCCR and bit 4 of TEST, listen-only
    bit 5 and one-shot bit 6 of CCCR; bit 4 of CCCR (clock stop request) is
    written as 0 whatever was read; every other bit is written back as
    read. *)
Theorem control_mode_bits (p : tcan4550_priv) (d : spi_device) (i : Z) :
  spi p = Some d -> 0 <= i < 32 ->
  exists cccr test,
    cccr = fst (spi_read32 (Some d) CCCR)
    /\ test = fst (spi_read32 (snd (spi_read32 (Some d) CCCR)) TEST)
    /\ issued (spi p) (spi (tcan4550_configureControlModes p))
       = [read32_request CCCR; read32_request TEST;
          write32_request CCCR (control_cccr (ctrlmode (can p)) cccr);
          write32_request TEST (control_test (ctrlmode (can p)) test)]
    /\ Z.testbit (control_cccr (ctrlmode (can p)) cccr) i
       = (if i =? 4 then false
          else Z.testbit cccr i
               || ((i =? 7) && bit_set (ctrlmode (can p)) CAN_CTRLMODE_LOOPBACK)
               || ((i =? 5) && (bit_set (ctrlmode (can p)) CAN_CTRLMODE_LOOPBACK
                                || bit_set (ctrlmode (can p)) CAN_CTRLMODE_LISTENONLY))
               || ((i =? 6) && bit_set (ctrlmode (can p)) CAN_CTRLMODE_ONE_SHOT))
    /\ Z.testbit (control_test (ctrlmode (can p)) test) i
       = Z.testbit test i || ((i =? 4) && bit_set (ctrlmode (can p)) CAN_CTRLMODE_LOOPBACK).
Proof.
  intros Hspi Hi.
  destruct (configureControlModes_some p d Hspi) as (d' & cccr & test & R & -> & -> & S & _).
  eexists. eexists. split; [reflexivity |]. split; [reflexivity |].
  split.
  { rewrite R, Hspi. unfold issued. cbn [sent]. rewrite S, drop_app_length. reflexivity. }
  unfold control_cccr, control_test. rewrite !shiftl_1 by lia.
  set (c := fst (spi_read32 (Some d) CCCR)).
  set (t := fst (spi_read32 (snd (spi_read32 (Some d) CCCR)) TEST)).
  split.
  - rewrite clear_bit by lia.
    destruct (Z.ltb_spec i 32); [| lia].
    destruct (bit_set (ctrlmode (can p)) CAN_CTRLMODE_LOOPBACK),
             (bit_set (ctrlmode (can p)) CAN_CTRLMODE_LISTENONLY),
             (bit_set (ctrlmode (can p)) CAN_CTRLMODE_ONE_SHOT);
      rewrite ?Z.lor_spec, ?Z.pow2_bits_eqb by lia;
      rewrite ?(Z.eqb_sym 7 i), ?(Z.eqb_sym 5 i), ?(Z.eqb_sym 6 i);
      destruct (Z.eqb_spec i 4) as [-> | N4];
      try (rewrite andb_false_r; reflexivity);
      destruct (Z.testbit c i), (i =? 7), (i =? 5), (i =? 6); reflexivity.
  - destruct (bit_set (ctrlmode (can p)) CAN_CTRLMODE_LOOPBACK).
    + rewrite Z.lor_spec, Z.pow2_bits_eqb by lia. rewrite (Z.eqb_sym 4 i), andb_true_r.
      reflexivity.
    + rewrite andb_false_r, orb_false_r. reflexivity.
Qed.

Lemma control_mode_bits_witness :
  exists cccr test,
    cccr = fst (spi_read32 (Some (steady_bus 0x10)) CCCR)
    /\ test = fst (spi_read32 (snd (spi_read32 (Some (steady_bus 0x10)) CCCR)) TEST)
    /\ issued (spi loopback_priv) (spi (tcan4550_configureControlModes loopback_priv))
       = [read32_request CCCR; read32_request TEST;
          write32_request CCCR (control_cccr (ctrlmode (can loopback_priv)) cccr);
          write32_request TEST (control_test (ctrlmode (can loopback_priv)) test)]
    /\ Z.testbit (control_cccr (ctrlmode (can loopback_priv)) cccr) 4
       = (if 4 =? 4 then false
          else Z.testbit cccr 4
               || ((4 =? 7) && bit_set (ctrlmode (can loopback_priv)) CAN_CTRLMODE_LOOPBACK)
               || ((4 =? 5) && (bit_set (ctrlmode (can loopback_priv)) CAN_CTRLMODE_LOOPBACK
                                || bit_set (ctrlmode (can loopback_priv))
                                     CAN_CTRLMODE_LISTENONLY))
               || ((4 =? 6) && bit_set (ctrlmode (can loopback_priv)) CAN_CTRLMODE_ONE_SHOT))
    /\ Z.testbit (control_test (ctrlmode (can loopback_priv)) test) 4
       = Z.testbit test 4
         || ((4 =? 4) && bit_set (ctrlmode (can loopback_priv)) CAN_CTRLMODE_LOOPBACK).
Proof.
  apply (control_mode_bits loopback_priv (steady_bus 0x10) 4).
  - reflexivity.
  - lia.
Defined.

(** ** Message RAM *)

Lemma writes_to_mram_words (k : Z) (n : nat) :
  0 <= k -> (n <= 512)%nat ->
  writes_to (MRAM_BASE + k * 4)
    (map (fun i => write32_request (u32 (MRAM_BASE + i * 4)) 0) (iterations (Z.of_nat n)))
  = if k <? Z.of_nat n then [0] else [].
Proof.
  intros Hk. induction n as [| n IH]; intros Hn.
  - change (iterations (Z.of_nat 0)) with (@nil Z). change (Z.of_nat 0) with 0.
    destruct (Z.ltb_spec k 0); [lia | reflexivity].
  - rewrite iterations_S, map_app, writes_to_app, IH by lia. cbn [map].
    assert (Hu : u32 (MRAM_BASE + Z.of_nat n * 4) = MRAM_BASE + Z.of_nat n * 4).
    { unfold u32, MRAM_BASE. apply Z.mod_small. change (2 ^ 32) with 4294967296. lia. }
    rewrite Hu.
    destruct (Z.ltb_spec k (Z.of_nat n)), (Z.ltb_spec k (Z.of_nat (S n))); try lia.
    + rewrite writes_to_write32_other; [reflexivity | | | ]; unfold MRAM_BASE;
        change (2 ^ 16) with 65536; lia.
    + replace k with (Z.of_nat n) by lia.
      rewrite writes_to_write32; [reflexivity | | unfold is_word; lia].
      unfold MRAM_BASE. change (2 ^ 16) with 65536. lia.
    + destruct (Z.lt_ge_cases (MRAM_BASE + k * 4) (2 ^ 16)) as [Hin | Hout].
      * rewrite writes_to_write32_other; [reflexivity | | | ]; unfold MRAM_BASE in *;
          change (2 ^ 16) with 65536 in *; lia.
      * unfold writes_to, write32_request. cbn [flat_map].
        assert (Haddr : u8 (Z.shiftr (MRAM_BASE + Z.of_nat n * 4) 8) * 256
                        + u8 (Z.land (MRAM_BASE + Z.of_nat n * 4) 0xFF)
                        = MRAM_BASE + Z.of_nat n * 4).
        { unfold u8, MRAM_BASE. to_arith. rewrite !Z.mod_mod by lia.
          Z.div_mod_to_equations. lia. }
        rewrite Haddr.
        destruct (Z.eqb_spec (MRAM_BASE + Z.of_nat n * 4) (MRAM_BASE + k * 4)); [lia |].
        rewrite andb_false_r. reflexivity.
Qed.

(** X19: [tcan4550_configure_mram] writes 0 once to each of the 512 words of the
    message RAM, in ascending order, and only then sets up the two FIFOs: 32
    transmit elements from offset 0 and 32 receive elements from offset
    0x200, both with 8-byte payload. *)
Theorem configure_mram_clears_every_word (d : spi_device) (k : Z) :
  0 <= k < MRAM_SIZE_WORDS ->
  issued (Some d) (tcan4550_configure_mram (Some d)) = mram_requests
  /\ length mram_requests = 516%nat
  /\ mram_requests !! Z.to_nat k = Some (write32_request (MRAM_BASE + k * 4) 0)
  /\ writes_to (MRAM_BASE + k * 4) mram_requests = [0]
  /\ writes_to TXBC mram_requests = [0x20000000]
  /\ writes_to RXF0C mram_requests = [0x00200200]
  /\ writes_to TXESC mram_requests = [0]
  /\ writes_to RXESC mram_requests = [0].
Proof.
  intros Hk. unfold MRAM_SIZE_WORDS in Hk.
  destruct (configure_mram_some d) as (d' & R & S & _).
  rewrite R. unfold issued. cbn [sent]. rewrite S, drop_app_length.
  split; [reflexivity |]. split; [reflexivity |].
  split.
  { unfold mram_requests. rewrite lookup_app_l.
    - rewrite list_lookup_fmap. unfold iterations. rewrite list_lookup_fmap.
      rewrite lookup_seq_lt by (unfold MRAM_SIZE_WORDS; lia). cbn.
      rewrite Z2Nat.id by lia. do 2 f_equal.
      unfold u32, MRAM_BASE. apply Z.mod_small. change (2 ^ 32) with 4294967296. lia.
    - rewrite length_map. unfold iterations. rewrite length_map, length_seq.
      unfold MRAM_SIZE_WORDS. lia. }
  split.
  { unfold mram_requests. rewrite writes_to_app.
    change MRAM_SIZE_WORDS with (Z.of_nat 512).
    rewrite writes_to_mram_words by lia.
    destruct (Z.ltb_spec k (Z.of_nat 512)); [| lia].
    rewrite !writes_to_cons.
    rewrite !writes_to_write32_other; [reflexivity | | | | | | | | | | | | ];
      unfold MRAM_BASE, TXBC, RXF0C, TXESC, RXESC; change (2 ^ 16) with 65536; lia. }
  assert (Hclear : forall a, 0 <= a < MRAM_BASE ->
            writes_to a (map (fun i => write32_request (u32 (MRAM_BASE + i * 4)) 0)
                           (iterations MRAM_SIZE_WORDS)) = []).
  { intros a Ha. apply writes_to_write_all.
    - unfold MRAM_BASE in Ha. change (2 ^ 16) with 65536. lia.
    - intros i Hin. apply In_iterations in Hin. unfold MRAM_SIZE_WORDS in Hin.
      unfold u32, MRAM_BASE in *. rewrite Z.mod_small by (change (2 ^ 32) with 4294967296; lia).
      change (2 ^ 16) with 65536. lia. }
  unfold mram_requests. rewrite !writes_to_app, !Hclear by (unfold MRAM_BASE; cbv; split; congruence).
  rewrite !writes_to_cons. cbn [app].
  repeat split.
Qed.

Lemma configure_mram_clears_every_word_witness :
  issued (Some dead_bus) (tcan4550_configure_mram (Some dead_bus)) = mram_requests
  /\ length mram_requests = 516%nat
  /\ mram_requests !! Z.to_nat 511 = Some (write32_request (MRAM_BASE + 511 * 4) 0)
  /\ writes_to (MRAM_BASE + 511 * 4) mram_requests = [0]
  /\ writes_to TXBC mram_requests = [0x20000000]
  /\ writes_to RXF0C mram_requests = [0x00200200]
  /\ writes_to TXESC mram_requests = [0]
  /\ writes_to RXESC mram_requests = [0].
Proof. apply (configure_mram_clears_every_word dead_bus 511). unfold MRAM_SIZE_WORDS. lia. Defined.

(** ** The set-up sequence *)

Lemma tcan4550_init_some (p : tcan4550_priv) (d : spi_device) (reg : Z) :
  spi p = Some d ->
  exists d' m1 c1 c2 t m2,
    spi (snd (tcan4550_init p reg)) = Some d'
    /\ spi_sent d' = spi_sent d ++ init_requests reg (ctrlmode (can p)) m1 c1 c2 t m2
    /\ spi_reply d' = spi_reply d.
Proof.
  intros Hspi. unfold tcan4550_init. rewrite Hspi.
  destruct (set_standby_mode_some d) as (d1 & R1 & S1 & P1). rewrite R1.
  destruct (unlock_some d1) as (d2 & R2 & S2 & P2). rewrite R2.
  unfold tcan4550_setBitRate.
  destruct (spi_write32_some d2 NBTP reg) as (r3 & d3 & R3 & S3 & P3). rewrite R3. cbn [snd].
  destruct (configure_mram_some d3) as (d4 & R4 & S4 & P4). rewrite R4.
  destruct (configureControlModes_some (set_spi p (Some d4)) d4 eq_refl)
    as (d5 & c2 & t & R5 & _ & _ & S5 & P5).
  rewrite R5.
  destruct (setupInterrupts_some d5) as (d6 & R6 & S6 & P6). rewrite R6.
  destruct (set_normal_mode_some d6) as (d7 & R7 & S7 & P7). rewrite R7.
  cbn [set_spi spi].
  exists d7, (fst (spi_read32 (Some d) MODES_OF_OPERATION)), (fst (spi_read32 (Some d1) CCCR)),
    c2, t, (fst (spi_read32 (Some d6) MODES_OF_OPERATION)).
  split; [reflexivity |]. split; [| congruence].
  rewrite S7, S6, S5, S4, S3, S2, S1. unfold init_requests.
  cbn [set_spi can]. rewrite <- !app_assoc. reflexivity.
Qed.

Lemma writes_to_mram_low (address : Z) :
  0 <= address < MRAM_BASE ->
  writes_to address mram_requests
  = writes_to address
      [write32_request TXBC (u32 (TX_FIFO_START_ADDRESS + Z.shiftl TX_MSG_BOXES 24));
       write32_request RXF0C (u32 (RX_FIFO_START_ADDRESS + Z.shiftl RX_MSG_BOXES 16));
       write32_request TXESC 0;
       write32_request RXESC 0].
Proof.
  intros Ha. unfold mram_requests. rewrite writes_to_app.
  rewrite writes_to_write_all; [reflexivity | |].
  - unfold MRAM_BASE in Ha. change (2 ^ 16) with 65536. lia.
  - intros i Hin. apply In_iterations in Hin. unfold MRAM_SIZE_WORDS in Hin.
    unfold u32, MRAM_BASE in *. rewrite Z.mod_small by (change (2 ^ 32) with 4294967296; lia).
    change (2 ^ 16) with 65536. lia.
Qed.

Lemma standby_word_is_word (v : Z) : is_word (standby_word v).
Proof. apply land_word. Qed.

Lemma normal_word_is_word (v : Z) : is_word (normal_word v).
Proof. apply land_word. Qed.

(** X20: [tcan4550_init] talks to the chip in a fixed order: standby first, then
    unlock, the bit-timing word, the message RAM, the control modes and the
    interrupt set-up, and normal mode last.  The mode register is written
    exactly twice (standby, then normal), NBTP exactly once with the word
    given, and IE once with the five sources the handler serves. *)
Theorem init_sequence (p : tcan4550_priv) (d : spi_device) (reg : Z) :
  spi p = Some d -> is_word reg ->
  exists m1 c1 c2 t m2,
    issued (spi p) (spi (snd (tcan4550_init p reg)))
    = init_requests reg (ctrlmode (can p)) m1 c1 c2 t m2
    /\ length (init_requests reg (ctrlmode (can p)) m1 c1 c2 t m2) = 533%nat
    /\ writes_to MODES_OF_OPERATION (init_requests reg (ctrlmode (can p)) m1 c1 c2 t m2)
       = [standby_word m1; normal_word m2]
    /\ writes_to NBTP (init_requests reg (ctrlmode (can p)) m1 c1 c2 t m2) = [reg]
    /\ writes_to IE (init_requests reg (ctrlmode (can p)) m1 c1 c2 t m2)
       = [RF0N + TFE + BO + EW + EP].
Proof.
  intros Hspi Hreg.
  destruct (tcan4550_init_some p d reg Hspi) as (d' & m1 & c1 & c2 & t & m2 & R & S & _).
  exists m1, c1, c2, t, m2. rewrite R, Hspi. unfold issued. cbn [sent].
  rewrite S, drop_app_length. split; [reflexivity |]. split; [reflexivity |].
  pose proof (standby_word_is_word m1) as W1. pose proof (normal_word_is_word m2) as W2.
  assert (Wc : is_word (control_cccr (ctrlmode (can p)) c2)).
  { unfold control_cccr. apply land_word. }
  unfold init_requests, interrupt_requests.
  rewrite !writes_to_app, !writes_to_mram_low by (vm_compute; split; congruence).
  rewrite !writes_to_cons, !writes_to_read32.
  split; [| split].
  - rewrite !(writes_to_write32 MODES_OF_OPERATION)
      by first [assumption | vm_compute; split; congruence].
    rewrite !writes_to_write32_other by (vm_compute; (split; congruence) || congruence).
    reflexivity.
  - rewrite !(writes_to_write32 NBTP) by first [assumption | vm_compute; split; congruence].
    rewrite !writes_to_write32_other by (vm_compute; (split; congruence) || congruence).
    reflexivity.
  - rewrite !(writes_to_write32 IE) by (vm_compute; split; congruence).
    rewrite !writes_to_write32_other by (vm_compute; (split; congruence) || congruence).
    reflexivity.
Qed.

Lemma init_sequence_witness :
  exists m1 c1 c2 t m2,
    issued (spi loopback_priv) (spi (snd (tcan4550_init loopback_priv 0x00003E0F)))
    = init_requests 0x00003E0F (ctrlmode (can loopback_priv)) m1 c1 c2 t m2
    /\ length (init_requests 0x00003E0F (ctrlmode (can loopback_priv)) m1 c1 c2 t m2) = 533%nat
    /\ writes_to MODES_OF_OPERATION
         (init_requests 0x00003E0F (ctrlmode (can loopback_priv)) m1 c1 c2 t m2)
       = [standby_word m1; normal_word m2]
    /\ writes_to NBTP (init_requests 0x00003E0F (ctrlmode (can loopback_priv)) m1 c1 c2 t m2)
       = [0x00003E0F]
    /\ writes_to IE (init_requests 0x00003E0F (ctrlmode (can loopback_priv)) m1 c1 c2 t m2)
       = [RF0N + TFE + BO + EW + EP].
Proof.
  apply (init_sequence loopback_priv (steady_bus 0x10) 0x00003E0F).
  - reflexivity.
  - unfold is_word. lia.
Defined.

(** ** The bit-timing word *)

(** X21: for a timing within the ranges of [tcan4550_bittiming_const] the four
    biased values sit side by side in the word [tcan_open] and
    [tcan4550_set_mode] compute: phase segment 2 in bits 0..6, the sum of
    propagation and phase segment 1 in bits 8..15, the prescaler in bits
    16..24 and the jump width in bits 25..31; bit 7 stays 0. *)
Theorem bitRateReg_fields (bt : can_bittiming) :
  tseg2_min tcan4550_bittiming_const <= phase_seg2 bt <= tseg2_max tcan4550_bittiming_const ->
  tseg1_min tcan4550_bittiming_const <= prop_seg bt + phase_seg1 bt
    <= tseg1_max tcan4550_bittiming_const ->
  brp_min tcan4550_bittiming_const <= brp bt <= brp_max tcan4550_bittiming_const ->
  1 <= sjw bt <= sjw_max tcan4550_bittiming_const ->
  Z.land (bitRateReg bt) 0x7F = phase_seg2 bt - 1
  /\ Z.land (Z.shiftr (bitRateReg bt) 8) 0xFF = prop_seg bt + phase_seg1 bt - 1
  /\ Z.land (Z.shiftr (bitRateReg bt) 16) 0x1FF = brp bt - 1
  /\ Z.land (Z.shiftr (bitRateReg bt) 25) 0x7F = sjw bt - 1
  /\ Z.testbit (bitRateReg bt) 7 = false.
Proof.
  cbn [tcan4550_bittiming_const tseg1_min tseg1_max tseg2_min tseg2_max sjw_max brp_min brp_max].
  intros H2 H1 Hb Hs.
  assert (E : bitRateReg bt
              = (phase_seg2 bt - 1) + (prop_seg bt + phase_seg1 bt - 1) * 2 ^ 8
                + (brp bt - 1) * 2 ^ 16 + (sjw bt - 1) * 2 ^ 25).
  { unfold bitRateReg, u32. rewrite !Z.shiftl_mul_pow2 by lia.
    change (2 ^ 32) with 4294967296. change (2 ^ 8) with 256. change (2 ^ 16) with 65536.
    change (2 ^ 25) with 33554432.
    rewrite !(Z.mod_small (phase_seg2 bt - 1)), !(Z.mod_small (prop_seg bt + phase_seg1 bt - 1)),
      !(Z.mod_small (brp bt - 1)), !(Z.mod_small (sjw bt - 1)) by lia.
    apply Z.mod_small. lia. }
  rewrite E. clear E.
  change 0x7F with (Z.ones 7). change 0xFF with (Z.ones 8). change 0x1FF with (Z.ones 9).
  rewrite !Z.land_ones, !Z.shiftr_div_pow2 by lia. rewrite testbit_div by lia.
  change (2 ^ 7) with 128. change (2 ^ 8) with 256. change (2 ^ 9) with 512.
  change (2 ^ 16) with 65536. change (2 ^ 25) with 33554432.
  repeat split.
  - Z.div_mod_to_equations. lia.
  - Z.div_mod_to_equations. lia.
  - Z.div_mod_to_equations. lia.
  - Z.div_mod_to_equations. lia.
  - match goal with |- (?a =? 1) = false => destruct (Z.eqb_spec a 1) as [C | _];
      [| reflexivity] end.
    revert C. Z.div_mod_to_equations. lia.
Qed.

Lemma bitRateReg_fields_witness :
  Z.land (bitRateReg sample_bittiming) 0x7F = phase_seg2 sample_bittiming - 1
  /\ Z.land (Z.shiftr (bitRateReg sample_bittiming) 8) 0xFF
     = prop_seg sample_bittiming + phase_seg1 sample_bittiming - 1
  /\ Z.land (Z.shiftr (bitRateReg sample_bittiming) 16) 0x1FF = brp sample_bittiming - 1
  /\ Z.land (Z.shiftr (bitRateReg sample_bittiming) 25) 0x7F = sjw sample_bittiming - 1
  /\ Z.testbit (bitRateReg sample_bittiming) 7 = false.
Proof. apply (bitRateReg_fields sample_bittiming); simpl; lia. Defined.

(** ** Identification and probe *)

Lemma spi_read32_bytes (d : spi_device) (address ret : Z) (h : list Z) (b3 b2 b1 b0 : Z) :
  length h = 4%nat -> is_byte b3 -> is_byte b2 -> is_byte b1 -> is_byte b0 ->
  spi_reply d (length (spi_sent d)) (read32_request address) = (ret, h ++ [b3; b2; b1; b0]) ->
  spi_read32 (Some d) address
  = (b3 * 2 ^ 24 + b2 * 2 ^ 16 + b1 * 2 ^ 8 + b0,
     Some {| spi_reply := spi_reply d; spi_sent := spi_sent d ++ [read32_request address] |}).
Proof.
  unfold is_byte. intros Hh H3 H2 H1 H0 Hreply.
  unfold spi_read32, spi_transfer, spi_sync.
  change (take (Z.to_nat 8) _) with (read32_request address).
  rewrite Hreply. change (Z.to_nat 8) with 8%nat.
  do 4 (destruct h as [| ? h]; [discriminate |]). destruct h; [| discriminate].
  cbn [app clock_in uninit replicate]. f_equal.
  load_literal. unfold u8, u32. rewrite !Z.shiftl_mul_pow2 by lia.
  change (2 ^ 8) with 256. change (2 ^ 16) with 65536. change (2 ^ 24) with 16777216.
  change (2 ^ 32) with 4294967296.
  rewrite !(Z.mod_small b3), !(Z.mod_small b2), !(Z.mod_small b1), !(Z.mod_small b0) by lia.
  apply Z.mod_small. lia.
Qed.

(** X22: [tcan4550_readIdentification] makes two reads, of DEVICE_ID1 and
    DEVICE_ID2, whatever their status, and accepts the chip exactly when the
    payload bytes of the first are "NACT" and those of the second "0554" in
    ASCII, that is "TCAN4550" with each word sent most significant byte
    first. *)
Theorem identification_reads_the_name
    (d : spi_device) (r1 r2 : Z) (h1 h2 : list Z) (a3 a2 a1 a0 b3 b2 b1 b0 : Z) :
  length h1 = 4%nat -> length h2 = 4%nat ->
  Forall is_byte [a3; a2; a1; a0; b3; b2; b1; b0] ->
  spi_reply d (length (spi_sent d)) (read32_request DEVICE_ID1)
    = (r1, h1 ++ [a3; a2; a1; a0]) ->
  spi_reply d (S (length (spi_sent d))) (read32_request DEVICE_ID2)
    = (r2, h2 ++ [b3; b2; b1; b0]) ->
  issued (Some d) (snd (tcan4550_readIdentification (Some d)))
  = [read32_request DEVICE_ID1; read32_request DEVICE_ID2]
  /\ (fst (tcan4550_readIdentification (Some d)) = true
      <-> [a3; a2; a1; a0] = [0x4E; 0x41; 0x43; 0x54]
          /\ [b3; b2; b1; b0] = [0x30; 0x35; 0x35; 0x34]).
Proof.
  intros Hh1 Hh2 Hbytes Hr1 Hr2.
  repeat match goal with
         | H : Forall _ (_ :: _) |- _ => apply Forall_cons in H; destruct H as [? H]
         end.
  unfold tcan4550_readIdentification.
  rewrite (spi_read32_bytes d DEVICE_ID1 r1 h1 a3 a2 a1 a0) by assumption.
  rewrite (spi_read32_bytes _ DEVICE_ID2 r2 h2 b3 b2 b1 b0)
    by (try assumption; cbn [spi_sent spi_reply]; rewrite length_app, Nat.add_1_r; exact Hr2).
  cbn [fst snd]. split.
  - unfold issued. cbn [sent spi_sent]. rewrite <- app_assoc, drop_app_length. reflexivity.
  - unfold is_byte, TCAN_ID, TCAN_ID2 in *.
    change (2 ^ 8) with 256. change (2 ^ 16) with 65536. change (2 ^ 24) with 16777216.
    rewrite andb_true_iff, !Z.eqb_eq. split.
    + intros (E1 & E2).
      assert (a3 = 0x4E /\ a2 = 0x41 /\ a1 = 0x43 /\ a0 = 0x54) as (-> & -> & -> & ->) by lia.
      assert (b3 = 0x30 /\ b2 = 0x35 /\ b1 = 0x35 /\ b0 = 0x34) as (-> & -> & -> & ->) by lia.
      split; reflexivity.
    + intros (E1 & E2). injection E1 as -> -> -> ->. injection E2 as -> -> -> ->.
      split; reflexivity.
Qed.

Lemma identification_reads_the_name_witness :
  issued (Some tcan_chip) (snd (tcan4550_readIdentification (Some tcan_chip)))
  = [read32_request DEVICE_ID1; read32_request DEVICE_ID2]
  /\ (fst (tcan4550_readIdentification (Some tcan_chip)) = true
      <-> [0x4E; 0x41; 0x43; 0x54] = [0x4E; 0x41; 0x43; 0x54]
          /\ [0x30; 0x35; 0x35; 0x34] = [0x30; 0x35; 0x35; 0x34]).
Proof.
  apply (identification_reads_the_name tcan_chip 0 0 [0; 0; 0; 0] [0; 0; 0; 0]
           0x4E 0x41 0x43 0x54 0x30 0x35 0x35 0x34).
  - reflexivity.
  - reflexivity.
  - unfold is_byte. repeat constructor; lia.
  - reflexivity.
  - reflexivity.
Defined.

Lemma readIdentification_some (d : spi_device) :
  exists ok d',
    tcan4550_readIdentification (Some d) = (ok, Some d')
    /\ spi_sent d' = spi_sent d ++ [read32_request DEVICE_ID1; read32_request DEVICE_ID2]
    /\ spi_reply d' = spi_reply d.
Proof.
  unfold tcan4550_readIdentification.
  destruct (spi_read32_some d DEVICE_ID1) as (id1 & d1 & R1 & S1 & P1). rewrite R1.
  destruct (spi_read32_some d1 DEVICE_ID2) as (id2 & d2 & R2 & S2 & P2). rewrite R2.
  eexists. exists d2. split; [reflexivity |]. split; [| congruence].
  rewrite S2, S1, <- app_assoc. reflexivity.
Qed.

(** X23: once the kernel calls before it have succeeded, [tcan_probe] reads the
    identification, a second time when the first attempt fails, and gives up
    with [-ENODEV] only when both fail; it reads two registers per attempt
    and writes none.  A failed work-queue allocation gives [-ENOMEM].  The
    driver state is kept exactly when the result is 0. *)
Theorem probe_identification_retry (d : spi_device) (env : probe_env) (p : tcan4550_priv) :
  candev env = Some p -> spi_setup_err env = 0 -> register_candev_err env = 0 ->
  exists ok1 ok2 s1,
    ok1 = fst (tcan4550_readIdentification (Some d))
    /\ s1 = snd (tcan4550_readIdentification (Some d))
    /\ ok2 = fst (tcan4550_readIdentification s1)
    /\ fst (fst (tcan_probe d env))
       = (if ok1 || ok2 then (if workqueue_ok env then 0 else - ENOMEM) else - ENODEV)
    /\ issued (Some d) (snd (fst (tcan_probe d env)))
       = (if ok1 then [read32_request DEVICE_ID1; read32_request DEVICE_ID2]
          else [read32_request DEVICE_ID1; read32_request DEVICE_ID2;
                read32_request DEVICE_ID1; read32_request DEVICE_ID2])
    /\ (fst (fst (tcan_probe d env)) = 0 <-> snd (tcan_probe d env) <> None)
    /\ (forall q, snd (tcan_probe d env) = Some q ->
          spi q = snd (fst (tcan_probe d env))
          /\ tx_head q = tx_head p /\ tx_tail q = tx_tail p /\ tx_skb_buf q = tx_skb_buf p).
Proof.
  intros Hdev Hsetup Hreg. unfold tcan_probe. rewrite Hdev, Hsetup, Hreg. cbn [Z.eqb negb].
  destruct (readIdentification_some d) as (ok1 & d1 & R1 & S1 & P1). rewrite R1. cbn [fst snd].
  destruct (readIdentification_some d1) as (ok2 & d2 & R2 & S2 & P2). rewrite R2. cbn [fst].
  exists ok1, ok2, (Some d1). do 2 (split; [reflexivity |]).
  split; [rewrite R2; reflexivity |].
  unfold issued, ENOMEM, ENODEV. destruct ok1; cbn [negb orb].
  - destruct (workqueue_ok env); cbn [negb fst snd sent];
      rewrite S1, drop_app_length;
      (split; [reflexivity |]); (split; [reflexivity |]);
      (split; [split; [discriminate || congruence | intros; try reflexivity; congruence] |]);
      intros q [= <-] || (intros q C; discriminate C).
    cbn. auto.
  - destruct ok2; cbn [negb].
    + destruct (workqueue_ok env); cbn [negb fst snd sent];
        rewrite S2, S1, <- app_assoc, drop_app_length;
        (split; [reflexivity |]); (split; [reflexivity |]);
        (split; [split; [discriminate || congruence | intros; try reflexivity; congruence] |]);
        intros q [= <-] || (intros q C; discriminate C).
      cbn. auto.
    + cbn [fst snd sent]. rewrite S2, S1, <- app_assoc, drop_app_length.
      split; [reflexivity |]. split; [reflexivity |].
      split; [split; [discriminate | congruence] |]. intros q C. discriminate C.
Qed.

Lemma probe_identification_retry_witness :
  exists ok1 ok2 s1,
    ok1 = fst (tcan4550_readIdentification (Some tcan_chip))
    /\ s1 = snd (tcan4550_readIdentification (Some tcan_chip))
    /\ ok2 = fst (tcan4550_readIdentification s1)
    /\ fst (fst (tcan_probe tcan_chip
                   {| candev := Some blank_priv; spi_setup_err := 0;
                      register_candev_err := 0; workqueue_ok := true |}))
       = (if ok1 || ok2 then (if true then 0 else - ENOMEM) else - ENODEV)
    /\ issued (Some tcan_chip)
         (snd (fst (tcan_probe tcan_chip
                      {| candev := Some blank_priv; spi_setup_err := 0;
                         register_candev_err := 0; workqueue_ok := true |})))
       = (if ok1 then [read32_request DEVICE_ID1; read32_request DEVICE_ID2]
          else [read32_request DEVICE_ID1; read32_request DEVICE_ID2;
                read32_request DEVICE_ID1; read32_request DEVICE_ID2])
    /\ (fst (fst (tcan_probe tcan_chip
                    {| candev := Some blank_priv; spi_setup_err := 0;
                       register_candev_err := 0; workqueue_ok := true |})) = 0
        <-> snd (tcan_probe tcan_chip
                   {| candev := Some blank_priv; spi_setup_err := 0;
                      register_candev_err := 0; workqueue_ok := true |}) <> None)
    /\ (forall q,
          snd (tcan_probe tcan_chip
                 {| candev := Some blank_priv; spi_setup_err := 0;
                    register_candev_err := 0; workqueue_ok := true |}) = Some q ->
          spi q = snd (fst (tcan_probe tcan_chip
                              {| candev := Some blank_priv; spi_setup_err := 0;
                                 register_candev_err := 0; workqueue_ok := true |}))
          /\ tx_head q = tx_head blank_priv /\ tx_tail q = tx_tail blank_priv
          /\ tx_skb_buf q = tx_skb_buf blank_priv).
Proof.
  apply (probe_identification_retry tcan_chip
           {| candev := Some blank_priv; spi_setup_err := 0;
              register_candev_err := 0; workqueue_ok := true |} blank_priv);
    reflexivity.
Defined.

(** ** Open and close *)

Lemma init_requests_nbtp (reg mode m1 c1 c2 t m2 : Z) :
  is_word reg ->
  writes_to NBTP (init_requests reg mode m1 c1 c2 t m2) = [reg]
  /\ length (init_requests reg mode m1 c1 c2 t m2) = 533%nat.
Proof.
  intros Hreg. split; [| reflexivity].
  unfold init_requests, interrupt_requests.
  rewrite !writes_to_app, !writes_to_mram_low by (vm_compute; split; congruence).
  rewrite !writes_to_cons, !writes_to_read32.
  rewrite !(writes_to_write32 NBTP) by first [assumption | vm_compute; split; congruence].
  rewrite !writes_to_write32_other by (vm_compute; (split; congruence) || congruence).
  reflexivity.
Qed.

Lemma bitRateReg_is_word (bt : can_bittiming) : is_word (bitRateReg bt).
Proof. unfold is_word, bitRateReg, u32. apply Z.mod_pos_bound. lia. Qed.

(** X24: [tcan_open] on a bound device: the result is that of [open_candev] when
    it fails, else that of [request_threaded_irq].  On success the ring is
    emptied, the state is error-active and the queue runs.  On either
    failure the state, the queue and the ring are left as they were; a
    failing [open_candev] leaves the bus untouched, while after a failing
    [request_threaded_irq] the chip has already gone through the whole
    set-up sequence with the bit-timing word of the device. *)
Theorem tcan_open_outcome (p : tcan4550_priv) (d : spi_device) (open_err irq_err : Z) :
  spi p = Some d ->
  exists r p',
    tcan_open p open_err irq_err = Some (r, p')
    /\ r = (if open_err =? 0 then irq_err else open_err)
    /\ (r = 0 ->
        state (can p') = CAN_STATE_ERROR_ACTIVE /\ queue_stopped (ndev p') = false
        /\ tx_head p' = 0 /\ tx_tail p' = 0)
    /\ (r <> 0 ->
        can p' = can p /\ ndev p' = ndev p
        /\ tx_head p' = tx_head p /\ tx_tail p' = tx_tail p)
    /\ (open_err <> 0 -> p' = p)
    /\ (open_err = 0 ->
        writes_to NBTP (issued (spi p) (spi p')) = [bitRateReg (bittiming (can p))]
        /\ length (issued (spi p) (spi p')) = 533%nat).
Proof.
  intros Hspi. unfold tcan_open.
  destruct (Z.eqb_spec open_err 0) as [-> | Hoe]; cbn [negb].
  - destruct (tcan4550_init_some p d (bitRateReg (bittiming (can p))) Hspi)
      as (d' & m1 & c1 & c2 & t & m2 & R & S & _).
    pose proof (tcan4550_init_ring p (bitRateReg (bittiming (can p))))
      as (I0 & I1 & I2 & I3 & _ & I5 & I6).
    destruct (tcan4550_init p (bitRateReg (bittiming (can p)))) as [ok q].
    cbn [fst snd] in R, I0, I1, I2, I3, I5, I6. subst ok. cbn [negb]. rewrite R.
    destruct (init_requests_nbtp (bitRateReg (bittiming (can p))) (ctrlmode (can p))
                m1 c1 c2 t m2 (bitRateReg_is_word _)) as (Hn & Hl).
    assert (Hiss : issued (spi p) (spi q)
                   = init_requests (bitRateReg (bittiming (can p))) (ctrlmode (can p))
                       m1 c1 c2 t m2).
    { rewrite R, Hspi. unfold issued. cbn [sent]. rewrite S, drop_app_length. reflexivity. }
    destruct (Z.eqb_spec irq_err 0) as [-> | Hie]; cbn [negb].
    + eexists. eexists. split; [reflexivity |]. split; [reflexivity |].
      cbn [set_ndev set_can set_ring set_state netif_start_queue set_queue_stopped
           can ndev state queue_stopped tx_head tx_tail spi].
      split; [intros _; repeat split; reflexivity |]. split; [intros C; congruence |].
      split; [intros C; congruence |]. intros _. rewrite Hiss. split; assumption.
    + eexists. eexists. split; [reflexivity |]. split; [reflexivity |].
      split; [intros C; congruence |]. split; [intros _; repeat split; assumption |].
      split; [intros C; congruence |]. intros _. rewrite Hiss. split; assumption.
  - eexists. eexists. split; [reflexivity |]. split; [reflexivity |].
    split; [intros C; congruence |]. split; [intros _; repeat split; reflexivity |].
    split; [intros _; reflexivity |]. intros C. congruence.
Qed.

Lemma tcan_open_outcome_witness :
  exists r p',
    tcan_open loopback_priv 0 0 = Some (r, p')
    /\ r = (if 0 =? 0 then 0 else 0)
    /\ (r = 0 ->
        state (can p') = CAN_STATE_ERROR_ACTIVE /\ queue_stopped (ndev p') = false
        /\ tx_head p' = 0 /\ tx_tail p' = 0)
    /\ (r <> 0 ->
        can p' = can loopback_priv /\ ndev p' = ndev loopback_priv
        /\ tx_head p' = tx_head loopback_priv /\ tx_tail p' = tx_tail loopback_priv)
    /\ (0 <> 0 -> p' = loopback_priv)
    /\ (0 = 0 ->
        writes_to NBTP (issued (spi loopback_priv) (spi p'))
        = [bitRateReg (bittiming (can loopback_priv))]
        /\ length (issued (spi loopback_priv) (spi p')) = 533%nat).
Proof. apply (tcan_open_outcome loopback_priv (steady_bus 0x10) 0 0). reflexivity. Defined.

(** X25: [tcan_close] on a bound device stops the queue, sets the state to
    stopped and puts the chip into standby with one read and one write of
    the mode register; head, tail and slots of the ring are left as they
    are. *)
Theorem tcan_close_outcome (p : tcan4550_priv) (d : spi_device) :
  spi p = Some d ->
  exists p',
    tcan_close p = Some (0, p')
    /\ state (can p') = CAN_STATE_STOPPED
    /\ queue_stopped (ndev p') = true
    /\ issued (spi p) (spi p')
       = [read32_request MODES_OF_OPERATION;
          write32_request MODES_OF_OPERATION
            (standby_word (fst (spi_read32 (Some d) MODES_OF_OPERATION)))]
    /\ tx_head p' = tx_head p /\ tx_tail p' = tx_tail p /\ tx_skb_buf p' = tx_skb_buf p.
Proof.
  intros Hspi. unfold tcan_close. cbn [set_can set_ndev spi]. rewrite Hspi.
  destruct (set_standby_mode_some d) as (d' & R & S & _). rewrite R.
  eexists. split; [reflexivity |].
  cbn [set_spi set_can set_ndev set_state can ndev state netif_stop_queue set_queue_stopped
       queue_stopped spi tx_head tx_tail tx_skb_buf].
  unfold issued. cbn [sent]. rewrite S, drop_app_length.
  repeat split; reflexivity.
Qed.

Lemma tcan_close_outcome_witness :
  exists p',
    tcan_close loopback_priv = Some (0, p')
    /\ state (can p') = CAN_STATE_STOPPED
    /\ queue_stopped (ndev p') = true
    /\ issued (spi loopback_priv) (spi p')
       = [read32_request MODES_OF_OPERATION;
          write32_request MODES_OF_OPERATION
            (standby_word (fst (spi_read32 (Some (steady_bus 0x10)) MODES_OF_OPERATION)))]
    /\ tx_head p' = tx_head loopback_priv /\ tx_tail p' = tx_tail loopback_priv
    /\ tx_skb_buf p' = tx_skb_buf loopback_priv.
Proof. apply (tcan_close_outcome loopback_priv (steady_bus 0x10)). reflexivity. Defined.

(** ** Interrupt handler: final state and bus traffic *)

Lemma recMsgs_some (p : tcan4550_priv) (d : spi_device) :
  spi p = Some d ->
  exists d',
    spi (snd (tcan4550_recMsgs p)) = Some d'
    /\ spi_sent d'
       = spi_sent d ++ rx_pass_requests (rx_txBuf p) (fst (spi_read32 (Some d) RXF0S))
    /\ spi_reply d' = spi_reply d.
Proof.
  intros Hspi. unfold tcan4550_recMsgs, rx_pass_requests. rewrite Hspi.
  destruct (spi_read32_some d RXF0S) as (rxf0s & d1 & E1 & S1 & R1).
  rewrite E1. cbn [fst].
  destruct (Z.eqb_spec (rx_fillLevel rxf0s) 0) as [E | Hfill].
  - exists d1. cbn [snd set_spi spi]. auto.
  - destruct (rx_window_facts rxf0s Hfill) as (Hm & _ & _).
    destruct (spi_read_msgs_some (set_spi p (Some d1)) d1
                (u32 (MRAM_BASE + RX_FIFO_START_ADDRESS + rx_getIndex rxf0s * RX_SLOT_SIZE))
                (rx_msgsToGet rxf0s) (rxBuffer (set_spi p (Some d1))) eq_refl)
      as (ret & d2 & rxb & out' & E2 & S2 & R2).
    { unfold MAX_BURST_RX_MESSAGES. lia. }
    rewrite E2. cbn [set_rxBuffer set_rx_bufs spi].
    destruct (spi_write32_some d2 RXF0A (u32 (rx_getIndex rxf0s + rx_msgsToGet rxf0s - 1)))
      as (r3 & d3 & E3 & S3 & R3).
    rewrite E3. cbn [snd]. rewrite rx_deliver_all_spi. cbn [set_spi spi].
    exists d3. split; [reflexivity |]. split; [| congruence].
    rewrite S3, S2, S1. cbn [set_spi rx_txBuf]. rewrite <- !app_assoc. reflexivity.
Qed.

Lemma writes_to_rx_pass (address : Z) (txb : list Z) (rxf0s : Z) :
  0 <= address < 2 ^ 16 -> address <> RXF0A -> (4 <= length txb)%nat ->
  writes_to address (rx_pass_requests txb rxf0s) = [].
Proof.
  intros Ha Hne Hlen. unfold rx_pass_requests.
  destruct (Z.eqb_spec (rx_fillLevel rxf0s) 0) as [E | Hfill].
  - apply writes_to_read32.
  - destruct (rx_window_facts rxf0s Hfill) as (Hm & _ & _).
    destruct (read_msgs_header_head txb
                (u32 (MRAM_BASE + RX_FIFO_START_ADDRESS + rx_getIndex rxf0s * RX_SLOT_SIZE))
                (rx_msgsToGet rxf0s) (Z.to_nat (4 + rx_msgsToGet rxf0s * 16)) Hlen ltac:(lia))
      as (t & Ht).
    rewrite Ht. rewrite !writes_to_cons, writes_to_read32, writes_to_read_opcode.
    rewrite writes_to_write32_other; [reflexivity | exact Ha | | congruence].
    unfold RXF0A. change (2 ^ 16) with 65536. lia.
Qed.

Lemma rx_deliver_all_flags (l : list Z) :
  forall p,
    queue_stopped (ndev (fold_left rx_deliver l p)) = queue_stopped (ndev p)
    /\ bus_off_notified (ndev (fold_left rx_deliver l p)) = bus_off_notified (ndev p).
Proof.
  induction l as [| i l IH]; intros p; [split; reflexivity |].
  cbn [fold_left]. destruct (IH (rx_deliver p i)) as (-> & ->).
  unfold rx_deliver, alloc_skb.
  destruct (skb_alloc (ndev p) (skb_allocs (ndev p))); split; reflexivity.
Qed.

Lemma recMsgs_flags (p : tcan4550_priv) :
  queue_stopped (ndev (snd (tcan4550_recMsgs p))) = queue_stopped (ndev p)
  /\ bus_off_notified (ndev (snd (tcan4550_recMsgs p))) = bus_off_notified (ndev p).
Proof.
  unfold tcan4550_recMsgs. destruct (spi_read32 (spi p) RXF0S) as [rxf0s s1].
  destruct (rx_fillLevel rxf0s =? 0); [split; reflexivity |].
  match goal with
  | |- context [spi_read_msgs ?a ?b ?c ?e] =>
      pose proof (spi_read_msgs_ring a b c e) as (_ & _ & _ & _ & _ & R6);
      destruct (spi_read_msgs a b c e) as [[ret q] rxb]
  end.
  cbn [fst snd set_spi ndev] in R6.
  destruct (spi_write32 _ _ _) as [ret2 s2]. cbn [snd].
  match goal with
  | |- context [fold_left rx_deliver ?l ?a] =>
      destruct (rx_deliver_all_flags l a) as (-> & ->)
  end.
  cbn [set_spi set_rxBuffer ndev]. rewrite R6. split; reflexivity.
Qed.

Lemma bit_set_0 (flag : Z) : bit_set 0 flag = false.
Proof. unfold bit_set. rewrite Z.land_0_l. reflexivity. Qed.

Lemma handle_bus_off_effect (p : tcan4550_priv) :
  state (can (handle_bus_off p)) = CAN_STATE_BUS_OFF
  /\ bus_off (can_stats (can (handle_bus_off p))) = bus_off (can_stats (can p)) + 1
  /\ error_warning (can_stats (can (handle_bus_off p))) = error_warning (can_stats (can p))
  /\ error_passive (can_stats (can (handle_bus_off p))) = error_passive (can_stats (can p))
  /\ bittiming (can (handle_bus_off p)) = bittiming (can p)
  /\ ctrlmode (can (handle_bus_off p)) = ctrlmode (can p)
  /\ queue_stopped (ndev (handle_bus_off p)) = true
  /\ bus_off_notified (ndev (handle_bus_off p)) = S (bus_off_notified (ndev p)).
Proof.
  unfold handle_bus_off. destruct (spi_write32 _ _ _) as [ret s].
  unfold alloc_skb. cbn. destruct (skb_alloc (ndev p) (skb_allocs (ndev p))); cbn; tauto.
Qed.

(** X26: what one interrupt leaves behind, for the status value [ir] read (any
    device, bound or not).  The error counters go up by one for each of
    bus-off, warning and passive that is set.  The state is the one of the
    last test that fires, in the order bus-off, warning, passive: passive
    wins over warning, and warning over bus-off.  The queue is stopped by
    bus-off, else woken by TFE, else left alone; the stack is told of
    bus-off once. *)
Theorem handler_final_state (p : tcan4550_priv) :
  state (can (snd (tcan4450_handleInterrupts p)))
  = (if bit_set (fst (spi_read32 (spi p) IR)) EP then CAN_STATE_ERROR_PASSIVE
     else if bit_set (fst (spi_read32 (spi p) IR)) EW then CAN_STATE_ERROR_WARNING
     else if bit_set (fst (spi_read32 (spi p) IR)) BO then CAN_STATE_BUS_OFF
     else state (can p))
  /\ bus_off (can_stats (can (snd (tcan4450_handleInterrupts p))))
     = bus_off (can_stats (can p)) + (if bit_set (fst (spi_read32 (spi p) IR)) BO then 1 else 0)
  /\ error_warning (can_stats (can (snd (tcan4450_handleInterrupts p))))
     = error_warning (can_stats (can p))
       + (if bit_set (fst (spi_read32 (spi p) IR)) EW then 1 else 0)
  /\ error_passive (can_stats (can (snd (tcan4450_handleInterrupts p))))
     = error_passive (can_stats (can p))
       + (if bit_set (fst (spi_read32 (spi p) IR)) EP then 1 else 0)
  /\ queue_stopped (ndev (snd (tcan4450_handleInterrupts p)))
     = (if bit_set (fst (spi_read32 (spi p) IR)) BO then true
        else if bit_set (fst (spi_read32 (spi p) IR)) TFE then false
        else queue_stopped (ndev p))
  /\ bus_off_notified (ndev (snd (tcan4450_handleInterrupts p)))
     = (bus_off_notified (ndev p)
        + (if bit_set (fst (spi_read32 (spi p) IR)) BO then 1 else 0))%nat
  /\ bittiming (can (snd (tcan4450_handleInterrupts p))) = bittiming (can p)
  /\ ctrlmode (can (snd (tcan4450_handleInterrupts p))) = ctrlmode (can p).
Proof.
  unfold tcan4450_handleInterrupts. destruct (spi_read32 (spi p) IR) as [ir s1]. cbn [fst].
  destruct (spi_write32 s1 IR ir) as [ret s2].
  destruct (Z.eqb_spec ir 0) as [-> | Hir].
  { rewrite !bit_set_0. cbn. rewrite Nat.add_0_r, !Z.add_0_r. tauto. }
  cbn [snd].
  set (q0 := set_spi p s2).
  pose proof (recMsgs_ring q0) as (_ & _ & _ & _ & Rc).
  pose proof (recMsgs_flags q0) as (Rq & Rb).
  set (q1 := if bit_set ir RF0N then snd (tcan4550_recMsgs q0) else q0).
  assert (H1 : can q1 = can p /\ queue_stopped (ndev q1) = queue_stopped (ndev p)
               /\ bus_off_notified (ndev q1) = bus_off_notified (ndev p)).
  { unfold q1. destruct (bit_set ir RF0N); [rewrite Rc, Rq, Rb |]; cbn; tauto. }
  clearbody q1. destruct H1 as (C1 & Q1 & B1).
  set (q2 := if bit_set ir TFE then set_ndev q1 (netif_wake_queue (ndev q1)) else q1).
  assert (H2 : can q2 = can p
               /\ queue_stopped (ndev q2)
                  = (if bit_set ir TFE then false else queue_stopped (ndev p))
               /\ bus_off_notified (ndev q2) = bus_off_notified (ndev p)).
  { unfold q2. destruct (bit_set ir TFE); cbn; tauto. }
  clearbody q2. destruct H2 as (C2 & Q2 & B2).
  pose proof (handle_bus_off_effect q2) as (F1 & F2 & F3 & F4 & F5 & F6 & F7 & F8).
  destruct (bit_set ir BO), (bit_set ir EW), (bit_set ir EP);
    cbn [set_can set_state can state can_stats bus_off error_warning error_passive
         bittiming ctrlmode ndev];
    rewrite ?F1, ?F2, ?F3, ?F4, ?F5, ?F6, ?F7, ?F8, ?C2, ?Q2, ?B2;
    rewrite ?Z.add_0_r, ?Nat.add_0_r, ?Nat.add_1_r; tauto.
Qed.

Lemma handle_bus_off_some (p : tcan4550_priv) (d : spi_device) :
  spi p = Some d ->
  exists d',
    spi (handle_bus_off p) = Some d'
    /\ spi_sent d' = spi_sent d ++ [write32_request IE 0]
    /\ spi_reply d' = spi_reply d.
Proof.
  intros Hspi. unfold handle_bus_off. cbn [set_can set_ndev spi]. rewrite Hspi.
  destruct (spi_write32_some d IE 0) as (ret & d' & R & S & P). rewrite R.
  unfold alloc_skb. cbn. exists d'. auto.
Qed.

(** X27: the bus traffic of one interrupt on a bound device: the status register
    is read and the value read is written straight back (the
    acknowledgement), before anything else and also when it is 0; then a
    receive pass if RF0N is set, then one write of 0 to the interrupt-enable
    register if bus-off is set.  IR is written once, with the value read; IE
    is written only on bus-off.  The result is IRQ_NONE exactly when the
    value read is 0. *)
Theorem handler_bus_traffic (p : tcan4550_priv) (d : spi_device) :
  spi p = Some d -> buffers_ok p ->
  exists ir rxf0s,
    ir = fst (spi_read32 (Some d) IR)
    /\ rxf0s = fst (spi_read32 (snd (spi_write32 (snd (spi_read32 (Some d) IR)) IR ir)) RXF0S)
    /\ issued (spi p) (spi (snd (tcan4450_handleInterrupts p)))
       = [read32_request IR; write32_request IR ir]
         ++ (if bit_set ir RF0N then rx_pass_requests (rx_txBuf p) rxf0s else [])
         ++ (if bit_set ir BO then [write32_request IE 0] else [])
    /\ writes_to IR (issued (spi p) (spi (snd (tcan4450_handleInterrupts p)))) = [ir]
    /\ writes_to IE (issued (spi p) (spi (snd (tcan4450_handleInterrupts p))))
       = (if bit_set ir BO then [0] else [])
    /\ (fst (tcan4450_handleInterrupts p) = IRQ_NONE <-> ir = 0).
Proof.
  intros Hspi (_ & _ & _ & Hlen & _).
  assert (Hlen4 : (4 <= length (rx_txBuf p))%nat).
  { rewrite Hlen. unfold MAX_BURST_RX_MESSAGES. simpl. lia. }
  pose proof (spi_read32_word (Some d) IR) as Hword.
  unfold tcan4450_handleInterrupts. rewrite Hspi.
  destruct (spi_read32_some d IR) as (ir & d1 & R1 & S1 & P1). rewrite R1 in *.
  cbn [fst snd] in *.
  destruct (spi_write32_some d1 IR ir) as (ret & d2 & R2 & S2 & P2). rewrite R2. cbn [snd].
  exists ir, (fst (spi_read32 (Some d2) RXF0S)).
  split; [reflexivity |]. split; [rewrite R2; reflexivity |].
  assert (Hgoal : forall q reqs d',
            spi q = Some d' ->
            spi_sent d' = spi_sent d ++ [read32_request IR; write32_request IR ir] ++ reqs ->
            writes_to IR reqs = [] ->
            issued (Some d) (spi q) = [read32_request IR; write32_request IR ir] ++ reqs
            /\ writes_to IR (issued (Some d) (spi q)) = [ir]).
  { intros q reqs d' Hq Hs Hir.
    assert (E : issued (Some d) (spi q) = [read32_request IR; write32_request IR ir] ++ reqs).
    { rewrite Hq. unfold issued. cbn [sent]. rewrite Hs, drop_app_length. reflexivity. }
    split; [exact E |]. rewrite E.
    change ([read32_request IR; write32_request IR ir] ++ reqs)
      with ([read32_request IR] ++ [write32_request IR ir] ++ reqs).
    rewrite !writes_to_app, writes_to_read32, Hir.
    rewrite writes_to_write32; [reflexivity | vm_compute; split; congruence | exact Hword]. }
  destruct (Z.eqb_spec ir 0) as [-> | Hir].
  { rewrite !bit_set_0. cbn [fst snd set_spi spi app].
    destruct (Hgoal (set_spi p (Some d2)) [] d2 eq_refl) as (G1 & G2).
    { rewrite S2, S1, <- app_assoc. reflexivity. }
    { reflexivity. }
    cbn [set_spi spi] in G1, G2. rewrite G1 in G2 |- *.
    split; [reflexivity |]. split; [exact G2 |]. split; [reflexivity |].
    split; [reflexivity | congruence]. }
  cbn [fst snd].
  set (q0 := set_spi p (Some d2)).
  destruct (recMsgs_some q0 d2 eq_refl) as (d3 & R3 & S3 & P3).
  pose proof (writes_to_rx_pass IR (rx_txBuf p) (fst (spi_read32 (Some d2) RXF0S))
                ltac:(vm_compute; split; congruence) ltac:(vm_compute; congruence) Hlen4) as Wir.
  pose proof (writes_to_rx_pass IE (rx_txBuf p) (fst (spi_read32 (Some d2) RXF0S))
                ltac:(vm_compute; split; congruence) ltac:(vm_compute; congruence) Hlen4) as Wie.
  set (rx := rx_pass_requests (rx_txBuf p) (fst (spi_read32 (Some d2) RXF0S))) in *.
  change (rx_txBuf q0) with (rx_txBuf p) in S3. fold rx in S3.
  set (q1 := if bit_set ir RF0N then snd (tcan4550_recMsgs q0) else q0).
  assert (H1 : exists e1, spi q1 = Some e1
               /\ spi_sent e1 = spi_sent d ++ [read32_request IR; write32_request IR ir]
                                ++ (if bit_set ir RF0N then rx else [])).
  { unfold q1. destruct (bit_set ir RF0N).
    - exists d3. split; [exact R3 |]. rewrite S3, S2, S1, <- !app_assoc. reflexivity.
    - exists d2. split; [reflexivity |]. rewrite S2, S1, app_nil_r, <- !app_assoc.
      reflexivity. }
  clearbody q1. destruct H1 as (e1 & E1 & T1).
  set (q2 := if bit_set ir TFE then set_ndev q1 (netif_wake_queue (ndev q1)) else q1).
  assert (H2 : spi q2 = Some e1) by (unfold q2; destruct (bit_set ir TFE); exact E1).
  clearbody q2.
  destruct (handle_bus_off_some q2 e1 H2) as (e3 & E3 & T3 & _).
  set (q3 := if bit_set ir BO then handle_bus_off q2 else q2).
  assert (H3 : exists e, spi q3 = Some e
               /\ spi_sent e = spi_sent d ++ [read32_request IR; write32_request IR ir]
                               ++ (if bit_set ir RF0N then rx else [])
                               ++ (if bit_set ir BO then [write32_request IE 0] else [])).
  { unfold q3. destruct (bit_set ir BO).
    - exists e3. split; [exact E3 |]. rewrite T3, T1, <- !app_assoc. reflexivity.
    - exists e1. split; [exact H2 |]. rewrite T1, app_nil_r. reflexivity. }
  clearbody q3. destruct H3 as (e & E & T).
  match goal with
  | |- context [spi ?q] =>
      assert (Hq : spi q = Some e)
        by (destruct (bit_set ir EW), (bit_set ir EP); exact E);
      destruct (Hgoal q _ e Hq T) as (G1 & G2)
  end.
  { rewrite writes_to_app.
    destruct (bit_set ir RF0N), (bit_set ir BO); rewrite ?Wir; try reflexivity;
      rewrite writes_to_write32_other by (vm_compute; (split; congruence) || congruence);
      reflexivity. }
  split; [exact G1 |]. split; [exact G2 |]. rewrite G1.
  split.
  - change ([read32_request IR; write32_request IR ir] ++ ?t)
      with ([read32_request IR] ++ [write32_request IR ir] ++ t).
    rewrite !writes_to_app, writes_to_read32.
    rewrite writes_to_write32_other by (vm_compute; (split; congruence) || congruence).
    destruct (bit_set ir RF0N), (bit_set ir BO); rewrite ?Wie; try reflexivity;
      rewrite writes_to_write32 by (vm_compute; split; congruence); reflexivity.
  - split; [discriminate | congruence].
Qed.

Lemma handler_bus_traffic_witness :
  exists ir rxf0s,
    ir = fst (spi_read32 (Some (steady_bus 0x02000000)) IR)
    /\ rxf0s = fst (spi_read32
                      (snd (spi_write32 (snd (spi_read32 (Some (steady_bus 0x02000000)) IR))
                              IR ir)) RXF0S)
    /\ issued (spi (fresh_priv (steady_bus 0x02000000) (fun _ => true)))
         (spi (snd (tcan4450_handleInterrupts
                      (fresh_priv (steady_bus 0x02000000) (fun _ => true)))))
       = [read32_request IR; write32_request IR ir]
         ++ (if bit_set ir RF0N
             then rx_pass_requests
                    (rx_txBuf (fresh_priv (steady_bus 0x02000000) (fun _ => true))) rxf0s
             else [])
         ++ (if bit_set ir BO then [write32_request IE 0] else [])
    /\ writes_to IR
         (issued (spi (fresh_priv (steady_bus 0x02000000) (fun _ => true)))
            (spi (snd (tcan4450_handleInterrupts
                         (fresh_priv (steady_bus 0x02000000) (fun _ => true)))))) = [ir]
    /\ writes_to IE
         (issued (spi (fresh_priv (steady_bus 0x02000000) (fun _ => true)))
            (spi (snd (tcan4450_handleInterrupts
                         (fresh_priv (steady_bus 0x02000000) (fun _ => true))))))
       = (if bit_set ir BO then [0] else [])
    /\ (fst (tcan4450_handleInterrupts (fresh_priv (steady_bus 0x02000000) (fun _ => true)))
        = IRQ_NONE <-> ir = 0).
Proof.
  apply (handler_bus_traffic (fresh_priv (steady_bus 0x02000000) (fun _ => true))
           (steady_bus 0x02000000)).
  - reflexivity.
  - unfold buffers_ok. repeat split; reflexivity.
Defined.

(** ** Submission: the ring as a queue *)

Lemma full_iff_sixteen (p : tcan4550_priv) :
  ring_ok p -> (next_index (tx_head p) = tx_tail p <-> queue_count p = 16).
Proof.
  intros (Hh & Ht & _). unfold next_index, queue_count, TX_BUFFER_SIZE in *.
  split; intros H; revert H; Z.div_mod_to_equations; lia.
Qed.

Lemma tcan_start_xmit_queue (skb : sk_buff) (p : tcan4550_priv) :
  skb_ok skb -> ring_ok p -> queue_count p < 16 ->
  fst (tcan_start_xmit skb p) = NETDEV_TX_OK
  /\ queue_count (snd (tcan_start_xmit skb p)) = queue_count p + 1
  /\ queued (snd (tcan_start_xmit skb p)) (queue_count p) = skb
  /\ (forall j, 0 <= j < queue_count p ->
        queued (snd (tcan_start_xmit skb p)) j = queued p j)
  /\ tx_tail (snd (tcan_start_xmit skb p)) = tx_tail p
  /\ ndev (snd (tcan_start_xmit skb p)) = ndev p
  /\ spi (snd (tcan_start_xmit skb p)) = spi p
  /\ txBuffer (snd (tcan_start_xmit skb p)) = txBuffer p
  /\ tx_work (snd (tcan_start_xmit skb p)) = true.
Proof.
  intros Hv Hok Hroom. rewrite (tcan_start_xmit_spec skb p Hv Hok).
  pose proof (full_iff_sixteen p Hok) as Hfull.
  destruct (Z.eqb_spec (next_index (tx_head p)) (tx_tail p)) as [E | N]; [lia |].
  clear Hfull. destruct Hok as (Hh & Ht & Hlen).
  cbn [fst snd]. unfold queue_count, queued.
  cbn [set_ring tx_head tx_tail tx_skb_buf ndev spi txBuffer tx_work].
  unfold queue_count, next_index, TX_BUFFER_SIZE in *.
  assert (Hslot : (tx_tail p + (tx_head p - tx_tail p) mod (16 + 1)) mod (16 + 1) = tx_head p).
  { Z.div_mod_to_equations. lia. }
  split; [reflexivity |].
  split; [revert N Hroom; Z.div_mod_to_equations; lia |].
  split; [rewrite Hslot, list_lookup_insert_eq by lia; reflexivity |].
  split; [| repeat split; reflexivity].
  intros j Hj. rewrite list_lookup_insert_ne; [reflexivity |].
  intros C. apply Z2Nat.inj in C; [| lia | apply Z.mod_pos_bound; lia].
  revert C Hj Hslot. Z.div_mod_to_equations. lia.
Qed.

(** X28: a valid buffer submitted to a ring with fewer than 16 queued buffers is
    accepted and becomes the youngest of the queue, behind those already
    there; with 16 queued it is refused with NETDEV_TX_BUSY, the queue is
    stopped and the ring is left as it is.  Either way the worker is
    scheduled. *)
Theorem xmit_appends_to_queue (skb : sk_buff) (p : tcan4550_priv) :
  skb_ok skb -> ring_ok p ->
  (queue_count p < 16 ->
     fst (tcan_start_xmit skb p) = NETDEV_TX_OK
     /\ queue_count (snd (tcan_start_xmit skb p)) = queue_count p + 1
     /\ queued (snd (tcan_start_xmit skb p)) (queue_count p) = skb
     /\ (forall j, 0 <= j < queue_count p ->
           queued (snd (tcan_start_xmit skb p)) j = queued p j)
     /\ queue_stopped (ndev (snd (tcan_start_xmit skb p))) = queue_stopped (ndev p))
  /\ (queue_count p = 16 ->
        fst (tcan_start_xmit skb p) = NETDEV_TX_BUSY
        /\ tx_head (snd (tcan_start_xmit skb p)) = tx_head p
        /\ tx_tail (snd (tcan_start_xmit skb p)) = tx_tail p
        /\ tx_skb_buf (snd (tcan_start_xmit skb p)) = tx_skb_buf p
        /\ queue_stopped (ndev (snd (tcan_start_xmit skb p))) = true)
  /\ 0 <= queue_count p <= 16
  /\ tx_work (snd (tcan_start_xmit skb p)) = true.
Proof.
  intros Hv Hok. split; [| split; [| split]].
  - intros Hroom.
    destruct (tcan_start_xmit_queue skb p Hv Hok Hroom)
      as (H1 & H2 & H3 & H4 & _ & H6 & _).
    rewrite H6. auto.
  - intros Hfull. rewrite (tcan_start_xmit_spec skb p Hv Hok).
    apply (full_iff_sixteen p Hok) in Hfull. rewrite Hfull, Z.eqb_refl.
    repeat split; reflexivity.
  - pose proof (queue_count_range p). unfold TX_BUFFER_SIZE in *. lia.
  - rewrite (tcan_start_xmit_spec skb p Hv Hok).
    destruct (next_index (tx_head p) =? tx_tail p); reflexivity.
Qed.

Lemma xmit_appends_to_queue_witness :
  (queue_count two_queued < 16 ->
     fst (tcan_start_xmit sample_skb two_queued) = NETDEV_TX_OK
     /\ queue_count (snd (tcan_start_xmit sample_skb two_queued)) = queue_count two_queued + 1
     /\ queued (snd (tcan_start_xmit sample_skb two_queued)) (queue_count two_queued)
        = sample_skb
     /\ (forall j, 0 <= j < queue_count two_queued ->
           queued (snd (tcan_start_xmit sample_skb two_queued)) j = queued two_queued j)
     /\ queue_stopped (ndev (snd (tcan_start_xmit sample_skb two_queued)))
        = queue_stopped (ndev two_queued))
  /\ (queue_count two_queued = 16 ->
        fst (tcan_start_xmit sample_skb two_queued) = NETDEV_TX_BUSY
        /\ tx_head (snd (tcan_start_xmit sample_skb two_queued)) = tx_head two_queued
        /\ tx_tail (snd (tcan_start_xmit sample_skb two_queued)) = tx_tail two_queued
        /\ tx_skb_buf (snd (tcan_start_xmit sample_skb two_queued)) = tx_skb_buf two_queued
        /\ queue_stopped (ndev (snd (tcan_start_xmit sample_skb two_queued))) = true)
  /\ 0 <= queue_count two_queued <= 16
  /\ tx_work (snd (tcan_start_xmit sample_skb two_queued)) = true.
Proof.
  apply (xmit_appends_to_queue sample_skb two_queued).
  - reflexivity.
  - unfold ring_ok. vm_compute. repeat split; congruence.
Defined.

Lemma xmit_all_queue (skbs : list sk_buff) :
  forall p : tcan4550_priv,
    ring_inv p -> Forall skb_ok skbs ->
    queue_count p + Z.of_nat (length skbs) <= 16 ->
    ring_inv (snd (xmit_all skbs p))
    /\ queue_count (snd (xmit_all skbs p)) = queue_count p + Z.of_nat (length skbs)
    /\ (forall j, 0 <= j < queue_count p -> queued (snd (xmit_all skbs p)) j = queued p j)
    /\ (forall i, (i < length skbs)%nat ->
          queued (snd (xmit_all skbs p)) (queue_count p + Z.of_nat i) = nth i skbs sample_skb)
    /\ ndev (snd (xmit_all skbs p)) = ndev p
    /\ spi (snd (xmit_all skbs p)) = spi p.
Proof.
  induction skbs as [| skb rest IH]; intros p Hinv Hvalid Hroom.
  - cbn. repeat split; try assumption; try lia; try apply Hinv.
  - inversion_clear Hvalid as [| ? ? Hskb Hrest].
    cbn [xmit_all length] in *.
    pose proof (queue_count_range p) as Hq.
    pose proof Hinv as (Hok & _).
    destruct (tcan_start_xmit_queue skb p Hskb Hok ltac:(lia))
      as (_ & H2 & H3 & H4 & _ & H6 & H7 & _).
    pose proof (tcan_start_xmit_keeps_ring skb p Hinv) as Hinv1.
    destruct (tcan_start_xmit skb p) as [r p1]. cbn [snd] in *.
    specialize (IH p1 Hinv1 Hrest ltac:(lia)).
    destruct (xmit_all rest p1) as [rs p2]. cbn [snd] in *.
    destruct IH as (I1 & I2 & I3 & I4 & I5 & I6).
    split; [exact I1 |]. split; [lia |].
    split; [intros j Hj; rewrite I3 by lia; apply H4; lia |].
    split; [| split; congruence].
    intros [| i] Hi.
    + cbn [nth]. rewrite Z.add_0_r, I3 by lia. exact H3.
    + cbn [nth]. rewrite <- (I4 i) by lia. f_equal. lia.
Qed.

Lemma map_nth_iterations (skbs : list sk_buff) (f : Z -> sk_buff) (k : nat) :
  (k <= length skbs)%nat ->
  (forall i, (i < k)%nat -> f (Z.of_nat i) = nth i skbs sample_skb) ->
  map f (iterations (Z.of_nat k)) = take k skbs.
Proof.
  revert skbs f. induction k as [| k IH]; intros skbs f Hk Hf.
  - reflexivity.
  - destruct skbs as [| skb rest]; [simpl in Hk; lia |].
    rewrite iterations_cons. cbn [map take]. f_equal.
    + exact (Hf 0%nat ltac:(lia)).
    + rewrite map_map. apply (IH rest (fun i => f (i + 1))); [simpl in Hk; lia |].
      intros i Hi. replace (Z.of_nat i + 1) with (Z.of_nat (S i)) by lia.
      exact (Hf (S i) ltac:(lia)).
Qed.

(** X29: first in, first out, end to end: after valid buffers have been submitted
    to an empty ring, one pass of the worker hands the oldest of them to the
    chip, in the order of submission, as many as the window the chip
    reports allows; the rest stay queued. *)
Theorem submit_then_work_is_fifo (skbs : list sk_buff) (p : tcan4550_priv) :
  ring_inv p -> queue_count p = 0 -> Forall skb_ok skbs -> (length skbs <= 16)%nat ->
  exists p' k,
    tcan4550_tx_work_handler (snd (xmit_all skbs p)) = Some p'
    /\ k = Z.min (tx_msgsToTransmit (fst (spi_read32 (spi p) TXQFS))) (Z.of_nat (length skbs))
    /\ echoed (ndev p') = echoed (ndev p) ++ take (Z.to_nat k) skbs
    /\ tx_packets (stats (ndev p')) = tx_packets (stats (ndev p)) + k
    /\ queue_count p' = Z.of_nat (length skbs) - k
    /\ (forall i j, 0 <= i < k -> 0 <= j < 4 ->
          load (txBuffer p') (4 * i + j)
          = load (tcan4550_composeMessage (nth (Z.to_nat i) skbs sample_skb)
                    (replicate 4 0) 0) j).
Proof.
  intros Hinv Hempty Hvalid Hlen.
  destruct (xmit_all_queue skbs p Hinv Hvalid ltac:(lia))
    as ((Hok1 & Hfill1 & Hbuf1) & Hc & _ & Hq & Hn & Hs).
  rewrite Hempty in Hc, Hq. rewrite Z.add_0_l in Hc.
  destruct (worker_effect (snd (xmit_all skbs p)) Hok1 Hfill1 Hbuf1)
    as (p' & k & R & Hk & H1 & H2 & H3 & _ & _ & H6 & H7 & _ & Hrec).
  rewrite Hs, Hc in Hk. rewrite Hn in H6, H7.
  pose proof (tx_msgsToTransmit_bounds (fst (spi_read32 (spi p) TXQFS))) as (Hwin & _).
  exists p', k. split; [exact R |]. split; [exact Hk |].
  assert (Hqk : forall i, 0 <= i < k ->
            queued (snd (xmit_all skbs p)) i = nth (Z.to_nat i) skbs sample_skb).
  { intros i Hi. rewrite <- (Hq (Z.to_nat i)) by lia. f_equal. lia. }
  split.
  { rewrite H7. f_equal.
    replace (iterations k) with (iterations (Z.of_nat (Z.to_nat k))) by (f_equal; lia).
    apply map_nth_iterations; [lia |].
    intros i Hi. rewrite Hqk by lia. rewrite Nat2Z.id. reflexivity. }
  split; [exact H6 |]. split.
  { destruct Hok1 as (Hh & Ht & _). unfold queue_count in *. rewrite H1, H2.
    unfold TX_BUFFER_SIZE in *. revert Hc. Z.div_mod_to_equations. lia. }
  intros i j Hi Hj. rewrite (Hrec i j Hi Hj), Hqk by lia. reflexivity.
Qed.

Lemma submit_then_work_is_fifo_witness :
  exists p' k,
    tcan4550_tx_work_handler
      (snd (xmit_all [sample_skb; rtr_skb]
              (fresh_priv (fixed_bus [0; 0; 0; 0; 0; 3; 0; 5]) (fun _ => true)))) = Some p'
    /\ k = Z.min (tx_msgsToTransmit
                    (fst (spi_read32
                            (spi (fresh_priv (fixed_bus [0; 0; 0; 0; 0; 3; 0; 5])
                                    (fun _ => true))) TXQFS)))
                 (Z.of_nat (length [sample_skb; rtr_skb]))
    /\ echoed (ndev p')
       = echoed (ndev (fresh_priv (fixed_bus [0; 0; 0; 0; 0; 3; 0; 5]) (fun _ => true)))
         ++ take (Z.to_nat k) [sample_skb; rtr_skb]
    /\ tx_packets (stats (ndev p'))
       = tx_packets (stats (ndev (fresh_priv (fixed_bus [0; 0; 0; 0; 0; 3; 0; 5])
                                    (fun _ => true)))) + k
    /\ queue_count p' = Z.of_nat (length [sample_skb; rtr_skb]) - k
    /\ (forall i j, 0 <= i < k -> 0 <= j < 4 ->
          load (txBuffer p') (4 * i + j)
          = load (tcan4550_composeMessage (nth (Z.to_nat i) [sample_skb; rtr_skb] sample_skb)
                    (replicate 4 0) 0) j).
Proof.
  apply (submit_then_work_is_fifo [sample_skb; rtr_skb]
           (fresh_priv (fixed_bus [0; 0; 0; 0; 0; 3; 0; 5]) (fun _ => true))).
  - unfold ring_inv, ring_ok. split; [vm_compute; repeat split; congruence |].
    split; [| reflexivity].
    intros j Hj. change (queue_count (fresh_priv _ _)) with 0 in Hj. lia.
  - reflexivity.
  - repeat constructor.
  - simpl. lia.
Defined.

(** ** Restart *)

(** X30: [tcan4550_set_mode] on a bound device: only CAN_MODE_START is served,
    any other mode is refused with [-EOPNOTSUPP] and changes nothing.  A
    start empties the ring (whatever was queued is no longer sent), sets the
    state to error-active, runs the whole set-up sequence with the
    bit-timing word of the device and starts the queue. *)
Theorem set_mode_outcome (p : tcan4550_priv) (d : spi_device) (mode : can_mode) :
  spi p = Some d ->
  (mode <> CAN_MODE_START -> tcan4550_set_mode p mode = (- EOPNOTSUPP, p))
  /\ (mode = CAN_MODE_START ->
      fst (tcan4550_set_mode p mode) = 0
      /\ queue_count (snd (tcan4550_set_mode p mode)) = 0
      /\ tx_skb_buf (snd (tcan4550_set_mode p mode)) = tx_skb_buf p
      /\ state (can (snd (tcan4550_set_mode p mode))) = CAN_STATE_ERROR_ACTIVE
      /\ can_stats (can (snd (tcan4550_set_mode p mode))) = can_stats (can p)
      /\ queue_stopped (ndev (snd (tcan4550_set_mode p mode))) = false
      /\ writes_to NBTP (issued (spi p) (spi (snd (tcan4550_set_mode p mode))))
         = [bitRateReg (bittiming (can p))]
      /\ length (issued (spi p) (spi (snd (tcan4550_set_mode p mode)))) = 533%nat).
Proof.
  intros Hspi. split.
  - intros Hmode. destruct mode; [reflexivity | congruence | reflexivity].
  - intros ->. unfold tcan4550_set_mode.
    set (q0 := set_can _ _).
    destruct (tcan4550_init_some q0 d (bitRateReg (bittiming (can p))) Hspi)
      as (d' & m1 & c1 & c2 & t & m2 & R & S & _).
    pose proof (tcan4550_init_ring q0 (bitRateReg (bittiming (can p))))
      as (I0 & I1 & I2 & I3 & _ & I5 & I6).
    destruct (tcan4550_init q0 (bitRateReg (bittiming (can p)))) as [ok q].
    cbn [fst snd] in R, I0, I1, I2, I3, I5, I6. subst ok. cbn [fst snd].
    destruct (init_requests_nbtp (bitRateReg (bittiming (can p))) (ctrlmode (can q0))
                m1 c1 c2 t m2 (bitRateReg_is_word _)) as (Hn & Hl).
    cbn [set_ndev spi can ndev tx_head tx_tail tx_skb_buf netif_start_queue
         set_queue_stopped queue_stopped].
    unfold queue_count. cbn [set_ndev tx_head tx_tail]. rewrite I1, I2, I3, I5, R, Hspi.
    unfold issued. cbn [sent]. rewrite S, drop_app_length.
    repeat split; try reflexivity; assumption.
Qed.

Lemma set_mode_outcome_witness :
  (CAN_MODE_START <> CAN_MODE_START ->
   tcan4550_set_mode loopback_priv CAN_MODE_START = (- EOPNOTSUPP, loopback_priv))
  /\ (CAN_MODE_START = CAN_MODE_START ->
      fst (tcan4550_set_mode loopback_priv CAN_MODE_START) = 0
      /\ queue_count (snd (tcan4550_set_mode loopback_priv CAN_MODE_START)) = 0
      /\ tx_skb_buf (snd (tcan4550_set_mode loopback_priv CAN_MODE_START))
         = tx_skb_buf loopback_priv
      /\ state (can (snd (tcan4550_set_mode loopback_priv CAN_MODE_START)))
         = CAN_STATE_ERROR_ACTIVE
      /\ can_stats (can (snd (tcan4550_set_mode loopback_priv CAN_MODE_START)))
         = can_stats (can loopback_priv)
      /\ queue_stopped (ndev (snd (tcan4550_set_mode loopback_priv CAN_MODE_START))) = false
      /\ writes_to NBTP
           (issued (spi loopback_priv)
              (spi (snd (tcan4550_set_mode loopback_priv CAN_MODE_START))))
         = [bitRateReg (bittiming (can loopback_priv))]
      /\ length (issued (spi loopback_priv)
                   (spi (snd (tcan4550_set_mode loopback_priv CAN_MODE_START)))) = 533%nat).
Proof. apply (set_mode_outcome loopback_priv (steady_bus 0x10) CAN_MODE_START). reflexivity. Defined.

(** ** Bus-off: the interrupt and what follows it *)

Lemma handler_queue_flag (p : tcan4550_priv) :
  queue_stopped (ndev (snd (tcan4450_handleInterrupts p)))
  = (if bit_set (fst (spi_read32 (spi p) IR)) BO then true
     else if bit_set (fst (spi_read32 (spi p) IR)) TFE then false
     else queue_stopped (ndev p)).
Proof.
  unfold tcan4450_handleInterrupts. destruct (spi_read32 (spi p) IR) as [ir s1]. cbn [fst].
  destruct (spi_write32 s1 IR ir) as [ret s2].
  destruct (Z.eqb_spec ir 0) as [-> | Hir].
  { rewrite !bit_set_0. reflexivity. }
  cbn [snd].
  pose proof (recMsgs_flags (set_spi p s2)) as (Rq & _).
  set (q1 := if bit_set ir RF0N then snd (tcan4550_recMsgs (set_spi p s2)) else set_spi p s2).
  assert (Q1 : queue_stopped (ndev q1) = queue_stopped (ndev p)).
  { unfold q1. destruct (bit_set ir RF0N); [rewrite Rq |]; reflexivity. }
  clearbody q1.
  set (q2 := if bit_set ir TFE then set_ndev q1 (netif_wake_queue (ndev q1)) else q1).
  assert (Q2 : queue_stopped (ndev q2)
               = (if bit_set ir TFE then false else queue_stopped (ndev p))).
  { unfold q2. destruct (bit_set ir TFE); [reflexivity | exact Q1]. }
  clearbody q2.
  pose proof (handle_bus_off_effect q2) as (_ & _ & _ & _ & _ & _ & F7 & _).
  destruct (bit_set ir BO), (bit_set ir EW), (bit_set ir EP);
    cbn [set_can ndev]; rewrite ?F7, ?Q2; reflexivity.
Qed.

Lemma tcan_close_stops_queue (p p' : tcan4550_priv) (r : Z) :
  tcan_close p = Some (r, p') -> queue_stopped (ndev p') = true.
Proof.
  unfold tcan_close. destruct (spi (set_can _ _)); [| discriminate].
  intros [= _ <-]. reflexivity.
Qed.

Lemma quiet_step_keeps_stopped (p p' : tcan4550_priv) :
  quiet_step p p' -> queue_stopped (ndev p) = true -> queue_stopped (ndev p') = true.
Proof.
  intros Hstep Hs. destruct Hstep as [skb p | p p' Hw | p Hir | p mode Hm | p p' r Hc].
  - apply tcan_start_xmit_keeps_stopped. exact Hs.
  - rewrite (worker_keeps_queue_flag p p' Hw). exact Hs.
  - rewrite handler_queue_flag.
    destruct (bit_set (fst (spi_read32 (spi p) IR)) BO); [reflexivity |].
    destruct Hir as [-> | C]; [exact Hs | discriminate].
  - destruct mode; [exact Hs | congruence | exact Hs].
  - exact (tcan_close_stops_queue p p' r Hc).
Qed.

Lemma quiet_run_keeps_stopped (p0 p : tcan4550_priv) :
  quiet_run p0 p -> queue_stopped (ndev p0) = true -> queue_stopped (ndev p) = true.
Proof.
  intros Hrun H0. induction Hrun as [| p p' _ IH Hstep]; [exact H0 |].
  exact (quiet_step_keeps_stopped p p' Hstep IH).
Qed.

(** C4, amended: when the interrupt register reads as the bus-off bit
    alone, the handler acknowledges it, sets the state to bus-off, writes 0 to
    the interrupt-enable register (its only write there), notifies the stack
    and stops the queue; it hands one bus-off error frame upward when a
    buffer for it can be allocated and none when the allocation fails.  The
    queue then stays stopped through every sequence of submissions, worker
    passes, closes, mode changes other than a start, and interrupts other
    than those reporting transmit-FIFO-empty without bus-off; an explicit
    restart, from any state such a sequence leads to, returns 0 and starts
    the queue again in the error-active state. *)
Theorem bus_off_handling (p : tcan4550_priv) :
  fst (spi_read32 (spi p) IR) = BO ->
  fst (tcan4450_handleInterrupts p) = IRQ_HANDLED
  /\ state (can (snd (tcan4450_handleInterrupts p))) = CAN_STATE_BUS_OFF
  /\ bus_off (can_stats (can (snd (tcan4450_handleInterrupts p))))
     = bus_off (can_stats (can p)) + 1
  /\ issued (spi p) (spi (snd (tcan4450_handleInterrupts p)))
     = [read32_request IR; write32_request IR BO; write32_request IE 0]
  /\ writes_to IE (issued (spi p) (spi (snd (tcan4450_handleInterrupts p)))) = [0]
  /\ netif_rx (ndev (snd (tcan4450_handleInterrupts p)))
     = netif_rx (ndev p)
       ++ (if skb_alloc (ndev p) (skb_allocs (ndev p)) then [bus_off_frame] else [])
  /\ bus_off_notified (ndev (snd (tcan4450_handleInterrupts p))) = S (bus_off_notified (ndev p))
  /\ queue_stopped (ndev (snd (tcan4450_handleInterrupts p))) = true
  /\ (forall q,
        quiet_run (snd (tcan4450_handleInterrupts p)) q ->
        queue_stopped (ndev q) = true
        /\ fst (tcan4550_set_mode q CAN_MODE_START) = 0
        /\ queue_stopped (ndev (snd (tcan4550_set_mode q CAN_MODE_START))) = false
        /\ state (can (snd (tcan4550_set_mode q CAN_MODE_START))) = CAN_STATE_ERROR_ACTIVE).
Proof.
  intros Hir.
  assert (Hmain :
    fst (tcan4450_handleInterrupts p) = IRQ_HANDLED
    /\ state (can (snd (tcan4450_handleInterrupts p))) = CAN_STATE_BUS_OFF
    /\ bus_off (can_stats (can (snd (tcan4450_handleInterrupts p))))
       = bus_off (can_stats (can p)) + 1
    /\ issued (spi p) (spi (snd (tcan4450_handleInterrupts p)))
       = [read32_request IR; write32_request IR BO; write32_request IE 0]
    /\ writes_to IE (issued (spi p) (spi (snd (tcan4450_handleInterrupts p)))) = [0]
    /\ netif_rx (ndev (snd (tcan4450_handleInterrupts p)))
       = netif_rx (ndev p)
         ++ (if skb_alloc (ndev p) (skb_allocs (ndev p)) then [bus_off_frame] else [])
    /\ bus_off_notified (ndev (snd (tcan4450_handleInterrupts p)))
       = S (bus_off_notified (ndev p))
    /\ queue_stopped (ndev (snd (tcan4450_handleInterrupts p))) = true).
  { unfold tcan4450_handleInterrupts, issued.
    destruct (spi p) as [d |] eqn:Hspi; [| vm_compute in Hir; discriminate].
    destruct (spi_read32_some d IR) as (ir & d1 & E1 & S1 & R1).
    rewrite E1 in *. cbn [fst] in Hir. subst ir.
    destruct (spi_write32_some d1 IR BO) as (r2 & d2 & E2 & S2 & R2). rewrite E2.
    change (BO =? 0) with false. change (bit_set BO RF0N) with false.
    change (bit_set BO TFE) with false. change (bit_set BO BO) with true.
    change (bit_set BO EW) with false. change (bit_set BO EP) with false.
    cbv iota. unfold handle_bus_off.
    cbn [set_ndev set_can set_spi spi can ndev].
    destruct (spi_write32_some d2 IE 0) as (r3 & d3 & E3 & S3 & R3). rewrite E3.
    unfold alloc_skb.
    cbn [set_ndev set_can set_spi spi can ndev fst snd can_bus_off skb_alloc skb_allocs].
    cbn [state set_state can_stats bus_off sent].
    rewrite S3, S2, S1. rewrite <- !app_assoc. rewrite drop_app_length.
    split; [reflexivity |]. split; [reflexivity |]. split; [reflexivity |].
    split; [reflexivity |]. split; [reflexivity |].
    destruct (skb_alloc (ndev p) (skb_allocs (ndev p))); cbn; (split; [| split; reflexivity]).
    - reflexivity.
    - rewrite app_nil_r. reflexivity. }
  destruct Hmain as (M1 & M2 & M3 & M4 & M5 & M6 & M7 & M8).
  refine (conj M1 (conj M2 (conj M3 (conj M4 (conj M5 (conj M6 (conj M7 (conj M8 _)))))))).
  intros q Hrun.
  destruct (restart_reopens q) as (R1 & R2 & R3 & _).
  split; [exact (quiet_run_keeps_stopped _ q Hrun M8) |].
  split; [exact R1 |]. split; [exact R2 | exact R3].
Qed.

Lemma bus_off_handling_witness :
  netif_rx (ndev (snd (tcan4450_handleInterrupts (fresh_priv (steady_bus BO) (fun _ => true)))))
  = [bus_off_frame]
  /\ queue_stopped
       (ndev (snd (tcan_start_xmit sample_skb
                     (snd (tcan4450_handleInterrupts
                             (fresh_priv (steady_bus BO) (fun _ => true))))))) = true.
Proof.
  destruct (bus_off_handling (fresh_priv (steady_bus BO) (fun _ => true)) eq_refl)
    as (_ & _ & _ & _ & _ & Hrx & _ & _ & Hrun).
  split; [exact Hrx |].
  exact (proj1 (Hrun _ (quiet_then _ _ _ (quiet_here _) (quiet_xmit sample_skb _)))).
Defined.

(** Counterexample to C4 as stated.  With the bus-off bit alone in the
    interrupt register and no buffer to be had, the handler goes bus-off and
    disables the interrupts, yet hands no frame upward.  And bus-off does not
    close the submission path for good: [tcan_start_xmit] does not look at
    the state and enqueues a buffer handed to it right after the bus-off
    interrupt, and a later interrupt that reports transmit-FIFO-empty wakes
    the queue while the state is still bus-off, without any restart. *)
Lemma bus_off_frame_lost_and_queue_woken :
  fst (spi_read32 (spi (fresh_priv (steady_bus BO) (fun _ => false))) IR) = BO
  /\ state (can (snd (tcan4450_handleInterrupts (fresh_priv (steady_bus BO) (fun _ => false)))))
     = CAN_STATE_BUS_OFF
  /\ netif_rx (ndev (snd (tcan4450_handleInterrupts
                            (fresh_priv (steady_bus BO) (fun _ => false))))) = []
  /\ fst (tcan_start_xmit sample_skb
            (snd (tcan4450_handleInterrupts (fresh_priv (steady_bus BO) (fun _ => true)))))
     = NETDEV_TX_OK
  /\ tx_head (snd (tcan_start_xmit sample_skb
                     (snd (tcan4450_handleInterrupts
                             (fresh_priv (steady_bus BO) (fun _ => true)))))) = 1
  /\ fst (spi_read32 (spi (fresh_priv bus_off_then_tfe (fun _ => true))) IR) = BO
  /\ queue_stopped
       (ndev (snd (tcan4450_handleInterrupts (fresh_priv bus_off_then_tfe (fun _ => true)))))
     = true
  /\ state (can (snd (tcan4450_handleInterrupts
                        (snd (tcan4450_handleInterrupts
                                (fresh_priv bus_off_then_tfe (fun _ => true)))))))
     = CAN_STATE_BUS_OFF
  /\ queue_stopped
       (ndev (snd (tcan4450_handleInterrupts
                     (snd (tcan4450_handleInterrupts
                             (fresh_priv bus_off_then_tfe (fun _ => true)))))))
     = false.
Proof. repeat split; reflexivity. Qed.

(** ** The prescaler is packed as given *)



